(** * Hong Kong sunset-cloud generators: a shallow embedding

    The repository holds two generators of a synthetic daily series:
    [HKODataCollector.generate_realistic_sunset_data] (hko_data_collector.py)
    and [HongKongSunsetClouds.generate_realistic_data]
    (hongkong_sunset_clouds.py).  Both walk a [pd.date_range] of calendar
    days, draw from numpy's process-wide random state and append one
    dictionary per day.

    Conventions of the embedding:
    - Python floats are read as real numbers ([R]); [np.sin] and [np.pi] are
      [sin] and [PI].
    - numpy's random state is an abstract type with one operation per
      distribution ([NumpyRandom]); every draw returns a value and the next
      state, so the order of the draws is the order of the source.
    - Python exceptions are values of [exn], named by the class of the
      exception raised; code that can raise lives in the monad [M] (state
      of the generator plus exceptions).
    - [datetime(y, m, d)] is CPython's: OverflowError for an argument that
      does not fit a C int (32 bits), ValueError for a year outside 1 to
      9999.
    - What depends on the installed Python and pandas, and not on the
      source, is a [Platform]: how many digits [str] prints of an int, and
      which dates [pd.date_range] accepts.  pandas up to 2.x works in
      nanoseconds and raises OutOfBoundsDatetime for a date outside
      1677-09-22 to 2262-04-11; pandas 3 accepts every [datetime].  Every
      platform accepts the dates of the nanosecond range and prints every
      int of at most 640 digits; the theorems hold on every platform.
    - [pd.date_range(start, end, freq='D')], when it returns, is every
      calendar day from [start] to [end], both included, in order, and
      empty when [end] is before [start].
    - [pd.DataFrame(rows)] is the list of its rows; a frame built from an
      empty list has no columns.
    - Console output is not part of the model, beyond the formatting of the
      two years in the first message of the collector. *)

From Stdlib Require Import String ZArith List Bool Lia FinFun Sorted.
From Stdlib Require Import Reals Lra.
Import ListNotations.

Local Open Scope Z_scope.

(** ** Python values and built-ins *)

Inductive exn : Type :=
| ValueError          (* datetime(...) with a field out of range,
                         str of an int with too many digits *)
| OverflowError       (* datetime(...) with an int that fits no C int *)
| OutOfBoundsDatetime (* pandas.errors.OutOfBoundsDatetime (in pandas a
                         subclass of ValueError): a date outside what the
                         timestamps of pd.date_range hold *)
| KeyError            (* missing dict key, missing DataFrame column *)
| IndexError          (* list index out of range *)
| ZeroDivisionError.  (* float division by zero *)

Inductive result (A : Type) : Type :=
| Ok (a : A)
| Raise (e : exn).
Arguments Ok {A} a.
Arguments Raise {A} e.

(** [min(a, b)] keeps its first argument unless the second is smaller;
    [max(a, b)] keeps its first argument unless the second is larger. *)
Definition py_min (a b : R) : R := if Rlt_dec b a then b else a.
Definition py_max (a b : R) : R := if Rlt_dec a b then b else a.

(** [x < y] on floats, as a boolean. *)
Definition py_lt (x y : R) : bool := if Rlt_dec x y then true else false.

(** [k in xs] for a list of ints. *)
Definition py_in (k : Z) (xs : list Z) : bool := existsb (Z.eqb k) xs.

(** [xs[i]]: a negative index counts from the end, anything outside the
    list raises IndexError. *)
Definition py_getitem {A : Type} (xs : list A) (i : Z) : result A :=
  let n := Z.of_nat (length xs) in
  let j := if i <? 0 then i + n else i in
  if (j <? 0) || (n <=? j) then Raise IndexError
  else match nth_error xs (Z.to_nat j) with
       | Some x => Ok x
       | None => Raise IndexError
       end.

(** [d[k]] for a dict with int keys, kept as an association list in
    insertion order. *)
Fixpoint dict_getitem {A : Type} (d : list (Z * A)) (k : Z) : result A :=
  match d with
  | [] => Raise KeyError
  | (k', v) :: d' => if k =? k' then Ok v else dict_getitem d' k
  end.

(** ** Calendar *)

Definition MINYEAR : Z := 1.
Definition MAXYEAR : Z := 9999.

Record datetime : Type := mkdate { dt_year : Z; dt_month : Z; dt_day : Z }.

Definition is_leap (y : Z) : bool :=
  (y mod 4 =? 0) && (negb (y mod 100 =? 0) || (y mod 400 =? 0)).

Definition days_in_month (y m : Z) : Z :=
  if m =? 2 then (if is_leap y then 29 else 28)
  else if py_in m [4; 6; 9; 11] then 30 else 31.

Definition days_before_year (y : Z) : Z :=
  let p := y - 1 in p * 365 + p / 4 - p / 100 + p / 400.

Definition DAYS_BEFORE_MONTH : list Z :=
  [0; 31; 59; 90; 120; 151; 181; 212; 243; 273; 304; 334].

Definition days_before_month (y m : Z) : Z :=
  nth (Z.to_nat (m - 1)) DAYS_BEFORE_MONTH 0
  + (if (2 <? m) && is_leap y then 1 else 0).

(** [date.toordinal()]: day number in the proleptic Gregorian calendar,
    1 for 0001-01-01. *)
Definition toordinal (d : datetime) : Z :=
  days_before_year (dt_year d) + days_before_month (dt_year d) (dt_month d)
  + dt_day d.

(** [date.timetuple().tm_yday] *)
Definition tm_yday (d : datetime) : Z :=
  days_before_month (dt_year d) (dt_month d) + dt_day d.

Definition valid_date (d : datetime) : bool :=
  (MINYEAR <=? dt_year d) && (dt_year d <=? MAXYEAR)
  && (1 <=? dt_month d) && (dt_month d <=? 12)
  && (1 <=? dt_day d) && (dt_day d <=? days_in_month (dt_year d) (dt_month d)).

(** The ints a C int holds: CPython parses the three arguments of
    [datetime(y, m, d)] into C ints before it looks at their range. *)
Definition INT_MIN : Z := - 2 ^ 31.
Definition INT_MAX : Z := 2 ^ 31 - 1.

Definition fits_c_int (n : Z) : bool := (INT_MIN <=? n) && (n <=? INT_MAX).

(** [datetime(y, m, d)]: OverflowError when an argument does not fit a
    C int, ValueError when a field is out of range. *)
Definition new_datetime (y m d : Z) : result datetime :=
  if negb (fits_c_int y && fits_c_int m && fits_c_int d) then
    Raise OverflowError
  else if valid_date (mkdate y m d) then Ok (mkdate y m d)
  else Raise ValueError.

(** The integers [a, a+1, ..., b] (empty when [b < a]). *)
Definition zrange (a b : Z) : list Z :=
  map (fun k => a + Z.of_nat k) (seq 0 (Z.to_nat (b - a + 1))).

Definition days_of_month (y m : Z) : list datetime :=
  map (mkdate y m) (zrange 1 (days_in_month y m)).

Definition days_of_year (y : Z) : list datetime :=
  flat_map (days_of_month y) (zrange 1 12).

(** Lexicographic order on (year, month, day). *)
Definition date_leb (a b : datetime) : bool :=
  (dt_year a <? dt_year b)
  || ((dt_year a =? dt_year b)
      && ((dt_month a <? dt_month b)
          || ((dt_month a =? dt_month b) && (dt_day a <=? dt_day b)))).

(** The calendar days from [s] to [e], both included: the days of the
    years [s.year .. e.year] that are not before [s] and not after [e]. *)
Definition days_from_to (s e : datetime) : list datetime :=
  filter (fun d => date_leb s d && date_leb d e)
         (flat_map days_of_year (zrange (dt_year s) (dt_year e))).

(** ** The installed Python and pandas *)

(** The dates (at midnight) between [pd.Timestamp.min], 1677-09-21
    00:12:43.145224193, and [pd.Timestamp.max], 2262-04-11
    23:47:16.854775807: what a count of nanoseconds in 64 bits holds. *)
Definition nanosecond_date (d : datetime) : bool :=
  date_leb (mkdate 1677 9 22) d && date_leb d (mkdate 2262 4 11).

(** The smallest limit [sys.set_int_max_str_digits] accepts, apart from
    0 for no limit. *)
Definition MAX_STR_DIGITS_THRESHOLD : Z := 640.

(** [int_str_ok n]: [str(n)] is within the limit on the digits of an int
    (CPython 3.11 and later: 4300 by default, never below 640; no limit
    before).  [timestamp_ok d]: [pd.date_range] can hold [d] (pandas up
    to 2.x: the nanosecond range; pandas 3: every [datetime]). *)
Class Platform : Type := {
  int_str_ok : Z -> bool;
  timestamp_ok : datetime -> bool;
  int_str_small :
    forall n, Z.abs n < 10 ^ MAX_STR_DIGITS_THRESHOLD -> int_str_ok n = true;
  timestamp_nanosecond :
    forall d, nanosecond_date d = true -> timestamp_ok d = true
}.

(** Two platforms to run the model on.  [NanosecondPlatform]: CPython
    3.11 or later with its default limit of 4300 digits and a pandas up
    to 2.x.  [MicrosecondPlatform]: no limit on the digits and pandas 3. *)
Definition NanosecondPlatform : Platform.
Proof.
  refine {| int_str_ok := fun n => Z.abs n <? 10 ^ 4300;
            timestamp_ok := nanosecond_date |}.
  - intros n H. apply Z.ltb_lt. eapply Z.lt_le_trans; [exact H|].
    unfold MAX_STR_DIGITS_THRESHOLD. apply Z.pow_le_mono_r; lia.
  - intros d H. exact H.
Defined.

Definition MicrosecondPlatform : Platform :=
  {| int_str_ok := fun _ => true;
     timestamp_ok := fun _ => true;
     int_str_small := fun _ _ => eq_refl;
     timestamp_nanosecond := fun _ _ => eq_refl |}.

(** [f"{n}"] for an int: ValueError above the limit on the digits.  The
    text itself is not kept. *)
Definition format_int {P : Platform} (n : Z) : result unit :=
  if int_str_ok n then Ok tt else Raise ValueError.

(** [pd.date_range(start=s, end=e, freq='D')]: OutOfBoundsDatetime when
    an end of the range is outside what the timestamps hold, else the
    days from [s] to [e]. *)
Definition date_range {P : Platform} (s e : datetime)
  : result (list datetime) :=
  if timestamp_ok s && timestamp_ok e then Ok (days_from_to s e)
  else Raise OutOfBoundsDatetime.

(** ** numpy's random state *)

(** The distributions the generators draw from, with the arguments of the
    call. *)
Inductive dist : Type :=
| Normal (loc scale : R)       (* np.random.normal(loc, scale) *)
| Random                       (* np.random.random() *)
| Beta (a b : R)               (* np.random.beta(a, b) *)
| Uniform (low high : R)       (* np.random.uniform(low, high) *)
| Exponential (scale : R)      (* np.random.exponential(scale) *)
| Gamma (shape scale : R).     (* np.random.gamma(shape, scale) *)

(** The process-wide generator: [np.random.seed] resets it, every draw
    returns a float and advances it. *)
Class NumpyRandom : Type := {
  rng_state : Type;
  seed : Z -> rng_state;
  draw : dist -> rng_state -> R * rng_state
}.

(** Where numpy documents each distribution to take its values. *)
Definition support (d : dist) (x : R) : Prop :=
  match d with
  | Normal _ _ => True
  | Random => (0 <= x < 1)%R
  | Beta _ _ => (0 <= x <= 1)%R
  | Uniform low high => (Rmin low high <= x <= Rmax low high)%R
  | Exponential _ => (0 <= x)%R
  | Gamma _ _ => (0 <= x)%R
  end.

Definition well_distributed (G : NumpyRandom) : Prop :=
  forall d s, support d (fst (draw d s)).

(** Generators without any randomness, to run the model on: [random()]
    returns [u], every other draw returns the middle of its distribution,
    and the state counts the draws. *)
Definition dist_mean (d : dist) : R :=
  match d with
  | Normal loc _ => loc
  | Random => 1 / 2
  | Beta a b => 1 / 2
  | Uniform low high => (low + high) / 2
  | Exponential scale => Rabs scale
  | Gamma shape scale => Rabs (shape * scale)
  end.

Definition ConstRandom (u : R) : NumpyRandom := {|
  rng_state := nat;
  seed := fun _ => 0%nat;
  draw := fun d n => (match d with Random => u | _ => dist_mean d end, S n)
|}.

Definition MeanRandom : NumpyRandom := ConstRandom (1 / 2).

(** ** The monad of the generators: random state and exceptions *)

Section Monad.
Context {G : NumpyRandom}.

Definition M (A : Type) : Type := rng_state -> result (A * rng_state).

Definition ret {A : Type} (a : A) : M A := fun s => Ok (a, s).

Definition bind {A B : Type} (c : M A) (k : A -> M B) : M B :=
  fun s => match c s with
           | Ok (a, s') => k a s'
           | Raise e => Raise e
           end.

(** A pure computation that may raise. *)
Definition lift {A : Type} (r : result A) : M A :=
  fun s => match r with
           | Ok a => Ok (a, s)
           | Raise e => Raise e
           end.

Definition sample (d : dist) : M R := fun s => Ok (draw d s).

(** [np.random.seed(n)] *)
Definition np_random_seed (n : Z) : M unit := fun _ => Ok (tt, seed n).
End Monad.

Declare Scope monad_scope.
Delimit Scope monad_scope with monad.
Notation "x <- c ;; k" := (bind c (fun x => k))
  (at level 61, c at next level, right associativity) : monad_scope.
Notation "' p <- c ;; k" := (bind c (fun x => let p := x in k))
  (at level 61, p pattern, c at next level, right associativity) : monad_scope.
Notation "c ;;; k" := (bind c (fun _ => k))
  (at level 61, right associativity) : monad_scope.

(** [for x in xs: out.append(body(x))] *)
Fixpoint for_each {G : NumpyRandom} {A B : Type}
         (xs : list A) (body : A -> M B) : M (list B) :=
  match xs with
  | [] => ret []
  | x :: xs' =>
      bind (body x) (fun b => bind (for_each xs' body) (fun bs => ret (b :: bs)))
  end.

(** [df[column]] on [pd.DataFrame(rows)]: a frame built from an empty list
    has no columns, so every column access raises KeyError. *)
Definition frame_column {Row A : Type} (df : list Row) (column : Row -> A)
  : result (list A) :=
  match df with
  | [] => Raise KeyError
  | _ :: _ => Ok (map column df)
  end.

(** [.sum()] of a boolean column *)
Definition column_sum (c : list bool) : Z :=
  fold_right (fun (b : bool) n => (if b then 1 else 0) + n) 0 c.

(** Float division: ZeroDivisionError on a zero divisor. *)
Definition py_div (x y : R) : result R :=
  if Req_dec_T y 0 then Raise ZeroDivisionError else Ok (x / y)%R.

(** ** hko_data_collector.py *)

Module HKODataCollector.
Local Open Scope R_scope.
Local Open Scope monad_scope.

Record climate_data_t : Type := {
  monthly_sunset_probability : list (Z * R);
  average_temperature : list R;
  average_humidity : list R;
  average_pressure : list R
}.

Definition fetch_current_conditions : climate_data_t := {|
  monthly_sunset_probability :=
    [(1%Z, 0.25); (2%Z, 0.28); (3%Z, 0.20); (4%Z, 0.15); (5%Z, 0.12);
     (6%Z, 0.08); (7%Z, 0.10); (8%Z, 0.12); (9%Z, 0.18); (10%Z, 0.35);
     (11%Z, 0.40); (12%Z, 0.30)];
  average_temperature :=
    [17.1; 18.3; 21.8; 25.8; 29.1; 31.2; 32.1; 31.9; 30.1; 26.8; 22.5; 18.7];
  average_humidity := [72; 78; 82; 84; 85; 83; 82; 81; 77; 73; 68; 69];
  average_pressure :=
    [1018; 1016; 1013; 1009; 1006; 1004; 1004; 1006; 1011; 1016; 1019; 1020]
|}.

Record season_info : Type := {
  months : list Z;
  cloud_factor : R;
  visibility_factor : R
}.

Record climate_cycles_t : Type := {
  enso_cycle : R;
  sunspot_cycle : R;
  monsoon_pattern : R
}.

Record extreme_weather_impact_t : Type := {
  typhoon_season : list Z;
  dry_season : list Z;
  wet_season : list Z
}.

Record patterns_t : Type := {
  seasonal_factors : list (string * season_info);
  climate_cycles : climate_cycles_t;
  extreme_weather_impact : extreme_weather_impact_t
}.

Definition get_historical_weather_patterns : patterns_t := {|
  seasonal_factors :=
    [("spring"%string,
      {| months := [3; 4; 5]%Z; cloud_factor := 0.6; visibility_factor := 0.7 |});
     ("summer"%string,
      {| months := [6; 7; 8]%Z; cloud_factor := 0.4; visibility_factor := 0.6 |});
     ("autumn"%string,
      {| months := [9; 10; 11]%Z; cloud_factor := 1.2; visibility_factor := 1.3 |});
     ("winter"%string,
      {| months := [12; 1; 2]%Z; cloud_factor := 1.0; visibility_factor := 1.2 |})];
  climate_cycles :=
    {| enso_cycle := 3.5; sunspot_cycle := 11; monsoon_pattern := 6 |};
  extreme_weather_impact :=
    {| typhoon_season := [5; 6; 7; 8; 9; 10; 11]%Z;
       dry_season := [10; 11; 12; 1; 2; 3]%Z;
       wet_season := [4; 5; 6; 7; 8; 9]%Z |}
|}.

(** One row of the returned frame (the dict appended to [data_list]). *)
Record Observation : Type := {
  date : datetime;
  year : Z;
  month : Z;
  day_of_year : Z;
  has_sunset_clouds : bool;
  intensity : R;
  duration_minutes : R;
  coverage_percent : R;
  color_richness : R;
  temperature_c : R;
  humidity_percent : R;
  pressure_hpa : R;
  visibility_km : R;
  wind_speed_kmh : R;
  season_factor : R;
  enso_phase : R
}.

(** [for season, info in ...items(): if month in info['months']: ...; break]
    starting from [season_factor]. *)
Fixpoint season_factor_loop (items : list (string * season_info))
         (month : Z) (season_factor : R) : R :=
  match items with
  | [] => season_factor
  | (_, info) :: rest =>
      if py_in month (months info) then cloud_factor info
      else season_factor_loop rest month season_factor
  end.

(** Lines 117-120: the final probability from its ingredients. *)
Definition final_prob (base_prob season_factor urbanization_trend
                       enso_phase sunspot_phase daily_weather : R) : R :=
  let final_prob := base_prob * season_factor * urbanization_trend in
  let final_prob :=
    final_prob * (1 + 0.1 * enso_phase + 0.05 * sunspot_phase + daily_weather) in
  py_max 0 (py_min 0.8 final_prob).

Section Generator.
Context {G : NumpyRandom} {P : Platform}.

(** Lines 93-120 of the loop body: season factor, ENSO phase and the
    probability of the day. *)
Definition day_probability (climate_data : climate_data_t)
           (patterns : patterns_t) (start_year : Z) (date : datetime)
  : M (R * R * R) :=
  let year := dt_year date in
  let month := dt_month date in
  base_prob <- lift (dict_getitem (monthly_sunset_probability climate_data) month) ;;
  let enso_phase :=
    sin (2 * PI * IZR (year - start_year)
         / enso_cycle (climate_cycles patterns)) in
  let sunspot_phase :=
    sin (2 * PI * IZR (year - start_year)
         / sunspot_cycle (climate_cycles patterns)) in
  let season_factor :=
    season_factor_loop (seasonal_factors patterns) month 1.0 in
  let urbanization_trend := 1 + 0.01 * IZR (year - start_year) / 20 in
  daily_weather <- sample (Normal 0 0.2) ;;
  ret (season_factor, enso_phase,
       final_prob base_prob season_factor urbanization_trend
                  enso_phase sunspot_phase daily_weather).

(** Lines 126-151: intensity, duration, coverage and color richness,
    before clamping. *)
Definition sunset_attributes (has_sunset_clouds : bool) (month : Z)
  : M (R * R * R * R) :=
  if has_sunset_clouds then
    b <- sample (Beta 2 2) ;;
    let base_intensity := b * 10 in
    intensity <-
      (if py_in month [10; 11; 12; 1]%Z then
         u <- sample (Uniform 1.2 1.5) ;; ret (base_intensity * u)
       else if py_in month [6; 7; 8]%Z then
         u <- sample (Uniform 0.6 0.9) ;; ret (base_intensity * u)
       else
         u <- sample (Uniform 0.8 1.1) ;; ret (base_intensity * u)) ;;
    e <- sample (Exponential 25) ;;
    let duration := 15 + e in
    c <- sample (Beta 2 3) ;;
    let coverage := c * 100 in
    u <- sample (Uniform 0.8 1.2) ;;
    let color_richness := intensity * u in
    ret (intensity, duration, coverage, color_richness)
  else
    ret (0, 0, 0, 0).

(** Lines 153-169: temperature, humidity, pressure, visibility and wind
    speed, before clamping. *)
Definition weather (climate_data : climate_data_t) (month : Z)
  : M (R * R * R * R * R) :=
  t0 <- lift (py_getitem (average_temperature climate_data) (month - 1)) ;;
  n <- sample (Normal 0 3) ;;
  let temp := t0 + n in
  h0 <- lift (py_getitem (average_humidity climate_data) (month - 1)) ;;
  n <- sample (Normal 0 8) ;;
  let humidity := h0 + n in
  p0 <- lift (py_getitem (average_pressure climate_data) (month - 1)) ;;
  n <- sample (Normal 0 10) ;;
  let pressure := p0 + n in
  let base_visibility := 15 in
  visibility <-
    (if py_in month [3; 4; 5; 6]%Z then
       n <- sample (Normal 0 3) ;; ret (base_visibility * 0.7 + n)
     else
       n <- sample (Normal 0 4) ;; ret (base_visibility * 1.1 + n)) ;;
  wind_speed <-
    (if py_in month [10; 11; 12; 1; 2]%Z then sample (Gamma 3 4)
     else sample (Gamma 2 3)) ;;
  ret (temp, humidity, pressure, visibility, wind_speed).

(** Lines 126-188 of the loop body: what follows the occurrence test,
    up to the row that is appended. *)
Definition day_row (climate_data : climate_data_t) (d : datetime)
           (season_factor enso_phase : R) (has_sunset_clouds : bool)
  : M Observation :=
  let year := dt_year d in
  let month := dt_month d in
  let day_of_year := tm_yday d in
  ' (intensity, duration, coverage, color_richness) <-
    sunset_attributes has_sunset_clouds month ;;
  ' (temp, humidity, pressure, visibility, wind_speed) <-
    weather climate_data month ;;
  ret {| date := d;
         year := year;
         month := month;
         day_of_year := day_of_year;
         has_sunset_clouds := has_sunset_clouds;
         intensity := py_max 0 (py_min 10 intensity);
         duration_minutes := py_max 0 (py_min 120 duration);
         coverage_percent := py_max 0 (py_min 100 coverage);
         color_richness := py_max 0 (py_min 10 color_richness);
         temperature_c := temp;
         humidity_percent := py_max 0 (py_min 100 humidity);
         pressure_hpa := pressure;
         visibility_km := py_max 1 (py_min 50 visibility);
         wind_speed_kmh := py_max 0 wind_speed;
         season_factor := season_factor;
         enso_phase := enso_phase |}.

(** The body of the loop at line 92. *)
Definition observe (climate_data : climate_data_t) (patterns : patterns_t)
           (start_year : Z) (d : datetime) : M Observation :=
  ' (season_factor, enso_phase, final_prob) <-
    day_probability climate_data patterns start_year d ;;
  u <- sample Random ;;
  let has_sunset_clouds := py_lt u final_prob in
  day_row climate_data d season_factor enso_phase has_sunset_clouds.

(** [generate_realistic_sunset_data(self, start_year, end_year)].  The
    first message (line 79) formats the two years; the frame is the list
    of its rows; the summary printed before the return reads the column
    [has_sunset_clouds]. *)
Definition generate_realistic_sunset_data (start_year end_year : Z)
  : M (list Observation) :=
  lift (format_int start_year) ;;;
  lift (format_int end_year) ;;;
  let climate_data := fetch_current_conditions in
  let patterns := get_historical_weather_patterns in
  start_date <- lift (new_datetime start_year 1 1) ;;
  end_date <- lift (new_datetime end_year 12 31) ;;
  date_range <- lift (date_range start_date end_date) ;;
  np_random_seed 42 ;;;
  data_list <- for_each date_range (observe climate_data patterns start_year) ;;
  let df := data_list in
  column <- lift (frame_column df has_sunset_clouds) ;;
  let sunset_days := column_sum column in
  ret df.
End Generator.
End HKODataCollector.

(** ** hongkong_sunset_clouds.py: the built-in generator *)

Module HongKongSunsetClouds.
Local Open Scope R_scope.
Local Open Scope monad_scope.

Definition realistic_month_prob : list (Z * R) :=
  [(1%Z, 0.25); (2%Z, 0.28); (3%Z, 0.20); (4%Z, 0.15); (5%Z, 0.12);
   (6%Z, 0.08); (7%Z, 0.10); (8%Z, 0.12); (9%Z, 0.18); (10%Z, 0.35);
   (11%Z, 0.40); (12%Z, 0.30)].

Definition avg_temp_by_month : list R :=
  [17; 18; 22; 26; 29; 31; 32; 32; 30; 27; 23; 19].

Definition avg_humidity_by_month : list R :=
  [72; 78; 82; 84; 85; 83; 82; 81; 77; 73; 68; 69].

(** One row of [self.data]. *)
Record Observation : Type := {
  date : datetime;
  year : Z;
  month : Z;
  day_of_year : Z;
  has_sunset_clouds : bool;
  intensity : R;
  duration_minutes : R;
  coverage_percent : R;
  visibility_km : R;
  wind_speed_kmh : R;
  color_richness : R;
  temperature_c : R;
  humidity_percent : R;
  pressure_hpa : R
}.

(** Lines 149-156: the final probability from its ingredients. *)
Definition final_prob (base_prob : R) (year : Z) (daily_random : R) : R :=
  let year_cycle := sin (2 * PI * IZR (year - 2000) / 7) * 0.1 in
  let climate_trend := 0.02 * IZR (year - 2000) / 20 in
  py_max 0 (py_min 1 (base_prob + year_cycle + climate_trend + daily_random)).

Section Generator.
Context {G : NumpyRandom} {P : Platform}.

(** Lines 142-156 *)
Definition day_probability (d : datetime) : M R :=
  let month := dt_month d in
  let year := dt_year d in
  base_prob <- lift (dict_getitem realistic_month_prob month) ;;
  daily_random <- sample (Normal 0 0.3) ;;
  ret (final_prob base_prob year daily_random).

(** Lines 161-200: intensity, duration, coverage, visibility, wind speed
    and color richness, before clamping. *)
Definition sunset_attributes (has_sunset_clouds : bool) (month : Z)
  : M (R * R * R * R * R * R) :=
  if has_sunset_clouds then
    b <- sample (Beta 2 2) ;;
    let base_intensity := b * 10 in
    intensity <-
      (if py_in month [10; 11; 12; 1]%Z then
         u <- sample (Uniform 1.1 1.4) ;; ret (base_intensity * u)
       else
         u <- sample (Uniform 0.7 1.0) ;; ret (base_intensity * u)) ;;
    wind_factor <- sample (Gamma 2 1) ;;
    e <- sample (Exponential 20) ;;
    q <- lift (py_div e wind_factor) ;;
    let duration := 15 + q in
    c <- sample (Beta 2 3) ;;
    let coverage := c * 100 in
    v <- sample (Normal 15 5) ;;
    let visibility := if py_in month [3; 4; 5; 6]%Z then v * 0.7 else v in
    wind_speed <-
      (if py_in month [10; 11; 12; 1; 2]%Z then sample (Gamma 3 4)
       else sample (Gamma 2 3)) ;;
    u <- sample (Uniform 0.8 1.2) ;;
    let color_richness := intensity * u in
    ret (intensity, duration, coverage, visibility, wind_speed, color_richness)
  else
    visibility <- sample (Normal 12 4) ;;
    wind_speed <- sample (Gamma 2 3) ;;
    ret (0, 0, 0, visibility, wind_speed, 0).

(** Lines 202-212: temperature, humidity and pressure. *)
Definition weather (month : Z) : M (R * R * R) :=
  t0 <- lift (py_getitem avg_temp_by_month (month - 1)) ;;
  n <- sample (Normal 0 3) ;;
  let temperature := t0 + n in
  h0 <- lift (py_getitem avg_humidity_by_month (month - 1)) ;;
  n <- sample (Normal 0 8) ;;
  let humidity := h0 + n in
  n <- sample (Normal 0 10) ;;
  let pressure := 1013 + n in
  ret (temperature, humidity, pressure).

(** Lines 161-229 of the loop body: what follows the occurrence test,
    up to the row that is appended. *)
Definition day_row (d : datetime) (has_sunset_clouds : bool)
  : M Observation :=
  let month := dt_month d in
  let year := dt_year d in
  ' (intensity, duration, coverage, visibility, wind_speed, color_richness) <-
    sunset_attributes has_sunset_clouds month ;;
  ' (temperature, humidity, pressure) <- weather month ;;
  ret {| date := d;
         year := year;
         month := month;
         day_of_year := tm_yday d;
         has_sunset_clouds := has_sunset_clouds;
         intensity := py_max 0 (py_min 10 intensity);
         duration_minutes := py_max 0 (py_min 120 duration);
         coverage_percent := py_max 0 (py_min 100 coverage);
         visibility_km := py_max 1 (py_min 50 visibility);
         wind_speed_kmh := py_max 0 wind_speed;
         color_richness := py_max 0 (py_min 10 color_richness);
         temperature_c := temperature;
         humidity_percent := py_max 0 (py_min 100 humidity);
         pressure_hpa := pressure |}.

(** The body of the loop at line 141. *)
Definition observe (d : datetime) : M Observation :=
  final_prob <- day_probability d ;;
  u <- sample Random ;;
  let has_sunset_clouds := py_lt u final_prob in
  day_row d has_sunset_clouds.

(** [generate_realistic_data(self)]: the window is fixed to 2000-2020. *)
Definition generate_realistic_data : M (list Observation) :=
  start_date <- lift (new_datetime 2000 1 1) ;;
  end_date <- lift (new_datetime 2020 12 31) ;;
  date_range <- lift (date_range start_date end_date) ;;
  np_random_seed 42 ;;;
  data_list <- for_each date_range observe ;;
  let data := data_list in
  column <- lift (frame_column data has_sunset_clouds) ;;
  let cloud_observations := column_sum column in
  ret data.
End Generator.
End HongKongSunsetClouds.

(** ** Definitions used to state the properties *)

(** What is left of a run of the collector once [pd.date_range] has
    returned the days of the window: the state is reset, the loop runs
    and the summary reads the column. *)
Definition loop_and_summary {G : NumpyRandom} (sy ey : Z)
  : M (list HKODataCollector.Observation) :=
  fun _ =>
    match for_each (days_from_to (mkdate sy 1 1) (mkdate ey 12 31))
                   (HKODataCollector.observe
                      HKODataCollector.fetch_current_conditions
                      HKODataCollector.get_historical_weather_patterns sy)
                   (seed 42) with
    | Ok ([], _) => Raise KeyError
    | Ok (r :: rows, s1) => Ok (r :: rows, s1)
    | Raise e => Raise e
    end.

(** [clamp(x, lo, hi) = max(lo, min(hi, x))] *)
Definition clamp (x lo hi : R) : R := Rmax lo (Rmin hi x).

(** The probability of a day as the specification writes it: base
    probability times season factor times trend times the modulation by the
    two cycles and the noise, kept within 0 and 0.8. *)
Definition spec_probability (base season_factor : R) (start_year year : Z)
           (noise : R) : R :=
  let trend := (1 + 0.01 * IZR (year - start_year) / 20)%R in
  let interannual_phase := sin (2 * PI * IZR (year - start_year) / 3.5) in
  let longperiod_phase := sin (2 * PI * IZR (year - start_year) / 11) in
  clamp (base * season_factor * trend
         * (1 + 0.1 * interannual_phase + 0.05 * longperiod_phase + noise))
        0 0.8.

(** The season factor of a month as the specification defines it: the
    cloud factor of the season group whose months contain the month, for
    the four groups spring (March to May), summer (June to August),
    autumn (September to November) and winter (December to February). *)
Definition spec_season_factor (month : Z) : R :=
  if py_in month [3; 4; 5] then 0.6
  else if py_in month [6; 7; 8] then 0.4
  else if py_in month [9; 10; 11] then 1.2
  else 1.0.

(** The months of a season group of [seasonal_factors]. *)
Definition season_months (season : string) : list Z :=
  match find (fun item => String.eqb (fst item) season)
             (HKODataCollector.seasonal_factors
                HKODataCollector.get_historical_weather_patterns) with
  | Some (_, info) => HKODataCollector.months info
  | None => []
  end.

(** The seasonal multiplier of the intensity read off the season groups:
    autumn and winter months, summer months, the rest. *)
Definition season_group_multiplier (month : Z) : dist :=
  if py_in month (season_months "autumn" ++ season_months "winter")
  then Uniform 1.2 1.5
  else if py_in month (season_months "summer") then Uniform 0.6 0.9
  else Uniform 0.8 1.1.

(** The seasonal multiplier of the intensity by the month lists of the
    loop body: October to January, June to August, the rest. *)
Definition month_list_multiplier (month : Z) : dist :=
  if py_in month [10; 11; 12; 1] then Uniform 1.2 1.5
  else if py_in month [6; 7; 8] then Uniform 0.6 0.9
  else Uniform 0.8 1.1.

(** A generator whose draws depend on the distribution asked for and not
    on its state. *)
Definition state_independent (G : NumpyRandom) : Prop :=
  forall d s s', fst (draw d s) = fst (draw d s').

(** The declared ranges of the fields of a row. *)
Definition in_declared_ranges (o : HKODataCollector.Observation) : Prop :=
  (0 <= HKODataCollector.intensity o <= 10
   /\ 0 <= HKODataCollector.duration_minutes o <= 120
   /\ 0 <= HKODataCollector.coverage_percent o <= 100
   /\ 0 <= HKODataCollector.color_richness o <= 10
   /\ 0 <= HKODataCollector.humidity_percent o <= 100
   /\ 1 <= HKODataCollector.visibility_km o <= 50
   /\ 0 <= HKODataCollector.wind_speed_kmh o)%R.

(** ** A generator that records its draws *)

(** [Tracing G] draws what [G] draws and appends the distribution asked
    for to a log kept beside the state of [G]. *)
Definition Tracing (G : NumpyRandom) : NumpyRandom := {|
  rng_state := (@rng_state G * list dist)%type;
  seed := fun n => (@seed G n, []);
  draw := fun d st =>
            (fst (@draw G d (fst st)), (snd (@draw G d (fst st)), snd st ++ [d]))
|}.

(** A generator that returns [f d] for the distribution [d], with a state
    that counts the draws. *)
Definition FunRandom (f : dist -> R) : NumpyRandom := {|
  rng_state := nat;
  seed := fun _ => 0%nat;
  draw := fun d n => (f d, S n)
|}.

(** Every draw at the middle of its distribution, except [random()] and
    the gamma draws, which return 0. *)
Definition still_air (d : dist) : R :=
  match d with
  | Random => 0%R
  | Gamma _ _ => 0%R
  | _ => dist_mean d
  end.

(** ** Aggregates of a frame *)

(** One group of [df.groupby(key)[flag].agg(['sum', 'count', 'mean'])]:
    the number of rows of the group whose flag is set and the number of
    its rows; the mean is their quotient. *)
Record group_stats : Type := { g_sum : Z; g_count : Z }.

Definition group_mean (g : group_stats) : R := (IZR (g_sum g) / IZR (g_count g))%R.

Definition flag_value (b : bool) : Z := if b then 1 else 0.

(** The groups are kept by ascending key, as [groupby] sorts them. *)
Fixpoint group_insert (k : Z) (b : bool) (groups : list (Z * group_stats))
  : list (Z * group_stats) :=
  match groups with
  | [] => [(k, {| g_sum := flag_value b; g_count := 1 |})]
  | (k', g) :: rest =>
      if k <? k' then (k, {| g_sum := flag_value b; g_count := 1 |}) :: groups
      else if k =? k' then
        (k', {| g_sum := g_sum g + flag_value b; g_count := g_count g + 1 |}) :: rest
      else (k', g) :: group_insert k b rest
  end.

Definition groupby_agg {Row : Type} (key : Row -> Z) (flag : Row -> bool)
           (df : list Row) : list (Z * group_stats) :=
  fold_left (fun groups row => group_insert (key row) (flag row) groups) df [].

(** The number of rows of a frame that satisfy a test. *)
Definition count_rows {Row : Type} (p : Row -> bool) (df : list Row) : Z :=
  Z.of_nat (length (filter p df)).

(** [k in stats.index] *)
Definition index_mem {A : Type} (k : Z) (stats : list (Z * A)) : bool :=
  existsb (fun item => k =? fst item) stats.

(** [series.idxmax()] and [series.idxmin()]: the label of the first
    largest (smallest) value; ValueError on an empty series. *)
Fixpoint idxmax_from (best : Z * Z) (s : list (Z * Z)) : Z :=
  match s with
  | [] => fst best
  | item :: rest =>
      if snd best <? snd item then idxmax_from item rest
      else idxmax_from best rest
  end.

Definition idxmax (s : list (Z * Z)) : result Z :=
  match s with
  | [] => Raise ValueError
  | item :: rest => Ok (idxmax_from item rest)
  end.

Fixpoint idxmin_from (best : Z * Z) (s : list (Z * Z)) : Z :=
  match s with
  | [] => fst best
  | item :: rest =>
      if snd item <? snd best then idxmin_from item rest
      else idxmin_from best rest
  end.

Definition idxmin (s : list (Z * Z)) : result Z :=
  match s with
  | [] => Raise ValueError
  | item :: rest => Ok (idxmin_from item rest)
  end.

(** [column.min()] and [column.max()] of a column of dates that is not
    empty. *)
Definition dates_min (d : datetime) (ds : list datetime) : datetime :=
  fold_left (fun m x => if date_leb m x then m else x) ds d.

Definition dates_max (d : datetime) (ds : list datetime) : datetime :=
  fold_left (fun m x => if date_leb x m then m else x) ds d.

(** ** hko_data_collector.py: the report of [save_data] *)

(** What [save_data] writes into the report file, lines 216-228, before
    formatting: the first and the last date, the number of days, the
    number of observations, their rate in percent, and for each month from
    1 to 12 the number of observations and their rate in percent. *)
Record report_t : Type := {
  period_start : datetime;
  period_end : datetime;
  total_days : Z;
  sunset_count : Z;
  success_percent : R;
  monthly_lines : list (Z * Z * R)
}.

(** The body of the loop at line 223. *)
Definition monthly_line (monthly : list (Z * group_stats)) (month : Z)
  : result (Z * Z * R) :=
  if index_mem month monthly then
    match dict_getitem monthly month with
    | Ok stats => Ok (month, g_sum stats, (group_mean stats * 100)%R)
    | Raise e => Raise e
    end
  else Ok (month, 0, 0%R).

Fixpoint result_map {A B : Type} (f : A -> result B) (xs : list A)
  : result (list B) :=
  match xs with
  | [] => Ok []
  | x :: xs' =>
      match f x with
      | Raise e => Raise e
      | Ok y => match result_map f xs' with
                | Raise e => Raise e
                | Ok ys => Ok (y :: ys)
                end
      end
  end.

Definition save_data_report (data : list HKODataCollector.Observation)
  : result report_t :=
  match frame_column data HKODataCollector.date with
  | Raise e => Raise e
  | Ok dates =>
      match dates with
      | [] => Raise ValueError
      | d :: ds =>
          match frame_column data HKODataCollector.has_sunset_clouds with
          | Raise e => Raise e
          | Ok column =>
              let monthly :=
                groupby_agg HKODataCollector.month
                            HKODataCollector.has_sunset_clouds data in
              match result_map (monthly_line monthly) (zrange 1 12) with
              | Raise e => Raise e
              | Ok lines =>
                  Ok {| period_start := dates_min d ds;
                        period_end := dates_max d ds;
                        total_days := Z.of_nat (length data);
                        sunset_count := column_sum column;
                        success_percent :=
                          (IZR (column_sum column)
                           / IZR (Z.of_nat (length data)) * 100)%R;
                        monthly_lines := lines |}
              end
          end
      end
  end.

(** ** hongkong_sunset_clouds.py: the numbers of [generate_summary_report] *)

(** Lines 868-907: the totals, the yearly and monthly numbers of
    observations, and the best and worst year and month.  Of the
    aggregated columns only [has_sunset_clouds] is kept. *)
Record summary_t : Type := {
  summary_total_days : Z;
  summary_cloud_days : Z;
  cloud_percentage : R;
  yearly_counts : list (Z * Z);
  monthly_counts : list (Z * Z);
  best_year : Z;
  worst_year : Z;
  best_month : Z;
  worst_month : Z
}.

Definition group_sums (groups : list (Z * group_stats)) : list (Z * Z) :=
  map (fun item => (fst item, g_sum (snd item))) groups.

Definition generate_summary_report
           (data : list HongKongSunsetClouds.Observation) : result summary_t :=
  match frame_column data HongKongSunsetClouds.has_sunset_clouds with
  | Raise e => Raise e
  | Ok column =>
      let total_days := Z.of_nat (length data) in
      let cloud_days := column_sum column in
      let cloud_percentage := (IZR cloud_days / IZR total_days * 100)%R in
      let yearly_stats :=
        group_sums (groupby_agg HongKongSunsetClouds.year
                                HongKongSunsetClouds.has_sunset_clouds data) in
      let monthly_stats :=
        group_sums (groupby_agg HongKongSunsetClouds.month
                                HongKongSunsetClouds.has_sunset_clouds data) in
      match idxmax yearly_stats, idxmin yearly_stats,
            idxmax monthly_stats, idxmin monthly_stats with
      | Ok by_, Ok wy, Ok bm, Ok wm =>
          Ok {| summary_total_days := total_days;
                summary_cloud_days := cloud_days;
                cloud_percentage := cloud_percentage;
                yearly_counts := yearly_stats;
                monthly_counts := monthly_stats;
                best_year := by_;
                worst_year := wy;
                best_month := bm;
                worst_month := wm |}
      | Raise e, _, _, _ => Raise e
      | _, Raise e, _, _ => Raise e
      | _, _, Raise e, _ => Raise e
      | _, _, _, Raise e => Raise e
      end
  end.

(** ** hongkong_sunset_clouds.py: where the charts put a row *)

(** [x <= y] on floats, as a boolean. *)
Definition py_le (x y : R) : bool := if Rle_dec x y then true else false.

(** [create_musical_score], lines 727-741 and 748: the height of the note
    of a day with the phenomenon, its size, and whether it gets a tail. *)
Definition note_position (intensity : R) : R := (1 + (intensity / 10) * 4)%R.

Definition note_size (intensity : R) : Z :=
  if py_le intensity 3 then 100
  else if py_le intensity 6 then 150
  else 200.

Definition note_has_tail (intensity : R) : bool := py_lt 7 intensity.

(** [create_circular_calendar], lines 315-324: radius and marker size of
    a day. *)
Definition calendar_radius (has_sunset_clouds : bool) (intensity : R) : R :=
  if has_sunset_clouds then (0.5 + intensity / 20)%R else 0.3%R.

Definition calendar_marker_size (has_sunset_clouds : bool) (intensity : R) : R :=
  if has_sunset_clouds then (20 + intensity * 5)%R else 10%R.

(** [create_sunset_mandala], lines 491-526: the radius at which a day
    with the phenomenon is drawn in a layer. *)
Definition mandala_radius (layer : Z) (intensity : R) : R :=
  let radius_base := (0.2 + IZR layer * 0.15)%R in
  let intensity_factor := (intensity / 10)%R in
  if layer =? 0 then (radius_base + intensity_factor * 0.1)%R
  else if layer =? 1 then (radius_base + intensity_factor * 0.08)%R
  else if layer =? 2 then (radius_base + intensity_factor * 0.12)%R
  else if layer =? 3 then (radius_base + intensity_factor * 0.1)%R
  else (radius_base + intensity_factor * 0.15)%R.

(** [create_sunset_mandala], line 496, and [create_constellation_map],
    lines 642-647: the angle of a day of the year, and the place of a
    star. *)
Definition day_angle (day_of_year : Z) : R := (2 * PI * IZR day_of_year / 365)%R.

Definition star_position (day_of_year : Z) (intensity : R) : R * R :=
  let angles := day_angle day_of_year in
  let radii := (5 + intensity * 2)%R in
  ((radii * cos angles)%R, (radii * sin angles)%R).

(** ** Calendar facts *)

Lemma zrange_length a b : length (zrange a b) = Z.to_nat (b - a + 1).
Proof. unfold zrange. now rewrite length_map, length_seq. Qed.

Lemma zrange_nil a b : b < a -> zrange a b = [].
Proof.
  intros H. unfold zrange.
  replace (Z.to_nat (b - a + 1)) with 0%nat by lia. reflexivity.
Qed.

Lemma zrange_cons a b : a <= b -> zrange a b = a :: zrange (a + 1) b.
Proof.
  intros H. unfold zrange.
  replace (Z.to_nat (b - a + 1)) with (S (Z.to_nat (b - (a + 1) + 1))) by lia.
  cbn [seq map]. f_equal; [lia|].
  rewrite <- seq_shift, map_map. apply map_ext. intros k. lia.
Qed.

Lemma zrange_In a b x : In x (zrange a b) <-> a <= x <= b.
Proof.
  unfold zrange. rewrite in_map_iff. split.
  - intros (k & <- & Hk). apply in_seq in Hk. lia.
  - intros H. exists (Z.to_nat (x - a)). split; [lia|].
    apply in_seq. lia.
Qed.

Lemma map_seq_shift {A : Type} (f g : nat -> A) n :
  forall i j, (forall k, f (i + k)%nat = g (j + k)%nat) ->
  map f (seq i n) = map g (seq j n).
Proof.
  induction n as [|n IH]; intros i j H; [reflexivity|].
  cbn [seq map]. f_equal.
  - specialize (H 0%nat). now rewrite !Nat.add_0_r in H.
  - apply IH. intros k. specialize (H (S k)).
    now rewrite !Nat.add_succ_r in H.
Qed.

Lemma zrange_app a b c :
  a <= b + 1 -> b <= c -> zrange a b ++ zrange (b + 1) c = zrange a c.
Proof.
  intros Hab Hbc. unfold zrange.
  replace (Z.to_nat (c - a + 1))
    with (Z.to_nat (b - a + 1) + Z.to_nat (c - (b + 1) + 1))%nat by lia.
  rewrite seq_app, map_app. f_equal.
  apply map_seq_shift. intros k. lia.
Qed.

Lemma zrange_NoDup a b : NoDup (zrange a b).
Proof.
  unfold zrange. apply Injective_map_NoDup; [|apply seq_NoDup].
  intros x y. lia.
Qed.

(** ** Python's min and max on reals *)

Lemma py_min_Rmin a b : py_min a b = Rmin a b.
Proof.
  unfold py_min, Rmin.
  destruct (Rlt_dec b a), (Rle_dec a b); lra.
Qed.

Lemma py_max_Rmax a b : py_max a b = Rmax a b.
Proof.
  unfold py_max, Rmax.
  destruct (Rlt_dec a b), (Rle_dec a b); lra.
Qed.

Lemma py_clamp x lo hi : py_max lo (py_min hi x) = clamp x lo hi.
Proof. unfold clamp. now rewrite py_min_Rmin, py_max_Rmax. Qed.

Lemma py_clamp_range x lo hi :
  (lo <= hi)%R -> (lo <= py_max lo (py_min hi x) <= hi)%R.
Proof.
  intros H. unfold py_max, py_min.
  destruct (Rlt_dec x hi); destruct (Rlt_dec lo _); lra.
Qed.

Lemma py_clamp_zero hi : (0 <= hi)%R -> py_max 0 (py_min hi 0) = 0%R.
Proof.
  intros H. unfold py_max, py_min.
  destruct (Rlt_dec 0 hi); destruct (Rlt_dec 0 _); lra.
Qed.

Lemma py_clamp_above x lo c hi :
  (lo <= c)%R -> (c <= hi)%R -> (c <= x)%R ->
  (c <= py_max lo (py_min hi x) <= hi)%R.
Proof.
  intros H1 H2 H3. unfold py_max, py_min.
  destruct (Rlt_dec x hi); destruct (Rlt_dec lo _); lra.
Qed.

Lemma py_max_lower a b : (a <= py_max a b)%R.
Proof. unfold py_max. destruct (Rlt_dec a b); lra. Qed.

Lemma py_max_above a b : (a <= b)%R -> py_max a b = b.
Proof. intros H. unfold py_max. destruct (Rlt_dec a b); lra. Qed.

Lemma py_clamp_inside x lo hi :
  (lo <= x <= hi)%R -> py_max lo (py_min hi x) = x.
Proof.
  intros H. unfold py_max, py_min.
  destruct (Rlt_dec x hi); destruct (Rlt_dec lo _); lra.
Qed.

(** ** Running the monad *)

Section MonadFacts.
Context {G : NumpyRandom} {P : Platform}.

Lemma bind_ret {A B : Type} (a : A) (k : A -> M B) s :
  bind (ret a) k s = k a s.
Proof. reflexivity. Qed.

Lemma bind_sample {B : Type} (d : dist) (k : R -> M B) s :
  bind (sample d) k s = k (fst (draw d s)) (snd (draw d s)).
Proof. unfold bind, sample. now destruct (draw d s). Qed.

Lemma bind_lift_Ok {A B : Type} (a : A) (k : A -> M B) s :
  bind (lift (Ok a)) k s = k a s.
Proof. reflexivity. Qed.

Lemma bind_lift_Raise {A B : Type} e (k : A -> M B) s :
  bind (lift (Raise e)) k s = Raise e.
Proof. reflexivity. Qed.

Lemma bind_lift_state {A B : Type} (r : result A) (k : A -> M B) s1 s2 :
  (forall a, k a s1 = k a s2) -> bind (lift r) k s1 = bind (lift r) k s2.
Proof. intros H. unfold bind, lift. destruct r; [apply H | reflexivity]. Qed.

Lemma bind_bind {A B C : Type} (c : M A) (k : A -> M B) (h : B -> M C) s :
  bind (bind c k) h s = bind c (fun a => bind (k a) h) s.
Proof. unfold bind. destruct (c s) as [[a s']|e]; reflexivity. Qed.

Lemma bind_if {A B : Type} (b : bool) (c1 c2 : M A) (k : A -> M B) s :
  bind (if b then c1 else c2) k s = if b then bind c1 k s else bind c2 k s.
Proof. now destruct b. Qed.

Lemma bind_Ok_inv {A B : Type} (c : M A) (k : A -> M B) s b s' :
  bind c k s = Ok (b, s') ->
  exists a s1, c s = Ok (a, s1) /\ k a s1 = Ok (b, s').
Proof.
  unfold bind. destruct (c s) as [[a s1]|e]; [|discriminate].
  intros H. now exists a, s1.
Qed.

(** The loop appends one row per element, in order; each row is the body
    run at some state of the generator. *)
Lemma for_each_Forall2 {A B : Type} (body : A -> M B) xs :
  forall s ys s', for_each xs body s = Ok (ys, s') ->
  Forall2 (fun x y => exists s1 s2, body x s1 = Ok (y, s2)) xs ys.
Proof.
  induction xs as [|x xs IH]; intros s ys s' H.
  - cbn in H. injection H as <- _. constructor.
  - cbn [for_each] in H.
    apply bind_Ok_inv in H as (b & s1 & Hb & H).
    apply bind_Ok_inv in H as (bs & s2 & Hbs & H).
    cbn in H. injection H as <- _.
    constructor; [now exists s, s1 | eauto].
Qed.

Lemma for_each_total {A B : Type} (body : A -> M B) xs :
  (forall x, In x xs -> forall s, exists y s', body x s = Ok (y, s')) ->
  forall s, exists ys s', for_each xs body s = Ok (ys, s').
Proof.
  induction xs as [|x xs IH]; intros Hb s.
  - now exists [], s.
  - destruct (Hb x (or_introl eq_refl) s) as (y & s1 & Hy).
    destruct (IH (fun x' Hx' => Hb x' (or_intror Hx')) s1) as (ys & s2 & Hys).
    exists (y :: ys), s2. cbn [for_each]. unfold bind at 1. rewrite Hy.
    unfold bind at 1. now rewrite Hys.
Qed.
End MonadFacts.

Lemma Forall2_length_eq {A B : Type} (P : A -> B -> Prop) xs ys :
  Forall2 P xs ys -> length ys = length xs.
Proof. induction 1; cbn; congruence. Qed.

Lemma Forall2_map_eq {A B : Type} (f : B -> A) xs ys :
  Forall2 (fun x y => f y = x) xs ys -> map f ys = xs.
Proof. induction 1; cbn; congruence. Qed.

Lemma Forall2_In_r {A B : Type} (P : A -> B -> Prop) xs ys y :
  Forall2 P xs ys -> In y ys -> exists x, In x xs /\ P x y.
Proof.
  induction 1 as [|x0 y0 xs ys H0 H IH]; intros Hy; [contradiction|].
  destruct Hy as [<-|Hy].
  - exists x0. split; [now left | exact H0].
  - destruct (IH Hy) as (x & Hx & HP). exists x. split; [now right | exact HP].
Qed.

(** ** The calendar of a window of whole years *)

Lemma zrange_map_add c a b :
  map (fun d => c + d) (zrange a b) = zrange (c + a) (c + b).
Proof.
  unfold zrange. rewrite map_map.
  replace (c + b - (c + a) + 1) with (b - a + 1) by lia.
  apply map_ext. intros k. lia.
Qed.

Lemma filter_all {A : Type} (f : A -> bool) xs :
  (forall x, In x xs -> f x = true) -> filter f xs = xs.
Proof.
  induction xs as [|x xs IH]; intros H; [reflexivity|].
  cbn. rewrite (H x (or_introl eq_refl)). f_equal.
  apply IH. intros x' Hx'. apply H. now right.
Qed.

Lemma days_before_year_succ y :
  days_before_year (y + 1) = days_before_year y + 365 + (if is_leap y then 1 else 0).
Proof.
  unfold days_before_year, is_leap.
  replace (y + 1 - 1) with y by lia.
  destruct (Z.eqb_spec (y mod 4) 0), (Z.eqb_spec (y mod 100) 0),
    (Z.eqb_spec (y mod 400) 0); cbn [negb andb orb];
    Z.div_mod_to_equations; lia.
Qed.

Lemma days_in_month_range y m : 28 <= days_in_month y m <= 31.
Proof.
  unfold days_in_month.
  destruct (m =? 2); [destruct (is_leap y); lia|].
  destruct (py_in m [4; 6; 9; 11]); lia.
Qed.

Lemma month_cases m :
  1 <= m <= 12 ->
  m = 1 \/ m = 2 \/ m = 3 \/ m = 4 \/ m = 5 \/ m = 6 \/ m = 7 \/ m = 8
  \/ m = 9 \/ m = 10 \/ m = 11 \/ m = 12.
Proof. lia. Qed.

Ltac each_month H :=
  apply month_cases in H;
  repeat (destruct H as [H|H]; [subst|]); [..|subst].

Lemma days_before_month_succ y m :
  1 <= m <= 11 ->
  days_before_month y (m + 1) = days_before_month y m + days_in_month y m.
Proof.
  intros H. assert (H' : 1 <= m <= 12) by lia.
  each_month H'; try lia (* m = 12 is excluded *);
    unfold days_before_month, days_in_month;
    destruct (is_leap y); reflexivity.
Qed.

Lemma days_before_month_first y : days_before_month y 1 = 0.
Proof. reflexivity. Qed.

Lemma days_before_month_last y :
  days_before_month y 12 + days_in_month y 12
  = 365 + (if is_leap y then 1 else 0).
Proof.
  unfold days_before_month, days_in_month. destruct (is_leap y); reflexivity.
Qed.

Lemma days_of_month_ordinals y m :
  map toordinal (days_of_month y m)
  = zrange (days_before_year y + days_before_month y m + 1)
           (days_before_year y + days_before_month y m + days_in_month y m).
Proof.
  unfold days_of_month. rewrite map_map. unfold toordinal. cbn [dt_year dt_month dt_day].
  apply zrange_map_add.
Qed.

Lemma zrange_1_12 : zrange 1 12 = [1; 2; 3; 4; 5; 6; 7; 8; 9; 10; 11; 12].
Proof. reflexivity. Qed.

Lemma days_of_year_ordinals y :
  map toordinal (days_of_year y)
  = zrange (days_before_year y + 1) (days_before_year (y + 1)).
Proof.
  unfold days_of_year. rewrite zrange_1_12. cbn [flat_map].
  rewrite !map_app, !days_of_month_ordinals, app_nil_r.
  rewrite days_before_year_succ.
  pose proof (days_before_month_last y) as Hl.
  pose proof (days_before_month_first y) as H1.
  assert (S1 : days_before_month y 2 = days_before_month y 1 + days_in_month y 1)
    by (apply (days_before_month_succ y 1); lia).
  assert (S2 : days_before_month y 3 = days_before_month y 2 + days_in_month y 2)
    by (apply (days_before_month_succ y 2); lia).
  assert (S3 : days_before_month y 4 = days_before_month y 3 + days_in_month y 3)
    by (apply (days_before_month_succ y 3); lia).
  assert (S4 : days_before_month y 5 = days_before_month y 4 + days_in_month y 4)
    by (apply (days_before_month_succ y 4); lia).
  assert (S5 : days_before_month y 6 = days_before_month y 5 + days_in_month y 5)
    by (apply (days_before_month_succ y 5); lia).
  assert (S6 : days_before_month y 7 = days_before_month y 6 + days_in_month y 6)
    by (apply (days_before_month_succ y 6); lia).
  assert (S7 : days_before_month y 8 = days_before_month y 7 + days_in_month y 7)
    by (apply (days_before_month_succ y 7); lia).
  assert (S8 : days_before_month y 9 = days_before_month y 8 + days_in_month y 8)
    by (apply (days_before_month_succ y 8); lia).
  assert (S9 : days_before_month y 10 = days_before_month y 9 + days_in_month y 9)
    by (apply (days_before_month_succ y 9); lia).
  assert (S10 : days_before_month y 11 = days_before_month y 10 + days_in_month y 10)
    by (apply (days_before_month_succ y 10); lia).
  assert (S11 : days_before_month y 12 = days_before_month y 11 + days_in_month y 11)
    by (apply (days_before_month_succ y 11); lia).
  assert (D : forall m, 28 <= days_in_month y m <= 31) by apply days_in_month_range.
  pose proof (D 1); pose proof (D 2); pose proof (D 3); pose proof (D 4);
  pose proof (D 5); pose proof (D 6); pose proof (D 7); pose proof (D 8);
  pose proof (D 9); pose proof (D 10); pose proof (D 11); pose proof (D 12).
  clear D.
  generalize dependent (days_before_year y). intros b.
  assert (J : forall a b1 c d rest,
             c = b1 + 1 -> a <= b1 + 1 -> b1 <= d ->
             zrange a b1 ++ zrange c d ++ rest = zrange a d ++ rest).
  { intros a b1 c d rest -> Ha Hb. now rewrite app_assoc, zrange_app. }
  assert (J' : forall a b1 c d,
             c = b1 + 1 -> a <= b1 + 1 -> b1 <= d ->
             zrange a b1 ++ zrange c d = zrange a d).
  { intros a b1 c d -> Ha Hb. now rewrite zrange_app. }
  repeat (rewrite J by lia).
  rewrite J' by lia.
  f_equal; lia.
Qed.

Lemma days_before_year_mono y : days_before_year y + 365 <= days_before_year (y + 1).
Proof. rewrite days_before_year_succ. destruct (is_leap y); lia. Qed.

Lemma days_of_years_ordinals sy ey :
  sy <= ey + 1 ->
  map toordinal (flat_map days_of_year (zrange sy ey))
  = zrange (days_before_year sy + 1) (days_before_year (ey + 1)).
Proof.
  intros H.
  remember (Z.to_nat (ey + 1 - sy)) as n eqn:Hn.
  revert sy H Hn. induction n as [|n IH]; intros sy H Hn.
  - assert (sy = ey + 1) by lia. subst sy.
    rewrite (zrange_nil (ey + 1) ey), (zrange_nil (_ + 1)) by lia. reflexivity.
  - rewrite (zrange_cons sy ey) by lia. cbn [flat_map].
    rewrite map_app, days_of_year_ordinals, (IH (sy + 1)) by lia.
    pose proof (days_before_year_mono sy).
    assert (days_before_year (sy + 1) <= days_before_year (ey + 1)).
    { clear IH. assert (Hk : exists k, ey + 1 = sy + 1 + Z.of_nat k)
        by (exists (Z.to_nat (ey - sy)); lia).
      destruct Hk as (k & ->). induction k as [|k IHk].
      - replace (sy + 1 + Z.of_nat 0) with (sy + 1) by lia. lia.
      - replace (sy + 1 + Z.of_nat (S k)) with (sy + 1 + Z.of_nat k + 1) by lia.
        pose proof (days_before_year_mono (sy + 1 + Z.of_nat k)).
        assert (days_before_year (sy + 1) <= days_before_year (sy + 1 + Z.of_nat k))
          by (apply IHk; lia).
        lia. }
    apply zrange_app; lia.
Qed.

Lemma days_of_years_In sy ey d :
  In d (flat_map days_of_year (zrange sy ey)) <->
  sy <= dt_year d <= ey /\ 1 <= dt_month d <= 12
  /\ 1 <= dt_day d <= days_in_month (dt_year d) (dt_month d).
Proof.
  rewrite in_flat_map. unfold days_of_year, days_of_month. split.
  - intros (y & Hy & Hd). apply zrange_In in Hy.
    apply in_flat_map in Hd as (m & Hm & Hd). apply zrange_In in Hm.
    apply in_map_iff in Hd as (k & <- & Hk). apply zrange_In in Hk.
    cbn. lia.
  - intros (Hy & Hm & Hk). exists (dt_year d). split; [now apply zrange_In|].
    apply in_flat_map. exists (dt_month d). split; [now apply zrange_In|].
    apply in_map_iff. exists (dt_day d). split; [now destruct d|].
    now apply zrange_In.
Qed.

(** The window of the generators runs from January 1 to December 31, so
    the filter of [days_from_to] keeps every day of the years. *)
Lemma days_from_to_whole_years sy ey :
  days_from_to (mkdate sy 1 1) (mkdate ey 12 31)
  = flat_map days_of_year (zrange sy ey).
Proof.
  unfold days_from_to. cbn [dt_year]. apply filter_all.
  intros d Hd. apply days_of_years_In in Hd as (Hy & Hm & Hk).
  pose proof (days_in_month_range (dt_year d) (dt_month d)).
  unfold date_leb. cbn [dt_year dt_month dt_day].
  apply andb_true_iff. split.
  - destruct (Z.ltb_spec sy (dt_year d)); [reflexivity|].
    replace (sy =? dt_year d) with true by (symmetry; apply Z.eqb_eq; lia).
    cbn [orb andb].
    destruct (Z.ltb_spec 1 (dt_month d)); [reflexivity|].
    replace (1 =? dt_month d) with true by (symmetry; apply Z.eqb_eq; lia).
    cbn [orb andb]. apply Z.leb_le. lia.
  - destruct (Z.ltb_spec (dt_year d) ey); [reflexivity|].
    replace (dt_year d =? ey) with true by (symmetry; apply Z.eqb_eq; lia).
    cbn [orb andb].
    destruct (Z.ltb_spec (dt_month d) 12); [reflexivity|].
    replace (dt_month d =? 12) with true by (symmetry; apply Z.eqb_eq; lia).
    cbn [orb andb]. apply Z.leb_le. lia.
Qed.

Lemma days_from_to_In sy ey d :
  In d (days_from_to (mkdate sy 1 1) (mkdate ey 12 31)) <->
  sy <= dt_year d <= ey /\ 1 <= dt_month d <= 12
  /\ 1 <= dt_day d <= days_in_month (dt_year d) (dt_month d).
Proof. rewrite days_from_to_whole_years. apply days_of_years_In. Qed.

Lemma toordinal_jan1 y : toordinal (mkdate y 1 1) = days_before_year y + 1.
Proof. unfold toordinal. cbn [dt_year dt_month dt_day]. rewrite days_before_month_first. lia. Qed.

Lemma toordinal_dec31 y : toordinal (mkdate y 12 31) = days_before_year (y + 1).
Proof.
  unfold toordinal. cbn [dt_year dt_month dt_day].
  rewrite days_before_year_succ.
  pose proof (days_before_month_last y) as H.
  replace (days_in_month y 12) with 31 in H by reflexivity. lia.
Qed.

(** The days of the window carry the consecutive day numbers from that of
    January 1 of the first year to that of December 31 of the last. *)
Lemma days_from_to_ordinals sy ey :
  sy <= ey + 1 ->
  map toordinal (days_from_to (mkdate sy 1 1) (mkdate ey 12 31))
  = zrange (toordinal (mkdate sy 1 1)) (toordinal (mkdate ey 12 31)).
Proof.
  intros H. rewrite days_from_to_whole_years, days_of_years_ordinals by exact H.
  now rewrite toordinal_jan1, toordinal_dec31.
Qed.

Lemma days_from_to_NoDup sy ey :
  NoDup (days_from_to (mkdate sy 1 1) (mkdate ey 12 31)).
Proof.
  destruct (Z_le_gt_dec sy (ey + 1)) as [H|H].
  - apply (NoDup_map_inv toordinal). rewrite days_from_to_ordinals by exact H.
    apply zrange_NoDup.
  - rewrite days_from_to_whole_years, zrange_nil by lia. constructor.
Qed.

Lemma days_from_to_length sy ey :
  sy <= ey + 1 ->
  length (days_from_to (mkdate sy 1 1) (mkdate ey 12 31))
  = Z.to_nat (toordinal (mkdate ey 12 31) - toordinal (mkdate sy 1 1) + 1).
Proof.
  intros H. rewrite <- (length_map toordinal), days_from_to_ordinals by exact H.
  apply zrange_length.
Qed.

Lemma days_from_to_empty sy ey :
  ey < sy -> days_from_to (mkdate sy 1 1) (mkdate ey 12 31) = [].
Proof. intros H. now rewrite days_from_to_whole_years, zrange_nil. Qed.

Lemma days_from_to_2020 :
  length (days_from_to (mkdate 2020 1 1) (mkdate 2020 12 31)) = 366%nat.
Proof. vm_compute. reflexivity. Qed.

(** ** The loop body of the collector *)

Section CollectorFacts.
Import HKODataCollector.
Context {G : NumpyRandom} {P : Platform}.
Local Open Scope R_scope.

Lemma collector_tables_defined m :
  (1 <= m <= 12)%Z ->
  exists base t0 h0 p0,
    dict_getitem (monthly_sunset_probability fetch_current_conditions) m = Ok base
    /\ py_getitem (average_temperature fetch_current_conditions) (m - 1) = Ok t0
    /\ py_getitem (average_humidity fetch_current_conditions) (m - 1) = Ok h0
    /\ py_getitem (average_pressure fetch_current_conditions) (m - 1) = Ok p0.
Proof.
  intros H. each_month H; do 4 eexists; repeat split; reflexivity.
Qed.

Lemma day_probability_run cd pat sy d s base :
  dict_getitem (monthly_sunset_probability cd) (dt_month d) = Ok base ->
  day_probability cd pat sy d s
  = Ok ((season_factor_loop (seasonal_factors pat) (dt_month d) 1.0,
         sin (2 * PI * IZR (dt_year d - sy) / enso_cycle (climate_cycles pat)),
         final_prob base
           (season_factor_loop (seasonal_factors pat) (dt_month d) 1.0)
           (1 + 0.01 * IZR (dt_year d - sy) / 20)
           (sin (2 * PI * IZR (dt_year d - sy) / enso_cycle (climate_cycles pat)))
           (sin (2 * PI * IZR (dt_year d - sy) / sunspot_cycle (climate_cycles pat)))
           (fst (draw (Normal 0 0.2) s))),
        snd (draw (Normal 0 0.2) s)).
Proof.
  intros H. unfold day_probability. rewrite H, bind_lift_Ok.
  cbv zeta. now rewrite bind_sample.
Qed.

Lemma sunset_attributes_false m s :
  sunset_attributes false m s = Ok ((0, 0, 0, 0), s).
Proof. reflexivity. Qed.

Lemma sunset_attributes_true m s :
  let b := draw (Beta 2 2) s in
  let u := draw (month_list_multiplier m) (snd b) in
  let e := draw (Exponential 25) (snd u) in
  let c := draw (Beta 2 3) (snd e) in
  let v := draw (Uniform 0.8 1.2) (snd c) in
  sunset_attributes true m s
  = Ok ((fst b * 10 * fst u, 15 + fst e, fst c * 100,
         fst b * 10 * fst u * fst v), snd v).
Proof.
  unfold sunset_attributes, month_list_multiplier. cbv zeta.
  rewrite bind_sample.
  destruct (py_in m [10; 11; 12; 1]%Z); [|destruct (py_in m [6; 7; 8]%Z)];
    rewrite bind_bind, bind_sample, bind_ret, !bind_sample; reflexivity.
Qed.

Lemma weather_run cd m s t0 h0 p0 :
  py_getitem (average_temperature cd) (m - 1) = Ok t0 ->
  py_getitem (average_humidity cd) (m - 1) = Ok h0 ->
  py_getitem (average_pressure cd) (m - 1) = Ok p0 ->
  let n1 := draw (Normal 0 3) s in
  let n2 := draw (Normal 0 8) (snd n1) in
  let n3 := draw (Normal 0 10) (snd n2) in
  let n4 := draw (if py_in m [3; 4; 5; 6]%Z then Normal 0 3 else Normal 0 4)
                 (snd n3) in
  let g := draw (if py_in m [10; 11; 12; 1; 2]%Z then Gamma 3 4 else Gamma 2 3)
                (snd n4) in
  weather cd m s
  = Ok ((t0 + fst n1, h0 + fst n2, p0 + fst n3,
         (if py_in m [3; 4; 5; 6]%Z then 15 * 0.7 else 15 * 1.1) + fst n4,
         fst g), snd g).
Proof.
  intros Ht Hh Hp. unfold weather. cbv zeta.
  rewrite Ht, bind_lift_Ok, bind_sample, Hh, bind_lift_Ok, bind_sample,
    Hp, bind_lift_Ok, bind_sample.
  destruct (py_in m [3; 4; 5; 6]%Z);
    rewrite bind_bind, bind_sample, bind_ret;
    destruct (py_in m [10; 11; 12; 1; 2]%Z); rewrite bind_sample; reflexivity.
Qed.

(** A row comes from the attributes of the day and its weather, each
    field clamped as in the dictionary literal. *)
Lemma day_row_inv cd d sf e has s obs s' :
  day_row cd d sf e has s = Ok (obs, s') ->
  exists i du c cr s1 t h p v w,
    sunset_attributes has (dt_month d) s = Ok ((i, du, c, cr), s1)
    /\ weather cd (dt_month d) s1 = Ok ((t, h, p, v, w), s')
    /\ obs = {| date := d; year := dt_year d; month := dt_month d;
                day_of_year := tm_yday d;
                has_sunset_clouds := has;
                intensity := py_max 0 (py_min 10 i);
                duration_minutes := py_max 0 (py_min 120 du);
                coverage_percent := py_max 0 (py_min 100 c);
                color_richness := py_max 0 (py_min 10 cr);
                temperature_c := t;
                humidity_percent := py_max 0 (py_min 100 h);
                pressure_hpa := p;
                visibility_km := py_max 1 (py_min 50 v);
                wind_speed_kmh := py_max 0 w;
                season_factor := sf;
                enso_phase := e |}.
Proof.
  unfold day_row. intros H.
  apply bind_Ok_inv in H as ([[[i du] c] cr] & s1 & Ha & H).
  apply bind_Ok_inv in H as ([[[[t h] p] v] w] & s2 & Hw & H).
  cbn in H. injection H as <- <-.
  now exists i, du, c, cr, s1, t, h, p, v, w.
Qed.

Lemma observe_inv cd pat sy d s obs s' :
  observe cd pat sy d s = Ok (obs, s') ->
  exists sf e p s1,
    day_probability cd pat sy d s = Ok ((sf, e, p), s1)
    /\ day_row cd d sf e (py_lt (fst (draw Random s1)) p) (snd (draw Random s1))
       = Ok (obs, s').
Proof.
  unfold observe. intros H.
  apply bind_Ok_inv in H as ([[sf e] p] & s1 & Hp & H).
  cbv zeta in H. rewrite bind_sample in H.
  now exists sf, e, p, s1.
Qed.

Lemma day_row_total d sf e has s :
  (1 <= dt_month d <= 12)%Z ->
  exists obs s', day_row fetch_current_conditions d sf e has s = Ok (obs, s').
Proof.
  intros Hm.
  destruct (collector_tables_defined _ Hm) as (base & t0 & h0 & p0 & _ & Ht & Hh & Hp).
  unfold day_row.
  assert (Ha : exists a s1, sunset_attributes has (dt_month d) s = Ok (a, s1)).
  { destruct has; [|now eexists; eexists].
    eexists; eexists. apply sunset_attributes_true. }
  destruct Ha as ([[[i du] c] cr] & s1 & Ha).
  unfold bind at 1. rewrite Ha. unfold bind at 1.
  rewrite (weather_run _ _ s1 _ _ _ Ht Hh Hp). cbv zeta.
  eexists; eexists; reflexivity.
Qed.

Lemma observe_total sy d s :
  (1 <= dt_month d <= 12)%Z ->
  exists obs s',
    observe fetch_current_conditions get_historical_weather_patterns sy d s
    = Ok (obs, s').
Proof.
  intros Hm.
  destruct (collector_tables_defined _ Hm) as (base & _ & _ & _ & Hb & _).
  unfold observe. unfold bind at 1.
  rewrite (day_probability_run _ _ _ _ _ _ Hb).
  cbv zeta. rewrite bind_sample. now apply day_row_total.
Qed.
End CollectorFacts.

(** ** Runs of the collector *)

Lemma date_leb_iff a b :
  date_leb a b = true <->
  dt_year a < dt_year b
  \/ (dt_year a = dt_year b
      /\ (dt_month a < dt_month b
          \/ (dt_month a = dt_month b /\ dt_day a <= dt_day b))).
Proof.
  unfold date_leb.
  rewrite orb_true_iff, andb_true_iff, orb_true_iff, andb_true_iff.
  rewrite !Z.ltb_lt, !Z.eqb_eq, Z.leb_le. reflexivity.
Qed.

Lemma fits_c_int_iff n : fits_c_int n = true <-> - 2147483648 <= n <= 2147483647.
Proof.
  unfold fits_c_int, INT_MIN, INT_MAX.
  change (- 2 ^ 31) with (- 2147483648). change (2 ^ 31 - 1) with 2147483647.
  rewrite andb_true_iff, !Z.leb_le. reflexivity.
Qed.

Lemma fits_c_int_small n : - 2147483648 <= n <= 2147483647 -> fits_c_int n = true.
Proof. apply fits_c_int_iff. Qed.

Lemma fits_c_int_large n :
  n < - 2147483648 \/ 2147483647 < n -> fits_c_int n = false.
Proof.
  intros H. destruct (fits_c_int n) eqn:E; [|reflexivity].
  apply fits_c_int_iff in E. lia.
Qed.

Lemma valid_year_iff y m d :
  valid_date (mkdate y m d) = true -> 1 <= y <= 9999.
Proof.
  unfold valid_date, MINYEAR, MAXYEAR. cbn [dt_year dt_month dt_day].
  destruct (Z.leb_spec 1 y), (Z.leb_spec y 9999); cbn; try discriminate.
  lia.
Qed.

Lemma new_datetime_Ok y m d dt : new_datetime y m d = Ok dt -> dt = mkdate y m d.
Proof.
  unfold new_datetime. destruct (negb _); [discriminate|].
  destruct (valid_date _); [|discriminate]. congruence.
Qed.

Lemma new_datetime_jan1 y :
  1 <= y <= 9999 -> new_datetime y 1 1 = Ok (mkdate y 1 1).
Proof.
  intros H. unfold new_datetime.
  rewrite (fits_c_int_small y) by lia.
  change (fits_c_int 1) with true. cbn [andb negb].
  unfold valid_date, MINYEAR, MAXYEAR.
  cbn [dt_year dt_month dt_day].
  replace (1 <=? y) with true by (symmetry; apply Z.leb_le; lia).
  replace (y <=? 9999) with true by (symmetry; apply Z.leb_le; lia).
  reflexivity.
Qed.

Lemma new_datetime_dec31 y :
  1 <= y <= 9999 -> new_datetime y 12 31 = Ok (mkdate y 12 31).
Proof.
  intros H. unfold new_datetime.
  rewrite (fits_c_int_small y) by lia.
  change (fits_c_int 12) with true. change (fits_c_int 31) with true.
  cbn [andb negb].
  unfold valid_date, MINYEAR, MAXYEAR.
  cbn [dt_year dt_month dt_day].
  replace (1 <=? y) with true by (symmetry; apply Z.leb_le; lia).
  replace (y <=? 9999) with true by (symmetry; apply Z.leb_le; lia).
  reflexivity.
Qed.

Lemma new_datetime_year y m d dt :
  new_datetime y m d = Ok dt -> 1 <= y <= 9999.
Proof.
  unfold new_datetime. destruct (negb _); [discriminate|].
  destruct (valid_date _) eqn:E; [|discriminate].
  intros _. eapply valid_year_iff, E.
Qed.

(** The first and the last day of a year outside 1..9999: OverflowError
    when the year fits no C int, else ValueError. *)
Lemma new_datetime_overflow y m d :
  y < - 2147483648 \/ 2147483647 < y -> new_datetime y m d = Raise OverflowError.
Proof.
  intros H. unfold new_datetime. now rewrite (fits_c_int_large y H).
Qed.

Lemma new_datetime_out_of_range y m d :
  - 2147483648 <= y <= 2147483647 -> y < 1 \/ 9999 < y ->
  fits_c_int m = true -> fits_c_int d = true ->
  new_datetime y m d = Raise ValueError.
Proof.
  intros Hc Hy Hm Hd. unfold new_datetime.
  rewrite (fits_c_int_small y Hc), Hm, Hd. cbn [andb negb].
  destruct (valid_date _) eqn:E; [|reflexivity].
  apply valid_year_iff in E. lia.
Qed.

Lemma new_datetime_cases y m d :
  (m = 1 /\ d = 1) \/ (m = 12 /\ d = 31) ->
  (1 <= y <= 9999 /\ new_datetime y m d = Ok (mkdate y m d))
  \/ (fits_c_int y = true /\ (y < 1 \/ 9999 < y)
      /\ new_datetime y m d = Raise ValueError)
  \/ (fits_c_int y = false /\ new_datetime y m d = Raise OverflowError).
Proof.
  intros Hmd. destruct (fits_c_int y) eqn:F.
  - apply fits_c_int_iff in F.
    destruct (Z_le_gt_dec 1 y) as [H1|H1];
      [destruct (Z_le_gt_dec y 9999) as [H2|H2]|].
    + left. split; [lia|].
      destruct Hmd as [[-> ->]|[-> ->]];
        [apply new_datetime_jan1 | apply new_datetime_dec31]; lia.
    + right; left. split; [reflexivity|]. split; [lia|].
      apply new_datetime_out_of_range; try lia;
        destruct Hmd as [[-> ->]|[-> ->]]; reflexivity.
    + right; left. split; [reflexivity|]. split; [lia|].
      apply new_datetime_out_of_range; try lia;
        destruct Hmd as [[-> ->]|[-> ->]]; reflexivity.
  - right; right. split; [reflexivity|]. unfold new_datetime. now rewrite F.
Qed.

(** ** The platform *)

Section PlatformFacts.
Context {P : Platform}.

Lemma format_int_c_int n :
  - 2147483648 <= n <= 2147483647 -> format_int n = Ok tt.
Proof.
  intros H. unfold format_int. rewrite int_str_small; [reflexivity|].
  assert (Hp : 2147483648 < 10 ^ MAX_STR_DIGITS_THRESHOLD)
    by (apply Z.ltb_lt; vm_compute; reflexivity).
  revert Hp. generalize (10 ^ MAX_STR_DIGITS_THRESHOLD). intros big Hp. lia.
Qed.

Lemma format_int_Ok n u : format_int n = Ok u -> int_str_ok n = true.
Proof. unfold format_int. destruct (int_str_ok n); [reflexivity|discriminate]. Qed.

Lemma format_int_Raise n : int_str_ok n = false -> format_int n = Raise ValueError.
Proof. unfold format_int. now intros ->. Qed.

Lemma timestamp_jan1 y : 1678 <= y <= 2262 -> timestamp_ok (mkdate y 1 1) = true.
Proof.
  intros H. apply timestamp_nanosecond. unfold nanosecond_date.
  apply andb_true_iff. split; apply date_leb_iff; cbn [dt_year dt_month dt_day]; lia.
Qed.

Lemma timestamp_dec31 y : 1677 <= y <= 2261 -> timestamp_ok (mkdate y 12 31) = true.
Proof.
  intros H. apply timestamp_nanosecond. unfold nanosecond_date.
  apply andb_true_iff. split; apply date_leb_iff; cbn [dt_year dt_month dt_day]; lia.
Qed.

Lemma date_range_Ok s e :
  timestamp_ok s = true -> timestamp_ok e = true ->
  date_range s e = Ok (days_from_to s e).
Proof. intros Hs He. unfold date_range. now rewrite Hs, He. Qed.

Lemma date_range_inv s e ds :
  date_range s e = Ok ds ->
  timestamp_ok s = true /\ timestamp_ok e = true /\ ds = days_from_to s e.
Proof.
  unfold date_range.
  destruct (timestamp_ok s), (timestamp_ok e); cbn; try discriminate.
  intros [= <-]. now repeat split.
Qed.

(** The window of the built-in generator is held by every platform. *)
Lemma builtin_date_range :
  date_range (mkdate 2000 1 1) (mkdate 2020 12 31)
  = Ok (days_from_to (mkdate 2000 1 1) (mkdate 2020 12 31)).
Proof.
  apply date_range_Ok; [apply timestamp_jan1 | apply timestamp_dec31]; lia.
Qed.

Lemma date_range_Raise s e :
  timestamp_ok s && timestamp_ok e = false ->
  date_range s e = Raise OutOfBoundsDatetime.
Proof. unfold date_range. now intros ->. Qed.
End PlatformFacts.

Section CollectorRuns.
Import HKODataCollector.
Context {G : NumpyRandom} {P : Platform}.

Lemma generate_valid_years sy ey s :
  1 <= sy <= 9999 -> 1 <= ey <= 9999 ->
  generate_realistic_sunset_data sy ey s
  = if timestamp_ok (mkdate sy 1 1) && timestamp_ok (mkdate ey 12 31)
    then loop_and_summary sy ey s
    else Raise OutOfBoundsDatetime.
Proof.
  intros Hs He. unfold generate_realistic_sunset_data. cbv zeta.
  rewrite (format_int_c_int sy), bind_lift_Ok by lia.
  rewrite (format_int_c_int ey), bind_lift_Ok by lia.
  rewrite new_datetime_jan1, bind_lift_Ok by lia.
  rewrite new_datetime_dec31, bind_lift_Ok by lia.
  unfold date_range.
  destruct (timestamp_ok (mkdate sy 1 1) && timestamp_ok (mkdate ey 12 31));
    [|reflexivity].
  rewrite bind_lift_Ok. unfold loop_and_summary.
  unfold bind at 1. unfold np_random_seed.
  unfold bind at 1.
  destruct (for_each _ _ _) as [[[|r rows] s1]|e]; reflexivity.
Qed.

(** The years of a run that does not stop in the first message or in
    [datetime]. *)
Lemma generate_years sy ey s :
  (forall e, generate_realistic_sunset_data sy ey s = Raise e ->
             e <> ValueError /\ e <> OverflowError) ->
  1 <= sy <= 9999 /\ 1 <= ey <= 9999.
Proof.
  unfold generate_realistic_sunset_data. cbv zeta. intros H.
  unfold bind at 1 in H. unfold lift at 1 in H. unfold format_int at 1 in H.
  destruct (int_str_ok sy); [|now destruct (H _ eq_refl)].
  unfold bind at 1 in H. unfold lift at 1 in H. unfold format_int at 1 in H.
  destruct (int_str_ok ey); [|now destruct (H _ eq_refl)].
  unfold bind at 1 in H. unfold lift at 1 in H.
  destruct (new_datetime sy 1 1) as [sd|e1] eqn:E1.
  - unfold bind at 1 in H. unfold lift at 1 in H.
    destruct (new_datetime ey 12 31) as [ed|e2] eqn:E2.
    + split; eapply new_datetime_year; eassumption.
    + unfold new_datetime in E2. destruct (negb _).
      * injection E2 as <-. now destruct (H _ eq_refl).
      * destruct (valid_date _); [discriminate|].
        injection E2 as <-. now destruct (H _ eq_refl).
  - unfold new_datetime in E1. destruct (negb _).
    + injection E1 as <-. now destruct (H _ eq_refl).
    + destruct (valid_date _); [discriminate|].
      injection E1 as <-. now destruct (H _ eq_refl).
Qed.

(** A run that returns went through the loop over the whole window, from
    the state [seed 42]. *)
Lemma generate_inv sy ey s df s' :
  generate_realistic_sunset_data sy ey s = Ok (df, s') ->
  1 <= sy <= 9999 /\ 1 <= ey <= 9999
  /\ for_each (days_from_to (mkdate sy 1 1) (mkdate ey 12 31))
              (observe fetch_current_conditions
                       get_historical_weather_patterns sy) (seed 42)
     = Ok (df, s')
  /\ df <> [].
Proof.
  intros H.
  assert (Hy : 1 <= sy <= 9999 /\ 1 <= ey <= 9999).
  { apply (generate_years sy ey s). intros e He. rewrite He in H. discriminate. }
  destruct Hy as (Hs & He). split; [exact Hs|]. split; [exact He|].
  rewrite generate_valid_years in H by assumption.
  destruct (timestamp_ok _ && timestamp_ok _); [|discriminate].
  unfold loop_and_summary in H.
  destruct (for_each _ _ _) as [[[|r rows] s1]|e]; try discriminate.
  injection H as <- <-. split; [reflexivity|discriminate].
Qed.

(** A run that returns ran on a platform that holds both ends of the
    window. *)
Lemma generate_timestamps sy ey s df s' :
  generate_realistic_sunset_data sy ey s = Ok (df, s') ->
  timestamp_ok (mkdate sy 1 1) = true /\ timestamp_ok (mkdate ey 12 31) = true.
Proof.
  intros H. destruct (generate_inv _ _ _ _ _ H) as (Hs & He & _).
  rewrite generate_valid_years in H by assumption.
  destruct (timestamp_ok (mkdate sy 1 1)), (timestamp_ok (mkdate ey 12 31));
    try discriminate. now split.
Qed.

(** Every row of a returned frame is the loop body run on one day of
    the window, in the order of the window. *)
Lemma generated_rows sy ey s df s' :
  generate_realistic_sunset_data sy ey s = Ok (df, s') ->
  Forall2 (fun d obs =>
             exists s1 s2,
               observe fetch_current_conditions
                       get_historical_weather_patterns sy d s1 = Ok (obs, s2))
          (days_from_to (mkdate sy 1 1) (mkdate ey 12 31)) df.
Proof.
  intros H. apply generate_inv in H as (_ & _ & H & _).
  eapply for_each_Forall2. exact H.
Qed.

Lemma generated_row sy ey s df s' obs :
  generate_realistic_sunset_data sy ey s = Ok (df, s') ->
  In obs df ->
  exists d s1 s2,
    In d (days_from_to (mkdate sy 1 1) (mkdate ey 12 31))
    /\ observe fetch_current_conditions
               get_historical_weather_patterns sy d s1 = Ok (obs, s2).
Proof.
  intros H Hin. apply generated_rows in H.
  destruct (Forall2_In_r _ _ _ _ H Hin) as (d & Hd & s1 & s2 & Ho).
  now exists d, s1, s2.
Qed.

Lemma observe_date cd pat sy d s obs s' :
  observe cd pat sy d s = Ok (obs, s') -> date obs = d.
Proof.
  intros H. apply observe_inv in H as (sf & e & p & s1 & _ & H).
  apply day_row_inv in H as (i & du & c & cr & s2 & t & h & pr & v & w & _ & _ & ->).
  reflexivity.
Qed.

(** On a window of valid years in order, with both ends held by the
    timestamps of the platform, the run returns a frame. *)
Lemma generate_total_platform sy ey s :
  1 <= sy -> sy <= ey -> ey <= 9999 ->
  timestamp_ok (mkdate sy 1 1) = true ->
  timestamp_ok (mkdate ey 12 31) = true ->
  exists df s', generate_realistic_sunset_data sy ey s = Ok (df, s').
Proof.
  intros H1 H2 H3 T1 T2.
  destruct (for_each_total
              (observe fetch_current_conditions
                       get_historical_weather_patterns sy)
              (days_from_to (mkdate sy 1 1) (mkdate ey 12 31))) with (s := seed 42)
    as (rows & s1 & Hrows).
  { intros d Hd s0. apply observe_total. apply days_from_to_In in Hd. lia. }
  assert (Hlen : length rows
                 = length (days_from_to (mkdate sy 1 1) (mkdate ey 12 31))).
  { eapply Forall2_length_eq, for_each_Forall2, Hrows. }
  rewrite days_from_to_length in Hlen by lia.
  rewrite toordinal_jan1, toordinal_dec31 in Hlen.
  assert (days_before_year sy + 365 <= days_before_year (ey + 1)).
  { pose proof (days_before_year_mono ey).
    assert (forall k : nat, days_before_year sy
                            <= days_before_year (sy + Z.of_nat k)) as Hk.
    { induction k as [|k IH];
        [replace (sy + Z.of_nat 0) with sy by lia; lia|].
      replace (sy + Z.of_nat (S k)) with (sy + Z.of_nat k + 1) by lia.
      pose proof (days_before_year_mono (sy + Z.of_nat k)). lia. }
    specialize (Hk (Z.to_nat (ey - sy))).
    replace (sy + Z.of_nat (Z.to_nat (ey - sy))) with ey in Hk by lia. lia. }
  exists rows, s1.
  rewrite generate_valid_years, T1, T2 by lia. cbn [andb].
  unfold loop_and_summary. rewrite Hrows.
  destruct rows as [|r rows]; [cbn in Hlen; lia|]. reflexivity.
Qed.

(** Every platform holds the years 1678 to 2261. *)
Lemma generate_total sy ey s :
  1678 <= sy -> sy <= ey -> ey <= 2261 ->
  exists df s', generate_realistic_sunset_data sy ey s = Ok (df, s').
Proof.
  intros H1 H2 H3. apply generate_total_platform; try lia.
  - apply timestamp_jan1. lia.
  - apply timestamp_dec31. lia.
Qed.

(** The run, stage by stage: the first message, the two dates, the
    range, then the loop and the summary. *)
Lemma generate_stages sy ey s :
  generate_realistic_sunset_data sy ey s
  = if int_str_ok sy then
      if int_str_ok ey then
        match new_datetime sy 1 1 with
        | Raise e => Raise e
        | Ok _ =>
            match new_datetime ey 12 31 with
            | Raise e => Raise e
            | Ok _ =>
                if timestamp_ok (mkdate sy 1 1) && timestamp_ok (mkdate ey 12 31)
                then loop_and_summary sy ey s
                else Raise OutOfBoundsDatetime
            end
        end
      else Raise ValueError
    else Raise ValueError.
Proof.
  unfold generate_realistic_sunset_data. cbv zeta.
  unfold bind at 1. unfold lift at 1. unfold format_int at 1.
  destruct (int_str_ok sy); [|reflexivity].
  unfold bind at 1. unfold lift at 1. unfold format_int at 1.
  destruct (int_str_ok ey); [|reflexivity].
  destruct (new_datetime sy 1 1) as [sd|e1] eqn:E1; [|reflexivity].
  apply new_datetime_Ok in E1. subst sd. rewrite bind_lift_Ok.
  destruct (new_datetime ey 12 31) as [ed|e2] eqn:E2; [|reflexivity].
  apply new_datetime_Ok in E2. subst ed. rewrite bind_lift_Ok.
  unfold date_range.
  destruct (timestamp_ok (mkdate sy 1 1) && timestamp_ok (mkdate ey 12 31));
    [|reflexivity].
  rewrite bind_lift_Ok. unfold loop_and_summary.
  unfold bind at 1. unfold np_random_seed.
  unfold bind at 1.
  destruct (for_each _ _ _) as [[[|r rows] s1]|e]; reflexivity.
Qed.

(** Over a window in the wrong order the loop runs over no day, draws
    nothing, and the summary finds no column. *)
Lemma loop_reversed sy ey s :
  ey < sy ->
  for_each (days_from_to (mkdate sy 1 1) (mkdate ey 12 31))
           (observe fetch_current_conditions
                    get_historical_weather_patterns sy) (seed 42)
  = Ok ([], seed 42)
  /\ loop_and_summary sy ey s = Raise KeyError.
Proof.
  intros H. unfold loop_and_summary.
  rewrite days_from_to_empty by exact H. split; reflexivity.
Qed.

(** An int that [str] refuses does not fit a C int. *)
Lemma long_int_overflows n : int_str_ok n = false -> fits_c_int n = false.
Proof.
  intros H. destruct (fits_c_int n) eqn:F; [|reflexivity].
  apply fits_c_int_iff in F. apply format_int_c_int in F.
  unfold format_int in F. rewrite H in F. discriminate.
Qed.

(** Every run ends in one of nine ways, by the two years and the
    platform. *)
Lemma generate_cases sy ey s :
  (int_str_ok sy = false
   /\ generate_realistic_sunset_data sy ey s = Raise ValueError)
  \/ (int_str_ok sy = true /\ int_str_ok ey = false
      /\ generate_realistic_sunset_data sy ey s = Raise ValueError)
  \/ (int_str_ok sy = true /\ int_str_ok ey = true /\ fits_c_int sy = false
      /\ generate_realistic_sunset_data sy ey s = Raise OverflowError)
  \/ (int_str_ok sy = true /\ int_str_ok ey = true /\ fits_c_int sy = true
      /\ (sy < 1 \/ 9999 < sy)
      /\ generate_realistic_sunset_data sy ey s = Raise ValueError)
  \/ (int_str_ok sy = true /\ int_str_ok ey = true /\ 1 <= sy <= 9999
      /\ fits_c_int ey = false
      /\ generate_realistic_sunset_data sy ey s = Raise OverflowError)
  \/ (int_str_ok sy = true /\ int_str_ok ey = true /\ 1 <= sy <= 9999
      /\ fits_c_int ey = true /\ (ey < 1 \/ 9999 < ey)
      /\ generate_realistic_sunset_data sy ey s = Raise ValueError)
  \/ (int_str_ok sy = true /\ int_str_ok ey = true
      /\ 1 <= sy <= 9999 /\ 1 <= ey <= 9999
      /\ timestamp_ok (mkdate sy 1 1) && timestamp_ok (mkdate ey 12 31) = false
      /\ generate_realistic_sunset_data sy ey s = Raise OutOfBoundsDatetime)
  \/ (int_str_ok sy = true /\ int_str_ok ey = true
      /\ 1 <= sy <= 9999 /\ 1 <= ey <= 9999
      /\ timestamp_ok (mkdate sy 1 1) && timestamp_ok (mkdate ey 12 31) = true
      /\ ey < sy
      /\ generate_realistic_sunset_data sy ey s = Raise KeyError)
  \/ (int_str_ok sy = true /\ int_str_ok ey = true
      /\ 1 <= sy <= 9999 /\ 1 <= ey <= 9999
      /\ timestamp_ok (mkdate sy 1 1) && timestamp_ok (mkdate ey 12 31) = true
      /\ sy <= ey
      /\ exists df s', generate_realistic_sunset_data sy ey s = Ok (df, s')).
Proof.
  pose proof (generate_stages sy ey s) as Hrun.
  destruct (int_str_ok sy) eqn:I1; [|now left].
  destruct (int_str_ok ey) eqn:I2; [|right; left; now repeat split].
  destruct (new_datetime_cases sy 1 1 ltac:(left; split; reflexivity))
    as [(Hs & E1)|[(F1 & Hs & E1)|(F1 & E1)]]; rewrite E1 in Hrun.
  2:{ do 3 right; left. now repeat split. }
  2:{ do 2 right; left. now repeat split. }
  destruct (new_datetime_cases ey 12 31 ltac:(right; split; reflexivity))
    as [(He & E2)|[(F2 & He & E2)|(F2 & E2)]]; rewrite E2 in Hrun.
  2:{ do 5 right; left. now repeat split. }
  2:{ do 4 right; left. now repeat split. }
  destruct (timestamp_ok (mkdate sy 1 1) && timestamp_ok (mkdate ey 12 31)) eqn:T.
  2:{ do 6 right; left. now repeat split. }
  destruct (Z_lt_ge_dec ey sy) as [Hlt|Hge].
  - do 7 right; left. rewrite (proj2 (loop_reversed sy ey s Hlt)) in Hrun.
    now repeat split.
  - do 8 right. apply andb_true_iff in T as (T1 & T2).
    repeat split; try lia.
    apply generate_total_platform; try lia; assumption.
Qed.
End CollectorRuns.

(** ** The loop body and the runs of the built-in generator *)

Section BuiltinFacts.
Import HongKongSunsetClouds.
Context {G : NumpyRandom} {P : Platform}.
Local Open Scope R_scope.

Lemma builtin_tables_defined m :
  (1 <= m <= 12)%Z ->
  exists base t0 h0,
    dict_getitem realistic_month_prob m = Ok base
    /\ py_getitem avg_temp_by_month (m - 1) = Ok t0
    /\ py_getitem avg_humidity_by_month (m - 1) = Ok h0.
Proof.
  intros H. each_month H; do 3 eexists; repeat split; reflexivity.
Qed.

Lemma builtin_day_probability_run d s base :
  dict_getitem realistic_month_prob (dt_month d) = Ok base ->
  day_probability d s
  = Ok (final_prob base (dt_year d) (fst (draw (Normal 0 0.3) s)),
        snd (draw (Normal 0 0.3) s)).
Proof.
  intros H. unfold day_probability. cbv zeta.
  now rewrite H, bind_lift_Ok, bind_sample.
Qed.

Lemma builtin_sunset_attributes_false m s :
  let v := draw (Normal 12 4) s in
  let w := draw (Gamma 2 3) (snd v) in
  sunset_attributes false m s = Ok ((0, 0, 0, fst v, fst w, 0), snd w).
Proof.
  unfold sunset_attributes. cbv zeta. now rewrite !bind_sample.
Qed.

Lemma builtin_sunset_attributes_true m s :
  let b := draw (Beta 2 2) s in
  let u := draw (if py_in m [10; 11; 12; 1]%Z
                 then Uniform 1.1 1.4 else Uniform 0.7 1.0) (snd b) in
  let g := draw (Gamma 2 1) (snd u) in
  let e := draw (Exponential 20) (snd g) in
  let c := draw (Beta 2 3) (snd e) in
  let v := draw (Normal 15 5) (snd c) in
  let w := draw (if py_in m [10; 11; 12; 1; 2]%Z
                 then Gamma 3 4 else Gamma 2 3) (snd v) in
  let r := draw (Uniform 0.8 1.2) (snd w) in
  sunset_attributes true m s
  = if Req_dec_T (fst g) 0 then Raise ZeroDivisionError
    else Ok ((fst b * 10 * fst u,
              15 + fst e / fst g,
              fst c * 100,
              (if py_in m [3; 4; 5; 6]%Z then fst v * 0.7 else fst v),
              fst w,
              fst b * 10 * fst u * fst r), snd r).
Proof.
  unfold sunset_attributes. cbv zeta. rewrite bind_sample.
  destruct (py_in m [10; 11; 12; 1]%Z);
    rewrite bind_bind, bind_sample, bind_ret, !bind_sample;
    unfold py_div;
    (destruct (Req_dec_T _ 0);
     [now rewrite bind_lift_Raise|rewrite bind_lift_Ok, !bind_sample]);
    destruct (py_in m [10; 11; 12; 1; 2]%Z);
    rewrite !bind_sample; reflexivity.
Qed.

Lemma builtin_weather_run m s t0 h0 :
  py_getitem avg_temp_by_month (m - 1) = Ok t0 ->
  py_getitem avg_humidity_by_month (m - 1) = Ok h0 ->
  let n1 := draw (Normal 0 3) s in
  let n2 := draw (Normal 0 8) (snd n1) in
  let n3 := draw (Normal 0 10) (snd n2) in
  weather m s = Ok ((t0 + fst n1, h0 + fst n2, 1013 + fst n3), snd n3).
Proof.
  intros Ht Hh. unfold weather. cbv zeta.
  now rewrite Ht, bind_lift_Ok, bind_sample, Hh, bind_lift_Ok, !bind_sample.
Qed.

Lemma builtin_day_row_inv d has s obs s' :
  day_row d has s = Ok (obs, s') ->
  exists i du c v w cr s1 t h p,
    sunset_attributes has (dt_month d) s = Ok ((i, du, c, v, w, cr), s1)
    /\ weather (dt_month d) s1 = Ok ((t, h, p), s')
    /\ obs = {| date := d; year := dt_year d; month := dt_month d;
                day_of_year := tm_yday d;
                has_sunset_clouds := has;
                intensity := py_max 0 (py_min 10 i);
                duration_minutes := py_max 0 (py_min 120 du);
                coverage_percent := py_max 0 (py_min 100 c);
                visibility_km := py_max 1 (py_min 50 v);
                wind_speed_kmh := py_max 0 w;
                color_richness := py_max 0 (py_min 10 cr);
                temperature_c := t;
                humidity_percent := py_max 0 (py_min 100 h);
                pressure_hpa := p |}.
Proof.
  unfold day_row. intros H.
  apply bind_Ok_inv in H as ([[[[[i du] c] v] w] cr] & s1 & Ha & H).
  apply bind_Ok_inv in H as ([[t h] p] & s2 & Hw & H).
  cbn in H. injection H as <- <-.
  now exists i, du, c, v, w, cr, s1, t, h, p.
Qed.

Lemma builtin_day_row_total d has s :
  (forall s0, fst (draw (Gamma 2 1) s0) <> 0) ->
  (1 <= dt_month d <= 12)%Z ->
  exists obs s', HongKongSunsetClouds.day_row d has s = Ok (obs, s').
Proof.
  intros Hg Hm.
  destruct (builtin_tables_defined _ Hm) as (base & t0 & h0 & Hb & Ht & Hh).
  unfold HongKongSunsetClouds.day_row.
  assert (Ha : exists a s3,
             HongKongSunsetClouds.sunset_attributes has (dt_month d) s
             = Ok (a, s3)).
  { destruct has.
    - pose proof (builtin_sunset_attributes_true (dt_month d) s) as E.
      cbv zeta in E. destruct (Req_dec_T _ 0) as [Z0|_] in E;
        [now apply Hg in Z0|].
      eexists; eexists; exact E.
    - eexists; eexists. apply builtin_sunset_attributes_false. }
  destruct Ha as ([[[[[i du] c] v] w] cr] & s3 & Ha).
  unfold bind at 1. rewrite Ha. unfold bind at 1.
  rewrite (builtin_weather_run _ s3 _ _ Ht Hh). cbv zeta.
  eexists; eexists; reflexivity.
Qed.

Lemma builtin_observe_inv d s obs s' :
  observe d s = Ok (obs, s') ->
  exists p s1,
    day_probability d s = Ok (p, s1)
    /\ day_row d (py_lt (fst (draw Random s1)) p) (snd (draw Random s1))
       = Ok (obs, s').
Proof.
  unfold observe. intros H.
  apply bind_Ok_inv in H as (p & s1 & Hp & H).
  rewrite bind_sample in H. now exists p, s1.
Qed.

Lemma builtin_generated_row s df s' obs :
  generate_realistic_data s = Ok (df, s') ->
  In obs df ->
  exists d s1 s2,
    In d (days_from_to (mkdate 2000 1 1) (mkdate 2020 12 31))
    /\ observe d s1 = Ok (obs, s2).
Proof.
  unfold generate_realistic_data. cbv zeta. intros H Hin.
  rewrite new_datetime_jan1, bind_lift_Ok in H by lia.
  rewrite new_datetime_dec31, bind_lift_Ok in H by lia.
  rewrite builtin_date_range, bind_lift_Ok in H.
  apply bind_Ok_inv in H as ([] & s3 & Hseed & H).
  apply bind_Ok_inv in H as (rows & s4 & Hrows & H).
  apply bind_Ok_inv in H as (col & s5 & Hcol & H).
  cbn in H. injection H as <- <-.
  apply for_each_Forall2 in Hrows.
  destruct (Forall2_In_r _ _ _ _ Hrows Hin) as (d & Hd & s1 & s2 & Ho).
  now exists d, s1, s2.
Qed.
End BuiltinFacts.

(** ** The generators without randomness *)

Lemma ConstRandom_well_distributed u :
  (0 <= u < 1)%R -> well_distributed (ConstRandom u).
Proof.
  intros Hu d s. destruct d as [loc sc| |a b|lo hi|sc|sh sc]; cbn.
  - exact I.
  - exact Hu.
  - lra.
  - unfold Rmin, Rmax. destruct (Rle_dec lo hi); lra.
  - apply Rabs_pos.
  - apply Rabs_pos.
Qed.

Lemma ConstRandom_state_independent u : state_independent (ConstRandom u).
Proof. intros d s s'. reflexivity. Qed.

(** ** The probability of a day *)

Section Probability.
Import HKODataCollector.
Local Open Scope R_scope.

Lemma final_prob_spec base sf sy y noise :
  final_prob base sf (1 + 0.01 * IZR (y - sy) / 20)
             (sin (2 * PI * IZR (y - sy) / 3.5))
             (sin (2 * PI * IZR (y - sy) / 11)) noise
  = spec_probability base sf sy y noise.
Proof. unfold final_prob, spec_probability. cbv zeta. apply py_clamp. Qed.

Lemma final_prob_range base sf trend e sp noise :
  0 <= final_prob base sf trend e sp noise <= 0.8.
Proof. unfold final_prob. cbv zeta. apply py_clamp_range. lra. Qed.

Lemma spec_probability_range base sf sy y noise :
  0 <= spec_probability base sf sy y noise <= 0.8.
Proof. rewrite <- final_prob_spec. apply final_prob_range. Qed.
End Probability.

Lemma season_factor_values m :
  1 <= m <= 12 ->
  HKODataCollector.season_factor_loop
    (HKODataCollector.seasonal_factors
       HKODataCollector.get_historical_weather_patterns) m 1.0%R
  = if py_in m [3; 4; 5] then 0.6%R
    else if py_in m [6; 7; 8] then 0.4%R
    else if py_in m [9; 10; 11] then 1.2%R else 1.0%R.
Proof. intros H. each_month H; reflexivity. Qed.

(** The season group of a month: the only group of [seasonal_factors]
    whose months contain it, where the loop stops. *)
Lemma season_group_of_month m :
  1 <= m <= 12 ->
  exists season info,
    filter (fun item => py_in m (HKODataCollector.months (snd item)))
           (HKODataCollector.seasonal_factors
              HKODataCollector.get_historical_weather_patterns)
    = [(season, info)]
    /\ HKODataCollector.cloud_factor info = spec_season_factor m
    /\ HKODataCollector.season_factor_loop
         (HKODataCollector.seasonal_factors
            HKODataCollector.get_historical_weather_patterns) m 1.0%R
       = HKODataCollector.cloud_factor info.
Proof.
  intros H. each_month H; do 2 eexists;
    (split; [reflexivity|]); split; reflexivity.
Qed.

(** C1. For every date of the generation window the probability computed
    by the loop body is
    clamp(base * season_factor * trend * (1 + 0.1*interannual_phase
    + 0.05*longperiod_phase + noise), 0, 0.8), with base the entry of the
    month in the base-probability table, season_factor the cloud factor of
    the one season group whose months contain the month (0.6 in March to
    May, 0.4 in June to August, 1.2 in September to November, 1.0 in
    December to February), trend = 1 + 0.01*(year - start_year)/20, the
    phases the sines of 2*pi*(year - start_year)/3.5 and
    2*pi*(year - start_year)/11 and noise the Normal(0, 0.2) draw of the
    day; it lies in [0, 0.8]. *)
Theorem C1_probability_formula (G : NumpyRandom) (start_year end_year : Z)
        (d : datetime) (s : rng_state) :
  In d (days_from_to (mkdate start_year 1 1) (mkdate end_year 12 31)) ->
  exists base season info,
    dict_getitem (HKODataCollector.monthly_sunset_probability
                    HKODataCollector.fetch_current_conditions) (dt_month d)
    = Ok base
    /\ filter (fun item =>
                 py_in (dt_month d) (HKODataCollector.months (snd item)))
              (HKODataCollector.seasonal_factors
                 HKODataCollector.get_historical_weather_patterns)
       = [(season, info)]
    /\ HKODataCollector.cloud_factor info = spec_season_factor (dt_month d)
    /\ HKODataCollector.day_probability
         HKODataCollector.fetch_current_conditions
         HKODataCollector.get_historical_weather_patterns start_year d s
       = Ok ((HKODataCollector.cloud_factor info,
              sin (2 * PI * IZR (dt_year d - start_year) / 3.5),
              spec_probability base (HKODataCollector.cloud_factor info)
                start_year (dt_year d) (fst (draw (Normal 0 0.2) s))),
             snd (draw (Normal 0 0.2) s))
    /\ (0 <= spec_probability base (HKODataCollector.cloud_factor info)
               start_year (dt_year d) (fst (draw (Normal 0 0.2) s))
        <= 0.8)%R.
Proof.
  intros Hd. apply days_from_to_In in Hd as (_ & Hm & _).
  destruct (collector_tables_defined _ Hm) as (base & _ & _ & _ & Hb & _).
  destruct (season_group_of_month _ Hm) as (season & info & Hf & Hv & Hl).
  exists base, season, info.
  split; [exact Hb|]. split; [exact Hf|]. split; [exact Hv|]. split.
  - rewrite (day_probability_run _ _ _ _ _ _ Hb).
    cbn [HKODataCollector.climate_cycles HKODataCollector.enso_cycle
         HKODataCollector.sunspot_cycle
         HKODataCollector.get_historical_weather_patterns].
    now rewrite final_prob_spec, Hl.
  - apply spec_probability_range.
Qed.

Lemma C1_probability_formula_witness :
  In (mkdate 2020 3 1) (days_from_to (mkdate 2020 1 1) (mkdate 2020 12 31))
  /\ exists base info,
       dict_getitem (HKODataCollector.monthly_sunset_probability
                       HKODataCollector.fetch_current_conditions) 3 = Ok base
       /\ HKODataCollector.cloud_factor info = 0.6%R
       /\ HKODataCollector.day_probability (G := MeanRandom)
            HKODataCollector.fetch_current_conditions
            HKODataCollector.get_historical_weather_patterns 2020
            (mkdate 2020 3 1) 0%nat
          = Ok ((HKODataCollector.cloud_factor info,
                 sin (2 * PI * IZR (2020 - 2020) / 3.5),
                 spec_probability base (HKODataCollector.cloud_factor info)
                   2020 2020 0%R), 1%nat)
       /\ (0 <= spec_probability base (HKODataCollector.cloud_factor info)
                  2020 2020 0%R <= 0.8)%R.
Proof.
  assert (H : In (mkdate 2020 3 1)
                 (days_from_to (mkdate 2020 1 1) (mkdate 2020 12 31)))
    by (apply days_from_to_In; cbn; lia).
  split; [exact H|].
  destruct (C1_probability_formula MeanRandom 2020 2020 (mkdate 2020 3 1) 0%nat H)
    as (base & season & info & Hb & _ & Hv & Hrun & Hr).
  exists base, info.
  split; [exact Hb|]. split; [exact Hv|]. split; [exact Hrun | exact Hr].
Defined.

(** ** One row per day of the window *)

(** C2, as stated, fails at start_year = end_year = 0: [datetime(0, 1, 1)]
    raises ValueError (MINYEAR is 1) and no frame is returned, on either
    platform. *)
Lemma C2_counterexample :
  0 <= 0
  /\ HKODataCollector.generate_realistic_sunset_data
       (G := MeanRandom) (P := NanosecondPlatform) 0 0 0%nat
     = Raise ValueError
  /\ HKODataCollector.generate_realistic_sunset_data
       (G := MeanRandom) (P := MicrosecondPlatform) 0 0 0%nat
     = Raise ValueError.
Proof.
  split; [lia|]. split.
  - unfold HKODataCollector.generate_realistic_sunset_data.
    rewrite (format_int_c_int (P := NanosecondPlatform) 0) by lia.
    reflexivity.
  - reflexivity.
Qed.

(** C2, amended. For every start_year and end_year with
    1678 <= start_year <= end_year <= 2261 (the years that the timestamps
    of every pandas hold), and more generally with
    1 <= start_year <= end_year <= 9999 (the years of [datetime]) on a
    platform whose timestamps hold January 1 of start_year and December 31
    of end_year, the run returns a frame with exactly one row per calendar
    day of [Jan 1 start_year, Dec 31 end_year]: the dates of the rows are
    the days of the window in order, their day numbers are consecutive
    (strictly increasing, no gap, no duplicate, leap days included), every
    day of a year of the window occurs, and the number of rows is the
    inclusive day count; the window 2020-2020 gives 366 rows. *)
Theorem C2_one_row_per_day (G : NumpyRandom) (P : Platform)
        (start_year end_year : Z) (s : rng_state) :
  1 <= start_year -> start_year <= end_year -> end_year <= 9999 ->
  (1678 <= start_year /\ end_year <= 2261)
  \/ (timestamp_ok (mkdate start_year 1 1) = true
      /\ timestamp_ok (mkdate end_year 12 31) = true) ->
  exists df s',
    HKODataCollector.generate_realistic_sunset_data start_year end_year s
    = Ok (df, s')
    /\ map HKODataCollector.date df
       = days_from_to (mkdate start_year 1 1) (mkdate end_year 12 31)
    /\ map (fun o => toordinal (HKODataCollector.date o)) df
       = zrange (toordinal (mkdate start_year 1 1))
                (toordinal (mkdate end_year 12 31))
    /\ NoDup (map HKODataCollector.date df)
    /\ (forall d, In d (map HKODataCollector.date df) <->
                  start_year <= dt_year d <= end_year
                  /\ 1 <= dt_month d <= 12
                  /\ 1 <= dt_day d <= days_in_month (dt_year d) (dt_month d))
    /\ length df
       = Z.to_nat (toordinal (mkdate end_year 12 31)
                   - toordinal (mkdate start_year 1 1) + 1)
    /\ (start_year = 2020 -> end_year = 2020 -> length df = 366%nat).
Proof.
  intros H1 H2 H3 HP.
  assert (T : timestamp_ok (mkdate start_year 1 1) = true
              /\ timestamp_ok (mkdate end_year 12 31) = true).
  { destruct HP as [[Ha Hb]|HP]; [|exact HP].
    split; [apply timestamp_jan1 | apply timestamp_dec31]; lia. }
  destruct T as (T1 & T2).
  destruct (generate_total_platform start_year end_year s H1 H2 H3 T1 T2)
    as (df & s' & Hrun).
  exists df, s'. split; [exact Hrun|].
  assert (Hdates : map HKODataCollector.date df
                   = days_from_to (mkdate start_year 1 1) (mkdate end_year 12 31)).
  { apply generated_rows in Hrun. apply Forall2_map_eq.
    eapply Forall2_impl; [|exact Hrun].
    intros d obs (s1 & s2 & Ho). eapply observe_date, Ho. }
  assert (Hlen : length df
                 = length (days_from_to (mkdate start_year 1 1)
                                        (mkdate end_year 12 31)))
    by (now rewrite <- Hdates, length_map).
  split; [exact Hdates|]. split.
  - rewrite <- (map_map HKODataCollector.date toordinal), Hdates.
    apply days_from_to_ordinals. lia.
  - split; [rewrite Hdates; apply days_from_to_NoDup|]. split.
    + intros d. rewrite Hdates. apply days_from_to_In.
    + split.
      * rewrite Hlen. apply days_from_to_length. lia.
      * intros -> ->. rewrite Hlen. apply days_from_to_2020.
Qed.

Lemma C2_one_row_per_day_witness :
  exists df s',
    HKODataCollector.generate_realistic_sunset_data
      (G := MeanRandom) (P := NanosecondPlatform) 2020 2020 0%nat = Ok (df, s')
    /\ map HKODataCollector.date df
       = days_from_to (mkdate 2020 1 1) (mkdate 2020 12 31)
    /\ length df = 366%nat.
Proof.
  destruct (C2_one_row_per_day MeanRandom NanosecondPlatform 2020 2020 0%nat
              ltac:(lia) ltac:(lia) ltac:(lia) ltac:(left; lia))
    as (df & s' & Hrun & Hdates & _ & _ & _ & _ & H366).
  exists df, s'. split; [exact Hrun|]. split; [exact Hdates|].
  apply H366; reflexivity.
Defined.

(** ** Field ranges *)

Lemma observe_ranges (G : NumpyRandom) cd pat sy d s obs s' :
  HKODataCollector.observe cd pat sy d s = Ok (obs, s') ->
  in_declared_ranges obs.
Proof.
  intros H. apply observe_inv in H as (sf & e & p & s1 & _ & H).
  apply day_row_inv in H
    as (i & du & c & cr & s2 & t & h & pr & v & w & _ & _ & ->).
  unfold in_declared_ranges. cbn.
  repeat split; try (apply py_clamp_range; lra); apply py_max_lower.
Qed.

(** C3. Every row of a generated frame has 0 <= intensity <= 10,
    0 <= duration_minutes <= 120, 0 <= coverage_percent <= 100,
    0 <= color_richness <= 10, 0 <= humidity_percent <= 100,
    1 <= visibility_km <= 50 and wind_speed_kmh >= 0. *)
Theorem C3_field_ranges (G : NumpyRandom) (P : Platform)
        (start_year end_year : Z)
        (s : rng_state) df s' obs :
  HKODataCollector.generate_realistic_sunset_data start_year end_year s
  = Ok (df, s') ->
  In obs df ->
  in_declared_ranges obs.
Proof.
  intros Hrun Hin.
  destruct (generated_row _ _ _ _ _ _ Hrun Hin) as (d & s1 & s2 & _ & Ho).
  eapply observe_ranges, Ho.
Qed.

Lemma C3_field_ranges_witness :
  exists df s' obs,
    HKODataCollector.generate_realistic_sunset_data
      (G := MeanRandom) (P := NanosecondPlatform) 2020 2020 0%nat = Ok (df, s')
    /\ In obs df
    /\ in_declared_ranges obs.
Proof.
  destruct (generate_total
      (G := MeanRandom) (P := NanosecondPlatform) 2020 2020 0%nat
              ltac:(lia) ltac:(lia) ltac:(lia)) as (df & s' & Hrun).
  destruct (generate_inv _ _ _ _ _ Hrun) as (_ & _ & _ & Hne).
  destruct df as [|obs df]; [contradiction Hne; reflexivity|].
  exists (obs :: df), s', obs.
  split; [exact Hrun|]. split; [now left|].
  apply (C3_field_ranges MeanRandom NanosecondPlatform 2020 2020 0%nat (obs :: df) s' obs Hrun).
  now left.
Defined.

(** ** Determinism *)

(** C4. Two runs over the same window return the same frame, field for
    field, whatever the random state was before each run: the run resets
    the state with [np.random.seed(42)] before the first draw.  The same
    holds for the built-in generator. *)
Theorem C4_determinism (G : NumpyRandom) (P : Platform)
        (start_year end_year : Z)
        (s1 s2 : rng_state) :
  HKODataCollector.generate_realistic_sunset_data start_year end_year s1
  = HKODataCollector.generate_realistic_sunset_data start_year end_year s2
  /\ HongKongSunsetClouds.generate_realistic_data s1
     = HongKongSunsetClouds.generate_realistic_data s2.
Proof.
  split.
  - unfold HKODataCollector.generate_realistic_sunset_data. cbv zeta.
    repeat (apply bind_lift_state; intros ?). reflexivity.
  - unfold HongKongSunsetClouds.generate_realistic_data. cbv zeta.
    rewrite !new_datetime_jan1, !new_datetime_dec31 by lia.
    rewrite !bind_lift_Ok, !builtin_date_range, !bind_lift_Ok.
    reflexivity.
Qed.

(** ** The first row of a run, and the occurrence test *)

Lemma for_each_head (G : NumpyRandom) {A B : Type} (body : A -> M B)
      x xs s ys s' :
  for_each (x :: xs) body s = Ok (ys, s') ->
  exists y ys' s1, ys = y :: ys' /\ body x s = Ok (y, s1).
Proof.
  cbn [for_each]. intros H.
  apply bind_Ok_inv in H as (b & s1 & Hb & H).
  apply bind_Ok_inv in H as (bs & s2 & Hbs & H).
  cbn in H. injection H as <- _. now exists b, bs, s1.
Qed.

Lemma days_from_to_head sy ey :
  sy <= ey ->
  exists rest,
    days_from_to (mkdate sy 1 1) (mkdate ey 12 31) = mkdate sy 1 1 :: rest.
Proof.
  intros H. rewrite days_from_to_whole_years, zrange_cons by exact H.
  cbn [flat_map]. unfold days_of_year. rewrite zrange_1_12. cbn [flat_map].
  unfold days_of_month at 1. change (days_in_month sy 1) with 31.
  rewrite (zrange_cons 1 31) by lia. cbn [map app].
  eexists. reflexivity.
Qed.

Section Occurrence.
Context {G : NumpyRandom} {P : Platform}.
Local Open Scope R_scope.

Lemma collector_first_row sy ey s df s' :
  (sy <= ey)%Z ->
  HKODataCollector.generate_realistic_sunset_data sy ey s = Ok (df, s') ->
  exists obs rest s1,
    df = obs :: rest
    /\ HKODataCollector.observe HKODataCollector.fetch_current_conditions
         HKODataCollector.get_historical_weather_patterns sy
         (mkdate sy 1 1) (seed 42) = Ok (obs, s1).
Proof.
  intros Hle H. apply generate_inv in H as (_ & _ & H & _).
  destruct (days_from_to_head sy ey Hle) as (rest & E). rewrite E in H.
  apply for_each_head in H as (y & ys' & s1 & -> & Hy).
  now exists y, ys', s1.
Qed.

(** The occurrence flag of a row is the test [random() < final_prob]. *)
Lemma collector_occurrence sy d s obs s' base :
  dict_getitem (HKODataCollector.monthly_sunset_probability
                  HKODataCollector.fetch_current_conditions) (dt_month d)
  = Ok base ->
  HKODataCollector.observe HKODataCollector.fetch_current_conditions
    HKODataCollector.get_historical_weather_patterns sy d s = Ok (obs, s') ->
  HKODataCollector.has_sunset_clouds obs
  = py_lt (fst (draw Random (snd (draw (Normal 0 0.2) s))))
          (spec_probability base
             (HKODataCollector.season_factor_loop
                (HKODataCollector.seasonal_factors
                   HKODataCollector.get_historical_weather_patterns)
                (dt_month d) 1.0)
             sy (dt_year d) (fst (draw (Normal 0 0.2) s))).
Proof.
  intros Hb H. apply observe_inv in H as (sf & e & p & s1 & Hp & H).
  rewrite (day_probability_run _ _ _ _ _ _ Hb) in Hp.
  cbn [HKODataCollector.climate_cycles HKODataCollector.enso_cycle
       HKODataCollector.sunspot_cycle
       HKODataCollector.get_historical_weather_patterns] in Hp.
  rewrite final_prob_spec in Hp. injection Hp as <- <- <- <-.
  apply day_row_inv in H
    as (i & du & c & cr & s2 & t & h & pr & v & w & _ & _ & ->).
  reflexivity.
Qed.

Lemma builtin_generate_inv s df s' :
  HongKongSunsetClouds.generate_realistic_data s = Ok (df, s') ->
  for_each (days_from_to (mkdate 2000 1 1) (mkdate 2020 12 31))
           HongKongSunsetClouds.observe (seed 42) = Ok (df, s').
Proof.
  unfold HongKongSunsetClouds.generate_realistic_data. cbv zeta. intros H.
  rewrite new_datetime_jan1, bind_lift_Ok in H by lia.
  rewrite new_datetime_dec31, bind_lift_Ok in H by lia.
  rewrite builtin_date_range, bind_lift_Ok in H.
  apply bind_Ok_inv in H as ([] & s3 & Hseed & H).
  apply bind_Ok_inv in H as (rows & s4 & Hrows & H).
  apply bind_Ok_inv in H as (col & s5 & Hcol & H).
  cbn in H. injection H as <- <-.
  unfold np_random_seed in Hseed. injection Hseed as <-.
  unfold lift in Hcol.
  destruct (frame_column rows HongKongSunsetClouds.has_sunset_clouds);
    [|discriminate].
  injection Hcol as _ <-. exact Hrows.
Qed.

Lemma builtin_first_row s df s' :
  HongKongSunsetClouds.generate_realistic_data s = Ok (df, s') ->
  exists obs rest s1,
    df = obs :: rest
    /\ HongKongSunsetClouds.observe (mkdate 2000 1 1) (seed 42) = Ok (obs, s1).
Proof.
  intros H. apply builtin_generate_inv in H.
  destruct (days_from_to_head 2000 2020 ltac:(lia)) as (rest & E).
  rewrite E in H.
  apply for_each_head in H as (y & ys' & s1 & -> & Hy).
  now exists y, ys', s1.
Qed.

Lemma builtin_occurrence d s obs s' base :
  dict_getitem HongKongSunsetClouds.realistic_month_prob (dt_month d)
  = Ok base ->
  HongKongSunsetClouds.observe d s = Ok (obs, s') ->
  HongKongSunsetClouds.has_sunset_clouds obs
  = py_lt (fst (draw Random (snd (draw (Normal 0 0.3) s))))
          (HongKongSunsetClouds.final_prob base (dt_year d)
             (fst (draw (Normal 0 0.3) s))).
Proof.
  intros Hb H. apply builtin_observe_inv in H as (p & s1 & Hp & H).
  rewrite (builtin_day_probability_run _ _ _ Hb) in Hp.
  injection Hp as <- <-.
  apply builtin_day_row_inv in H
    as (i & du & c & v & w & cr & s2 & t & h & pr & _ & _ & ->).
  reflexivity.
Qed.

(** Without a zero draw of the wind factor the built-in generator
    returns a frame. *)
Lemma builtin_observe_total d s :
  (forall s0, fst (draw (Gamma 2 1) s0) <> 0) ->
  (1 <= dt_month d <= 12)%Z ->
  exists obs s', HongKongSunsetClouds.observe d s = Ok (obs, s').
Proof.
  intros Hg Hm.
  destruct (builtin_tables_defined _ Hm) as (base & _ & _ & Hb & _).
  unfold HongKongSunsetClouds.observe. unfold bind at 1.
  rewrite (builtin_day_probability_run _ _ _ Hb), bind_sample.
  now apply builtin_day_row_total.
Qed.

Lemma builtin_generate_total s :
  (forall s0, fst (draw (Gamma 2 1) s0) <> 0) ->
  exists df s', HongKongSunsetClouds.generate_realistic_data s = Ok (df, s').
Proof.
  intros Hg.
  destruct (for_each_total HongKongSunsetClouds.observe
              (days_from_to (mkdate 2000 1 1) (mkdate 2020 12 31)))
    with (s := seed 42) as (rows & s1 & Hrows).
  { intros d Hd s0. apply builtin_observe_total; [exact Hg|].
    apply days_from_to_In in Hd. lia. }
  exists rows, s1.
  unfold HongKongSunsetClouds.generate_realistic_data. cbv zeta.
  rewrite new_datetime_jan1, bind_lift_Ok by lia.
  rewrite new_datetime_dec31, bind_lift_Ok by lia.
  rewrite builtin_date_range, bind_lift_Ok.
  unfold bind at 1. unfold np_random_seed.
  unfold bind at 1. rewrite Hrows.
  destruct (days_from_to_head 2000 2020 ltac:(lia)) as (rest & E).
  rewrite E in Hrows.
  apply for_each_head in Hrows as (y & ys' & s2 & -> & _). reflexivity.
Qed.
End Occurrence.

(** ** Days without the phenomenon *)

Lemma collector_no_occurrence (G : NumpyRandom) cd pat sy d s obs s' :
  HKODataCollector.observe cd pat sy d s = Ok (obs, s') ->
  HKODataCollector.has_sunset_clouds obs = false ->
  HKODataCollector.intensity obs = 0%R
  /\ HKODataCollector.duration_minutes obs = 0%R
  /\ HKODataCollector.coverage_percent obs = 0%R
  /\ HKODataCollector.color_richness obs = 0%R.
Proof.
  intros H Hhas. apply observe_inv in H as (sf & e & p & s1 & _ & H).
  apply day_row_inv in H
    as (i & du & c & cr & s2 & t & h & pr & v & w & Ha & _ & ->).
  cbn in Hhas. rewrite Hhas, sunset_attributes_false in Ha.
  injection Ha as <- <- <- <- _. cbn.
  repeat split; apply py_clamp_zero; lra.
Qed.

Lemma builtin_no_occurrence (G : NumpyRandom) d s obs s' :
  HongKongSunsetClouds.observe d s = Ok (obs, s') ->
  HongKongSunsetClouds.has_sunset_clouds obs = false ->
  HongKongSunsetClouds.intensity obs = 0%R
  /\ HongKongSunsetClouds.duration_minutes obs = 0%R
  /\ HongKongSunsetClouds.coverage_percent obs = 0%R
  /\ HongKongSunsetClouds.color_richness obs = 0%R.
Proof.
  intros H Hhas. apply builtin_observe_inv in H as (p & s1 & _ & H).
  apply builtin_day_row_inv in H
    as (i & du & c & v & w & cr & s2 & t & h & pr & Ha & _ & ->).
  cbn in Hhas. rewrite Hhas in Ha.
  pose proof (builtin_sunset_attributes_false (dt_month d)
                (snd (draw Random s1))) as E.
  cbv zeta in E. rewrite E in Ha.
  injection Ha as <- <- <- _ _ <- _. cbn.
  repeat split; apply py_clamp_zero; lra.
Qed.

(** C5. In a generated frame, of the collector as of the built-in
    generator, every row with occurred = false has intensity,
    duration_minutes, coverage_percent and color_richness all equal to 0. *)
Theorem C5_no_occurrence_zero (G : NumpyRandom) (P : Platform) :
  (forall start_year end_year s df s' obs,
      HKODataCollector.generate_realistic_sunset_data start_year end_year s
      = Ok (df, s') ->
      In obs df ->
      HKODataCollector.has_sunset_clouds obs = false ->
      HKODataCollector.intensity obs = 0%R
      /\ HKODataCollector.duration_minutes obs = 0%R
      /\ HKODataCollector.coverage_percent obs = 0%R
      /\ HKODataCollector.color_richness obs = 0%R)
  /\ (forall s df s' obs,
         HongKongSunsetClouds.generate_realistic_data s = Ok (df, s') ->
         In obs df ->
         HongKongSunsetClouds.has_sunset_clouds obs = false ->
         HongKongSunsetClouds.intensity obs = 0%R
         /\ HongKongSunsetClouds.duration_minutes obs = 0%R
         /\ HongKongSunsetClouds.coverage_percent obs = 0%R
         /\ HongKongSunsetClouds.color_richness obs = 0%R).
Proof.
  split.
  - intros sy ey s df s' obs Hrun Hin Hhas.
    destruct (generated_row _ _ _ _ _ _ Hrun Hin) as (d & s1 & s2 & _ & Ho).
    eapply collector_no_occurrence; eassumption.
  - intros s df s' obs Hrun Hin Hhas.
    destruct (builtin_generated_row _ _ _ _ Hrun Hin) as (d & s1 & s2 & _ & Ho).
    eapply builtin_no_occurrence; eassumption.
Qed.

(** With [random()] at 0.9 the first day of either run is a day without
    the phenomenon. *)
Lemma wind_factor_nonzero u s0 :
  fst (draw (NumpyRandom := ConstRandom u) (Gamma 2 1) s0) <> 0%R.
Proof.
  cbn. rewrite Rabs_pos_eq by lra. lra.
Qed.

Lemma collector_dry_first_day obs s1 :
  HKODataCollector.observe (G := ConstRandom 0.9)
    HKODataCollector.fetch_current_conditions
    HKODataCollector.get_historical_weather_patterns 2020
    (mkdate 2020 1 1) 0%nat = Ok (obs, s1) ->
  HKODataCollector.has_sunset_clouds obs = false.
Proof.
  intros H.
  rewrite (collector_occurrence (G := ConstRandom 0.9)
             2020 (mkdate 2020 1 1) 0%nat obs s1 0.25 eq_refl H).
  cbn [draw ConstRandom fst snd].
  unfold py_lt. destruct (Rlt_dec _ _) as [Hlt|_]; [|reflexivity].
  match type of Hlt with (_ < ?p)%R =>
    assert (0 <= p <= 0.8)%R by apply spec_probability_range end.
  lra.
Qed.

Lemma builtin_final_prob_bounds base y noise :
  (0 <= base + noise - 0.1 + 0.02 * IZR (y - 2000) / 20)%R ->
  (base + noise + 0.1 + 0.02 * IZR (y - 2000) / 20 <= 1)%R ->
  (base + noise - 0.1 + 0.02 * IZR (y - 2000) / 20
   <= HongKongSunsetClouds.final_prob base y noise
   <= base + noise + 0.1 + 0.02 * IZR (y - 2000) / 20)%R.
Proof.
  intros Hlo Hhi. unfold HongKongSunsetClouds.final_prob. cbv zeta.
  pose proof (SIN_bound (2 * PI * IZR (y - 2000) / 7)) as Hs.
  unfold py_max, py_min.
  destruct (Rlt_dec _ 1); destruct (Rlt_dec 0 _); lra.
Qed.

Lemma builtin_dry_first_day obs s1 :
  HongKongSunsetClouds.observe (G := ConstRandom 0.9)
    (mkdate 2000 1 1) 0%nat = Ok (obs, s1) ->
  HongKongSunsetClouds.has_sunset_clouds obs = false.
Proof.
  intros H.
  rewrite (builtin_occurrence (G := ConstRandom 0.9)
             (mkdate 2000 1 1) 0%nat obs s1 0.25 eq_refl H).
  cbn [draw ConstRandom fst snd dist_mean dt_year].
  pose proof (builtin_final_prob_bounds 0.25 2000 0) as B.
  replace (2000 - 2000) with 0 in B by reflexivity.
  unfold py_lt. destruct (Rlt_dec _ _) as [Hlt|_]; [|reflexivity].
  lra.
Qed.

Lemma C5_no_occurrence_zero_witness :
  (exists df s' obs,
      HKODataCollector.generate_realistic_sunset_data
        (G := ConstRandom 0.9)
            (P := NanosecondPlatform) 2020 2020 0%nat = Ok (df, s')
      /\ In obs df
      /\ HKODataCollector.has_sunset_clouds obs = false
      /\ HKODataCollector.intensity obs = 0%R
      /\ HKODataCollector.duration_minutes obs = 0%R
      /\ HKODataCollector.coverage_percent obs = 0%R
      /\ HKODataCollector.color_richness obs = 0%R)
  /\ (exists df s' obs,
         HongKongSunsetClouds.generate_realistic_data
           (G := ConstRandom 0.9) (P := NanosecondPlatform) 0%nat = Ok (df, s')
         /\ In obs df
         /\ HongKongSunsetClouds.has_sunset_clouds obs = false
         /\ HongKongSunsetClouds.intensity obs = 0%R
         /\ HongKongSunsetClouds.duration_minutes obs = 0%R
         /\ HongKongSunsetClouds.coverage_percent obs = 0%R
         /\ HongKongSunsetClouds.color_richness obs = 0%R).
Proof.
  destruct (C5_no_occurrence_zero (ConstRandom 0.9) NanosecondPlatform) as [HC HB].
  split.
  - destruct (generate_total
      (G := ConstRandom 0.9) (P := NanosecondPlatform) 2020 2020 0%nat
                ltac:(lia) ltac:(lia) ltac:(lia)) as (df & s' & Hrun).
    destruct (collector_first_row (G := ConstRandom 0.9) 2020 2020 0%nat df s'
                ltac:(lia) Hrun) as (obs & rest & s1 & E & Ho).
    pose proof (collector_dry_first_day obs s1 Ho) as Hhas.
    assert (Hin : In obs df) by (rewrite E; now left).
    exists df, s', obs. repeat split; try assumption;
      apply (HC 2020 2020 0%nat df s' obs Hrun Hin Hhas).
  - destruct (builtin_generate_total
      (G := ConstRandom 0.9) (P := NanosecondPlatform) 0%nat
                (wind_factor_nonzero 0.9)) as (df & s' & Hrun).
    destruct (builtin_first_row (G := ConstRandom 0.9) 0%nat df s' Hrun)
      as (obs & rest & s1 & E & Ho).
    pose proof (builtin_dry_first_day obs s1 Ho) as Hhas.
    assert (Hin : In obs df) by (rewrite E; now left).
    exists df, s', obs. repeat split; try assumption;
      apply (HB 0%nat df s' obs Hrun Hin Hhas).
Defined.

(** ** Duration on days with the phenomenon *)

Lemma collector_occurrence_duration (G : NumpyRandom) cd pat sy d s obs s' :
  well_distributed G ->
  HKODataCollector.observe cd pat sy d s = Ok (obs, s') ->
  HKODataCollector.has_sunset_clouds obs = true ->
  (15 <= HKODataCollector.duration_minutes obs <= 120)%R.
Proof.
  intros HG H Hhas. apply observe_inv in H as (sf & e & p & s1 & _ & H).
  apply day_row_inv in H
    as (i & du & c & cr & s2 & t & h & pr & v & w & Ha & _ & ->).
  cbn in Hhas. rewrite Hhas in Ha.
  pose proof (sunset_attributes_true (dt_month d) (snd (draw Random s1))) as E.
  cbv zeta in E. rewrite E in Ha. injection Ha as _ <- _ _ _. cbn.
  match goal with |- context [fst (draw (Exponential 25) ?st)] =>
    pose proof (HG (Exponential 25) st) as He end.
  cbn in He. apply py_clamp_above; lra.
Qed.

Lemma builtin_occurrence_duration (G : NumpyRandom) d s obs s' :
  well_distributed G ->
  HongKongSunsetClouds.observe d s = Ok (obs, s') ->
  HongKongSunsetClouds.has_sunset_clouds obs = true ->
  (15 <= HongKongSunsetClouds.duration_minutes obs <= 120)%R.
Proof.
  intros HG H Hhas. apply builtin_observe_inv in H as (p & s1 & _ & H).
  apply builtin_day_row_inv in H
    as (i & du & c & v & w & cr & s2 & t & h & pr & Ha & _ & ->).
  cbn in Hhas. rewrite Hhas in Ha.
  pose proof (builtin_sunset_attributes_true (dt_month d)
                (snd (draw Random s1))) as E.
  cbv zeta in E. rewrite E in Ha.
  destruct (Req_dec_T _ 0) as [|Hnz] in Ha; [discriminate|].
  injection Ha as _ <- _ _ _ _ _. cbn.
  match goal with |- context [fst (draw (Exponential 20) ?st)] =>
    pose proof (HG (Exponential 20) st) as He end.
  match type of Hnz with (fst (draw (Gamma 2 1) ?st) <> _) =>
    pose proof (HG (Gamma 2 1) st) as Hg end.
  cbn in He, Hg.
  destruct Hg as [Hg|Hg]; [|now contradiction Hnz].
  match goal with |- context [(?e / ?g)%R] =>
    assert (0 <= e / g)%R
      by (apply Rmult_le_pos; [exact He|];
          apply Rlt_le, Rinv_0_lt_compat; exact Hg) end.
  apply py_clamp_above; lra.
Qed.

(** C10. With draws taken where numpy documents them (the exponential
    and gamma draws are not negative), every row of a generated frame
    with occurred = true has 15 <= duration_minutes <= 120, in the
    collector as in the built-in generator: the duration is 15 plus a
    non-negative term before it is clamped to [0, 120]. *)
Theorem C10_duration_lower_bound (G : NumpyRandom) (P : Platform) :
  well_distributed G ->
  (forall start_year end_year s df s' obs,
      HKODataCollector.generate_realistic_sunset_data start_year end_year s
      = Ok (df, s') ->
      In obs df ->
      HKODataCollector.has_sunset_clouds obs = true ->
      (15 <= HKODataCollector.duration_minutes obs <= 120)%R)
  /\ (forall s df s' obs,
         HongKongSunsetClouds.generate_realistic_data s = Ok (df, s') ->
         In obs df ->
         HongKongSunsetClouds.has_sunset_clouds obs = true ->
         (15 <= HongKongSunsetClouds.duration_minutes obs <= 120)%R).
Proof.
  intros HG. split.
  - intros sy ey s df s' obs Hrun Hin Hhas.
    destruct (generated_row _ _ _ _ _ _ Hrun Hin) as (d & s1 & s2 & _ & Ho).
    eapply collector_occurrence_duration; eassumption.
  - intros s df s' obs Hrun Hin Hhas.
    destruct (builtin_generated_row _ _ _ _ Hrun Hin) as (d & s1 & s2 & _ & Ho).
    eapply builtin_occurrence_duration; eassumption.
Qed.

(** With [random()] at 0 the first day of either run is a day with the
    phenomenon. *)
Lemma collector_wet_first_day obs s1 :
  HKODataCollector.observe (G := ConstRandom 0)
    HKODataCollector.fetch_current_conditions
    HKODataCollector.get_historical_weather_patterns 2020
    (mkdate 2020 1 1) 0%nat = Ok (obs, s1) ->
  HKODataCollector.has_sunset_clouds obs = true.
Proof.
  intros H.
  rewrite (collector_occurrence (G := ConstRandom 0)
             2020 (mkdate 2020 1 1) 0%nat obs s1 0.25 eq_refl H).
  cbn [draw ConstRandom fst snd dist_mean dt_year dt_month].
  unfold py_lt. destruct (Rlt_dec _ _) as [_|Hn]; [reflexivity|].
  exfalso. apply Hn. clear Hn H.
  unfold spec_probability. cbv zeta.
  replace (2020 - 2020) with 0 by reflexivity.
  pose proof (SIN_bound (2 * PI * 0 / 3.5)) as H1.
  pose proof (SIN_bound (2 * PI * 0 / 11)) as H2.
  cbn [HKODataCollector.season_factor_loop HKODataCollector.seasonal_factors
       HKODataCollector.get_historical_weather_patterns
       HKODataCollector.months HKODataCollector.cloud_factor
       py_in existsb Z.eqb Pos.eqb orb].
  unfold clamp, Rmax, Rmin.
  destruct (Rle_dec 0.8 _); destruct (Rle_dec 0 _); lra.
Qed.

Lemma builtin_wet_first_day obs s1 :
  HongKongSunsetClouds.observe (G := ConstRandom 0)
    (mkdate 2000 1 1) 0%nat = Ok (obs, s1) ->
  HongKongSunsetClouds.has_sunset_clouds obs = true.
Proof.
  intros H.
  rewrite (builtin_occurrence (G := ConstRandom 0)
             (mkdate 2000 1 1) 0%nat obs s1 0.25 eq_refl H).
  cbn [draw ConstRandom fst snd dist_mean dt_year].
  pose proof (builtin_final_prob_bounds 0.25 2000 0) as B.
  replace (2000 - 2000) with 0 in B by reflexivity.
  unfold py_lt. destruct (Rlt_dec _ _) as [_|Hn]; [reflexivity|].
  lra.
Qed.

Lemma C10_duration_lower_bound_witness :
  well_distributed (ConstRandom 0)
  /\ (exists df s' obs,
         HKODataCollector.generate_realistic_sunset_data
           (G := ConstRandom 0)
               (P := NanosecondPlatform) 2020 2020 0%nat = Ok (df, s')
         /\ In obs df
         /\ HKODataCollector.has_sunset_clouds obs = true
         /\ (15 <= HKODataCollector.duration_minutes obs <= 120)%R)
  /\ (exists df s' obs,
         HongKongSunsetClouds.generate_realistic_data
           (G := ConstRandom 0) (P := NanosecondPlatform) 0%nat = Ok (df, s')
         /\ In obs df
         /\ HongKongSunsetClouds.has_sunset_clouds obs = true
         /\ (15 <= HongKongSunsetClouds.duration_minutes obs <= 120)%R).
Proof.
  assert (HG : well_distributed (ConstRandom 0))
    by (apply ConstRandom_well_distributed; lra).
  destruct (C10_duration_lower_bound (ConstRandom 0) NanosecondPlatform HG) as [HC HB].
  split; [exact HG|]. split.
  - destruct (generate_total
      (G := ConstRandom 0) (P := NanosecondPlatform) 2020 2020 0%nat
                ltac:(lia) ltac:(lia) ltac:(lia)) as (df & s' & Hrun).
    destruct (collector_first_row (G := ConstRandom 0) 2020 2020 0%nat df s'
                ltac:(lia) Hrun) as (obs & rest & s1 & E & Ho).
    pose proof (collector_wet_first_day obs s1 Ho) as Hhas.
    assert (Hin : In obs df) by (rewrite E; now left).
    exists df, s', obs. repeat split; try assumption;
      apply (HC 2020 2020 0%nat df s' obs Hrun Hin Hhas).
  - destruct (builtin_generate_total
      (G := ConstRandom 0) (P := NanosecondPlatform) 0%nat
                (wind_factor_nonzero 0)) as (df & s' & Hrun).
    destruct (builtin_first_row (G := ConstRandom 0) 0%nat df s' Hrun)
      as (obs & rest & s1 & E & Ho).
    pose proof (builtin_wet_first_day obs s1 Ho) as Hhas.
    assert (Hin : In obs df) by (rewrite E; now left).
    exists df, s', obs. repeat split; try assumption;
      apply (HB 0%nat df s' obs Hrun Hin Hhas).
Defined.

(** ** The seasonal multiplier of the intensity *)

(** C7, as stated, fails for September, which is in the autumn group of
    [seasonal_factors]: the multiplier read off the season groups is
    Uniform(1.2, 1.5), the loop body draws it from Uniform(0.8, 1.1).  With
    every draw at the middle of its distribution the intensity is
    5 * 0.95, not 5 * 1.35.  February, in the winter group, is alike. *)
Lemma C7_counterexample :
  In 9 (season_months "autumn")
  /\ season_group_multiplier 9 = Uniform 1.2 1.5
  /\ month_list_multiplier 9 = Uniform 0.8 1.1
  /\ In 2 (season_months "winter")
  /\ season_group_multiplier 2 = Uniform 1.2 1.5
  /\ month_list_multiplier 2 = Uniform 0.8 1.1
  /\ exists i du c cr s',
       HKODataCollector.sunset_attributes (G := MeanRandom) true 9 0%nat
       = Ok ((i, du, c, cr), s')
       /\ i = (1 / 2 * 10 * ((0.8 + 1.1) / 2))%R
       /\ i <> (1 / 2 * 10
                * fst (draw (NumpyRandom := MeanRandom)
                            (season_group_multiplier 9) 1%nat))%R.
Proof.
  split; [cbn; tauto|]. split; [reflexivity|]. split; [reflexivity|].
  split; [cbn; tauto|]. split; [reflexivity|]. split; [reflexivity|].
  do 5 eexists.
  split; [apply (sunset_attributes_true (G := MeanRandom) 9 0%nat)|].
  cbn. split; lra.
Qed.

Lemma multipliers_agree m :
  1 <= m <= 12 -> m <> 9 -> m <> 2 ->
  month_list_multiplier m = season_group_multiplier m.
Proof.
  intros H H9 H2. each_month H; try reflexivity; contradiction.
Qed.

(** C7, amended. When occurred = true the multiplier applied to
    base_intensity is drawn from Uniform(1.2, 1.5) in the months 10, 11, 12
    and 1, from Uniform(0.6, 0.9) in the months 6, 7 and 8, and from
    Uniform(0.8, 1.1) in the remaining months 2, 3, 4, 5 and 9; the product
    clamped to [0, 10] is the intensity of the row.  This is the multiplier
    of the season groups except in September and February. *)
Theorem C7_seasonal_multiplier (G : NumpyRandom) (d : datetime)
        (season_factor enso_phase : R) (s : rng_state) :
  1 <= dt_month d <= 12 ->
  exists obs s',
    HKODataCollector.day_row HKODataCollector.fetch_current_conditions d
      season_factor enso_phase true s = Ok (obs, s')
    /\ HKODataCollector.intensity obs
       = clamp (fst (draw (Beta 2 2) s) * 10
                * fst (draw (month_list_multiplier (dt_month d))
                            (snd (draw (Beta 2 2) s)))) 0 10
    /\ (dt_month d <> 9 -> dt_month d <> 2 ->
        month_list_multiplier (dt_month d)
        = season_group_multiplier (dt_month d))
    /\ (dt_month d = 9 \/ dt_month d = 2 ->
        month_list_multiplier (dt_month d) = Uniform 0.8 1.1).
Proof.
  intros Hm.
  destruct (day_row_total d season_factor enso_phase true s Hm)
    as (obs & s' & Hrow).
  exists obs, s'. split; [exact Hrow|]. split.
  - apply day_row_inv in Hrow
      as (i & du & c & cr & s2 & t & h & pr & v & w & Ha & _ & ->).
    pose proof (sunset_attributes_true (dt_month d) s) as E.
    cbv zeta in E. rewrite E in Ha. injection Ha as <- _ _ _ _.
    cbn [HKODataCollector.intensity]. apply py_clamp.
  - split; [now apply multipliers_agree|].
    intros [->| ->]; reflexivity.
Qed.

Lemma C7_seasonal_multiplier_witness :
  exists obs s',
    HKODataCollector.day_row (G := MeanRandom)
      HKODataCollector.fetch_current_conditions (mkdate 2020 9 1)
      1.2 0 true 0%nat = Ok (obs, s')
    /\ HKODataCollector.intensity obs
       = clamp (1 / 2 * 10 * ((0.8 + 1.1) / 2)) 0 10.
Proof.
  destruct (C7_seasonal_multiplier MeanRandom (mkdate 2020 9 1) 1.2 0 0%nat
              ltac:(cbn; lia)) as (obs & s' & Hrow & Hi & _).
  exists obs, s'. split; [exact Hrow | exact Hi].
Defined.

(** ** Windows in the wrong order *)

(** C8, as stated, fails at start_year = 2020, end_year = 2019: both
    dates are built, the window is empty, the loop runs over no day, and
    the exception is the KeyError of the summary reading the column
    [has_sunset_clouds] of the frame without columns; no check of the
    arguments raises before that.  The same on either platform. *)
Lemma C8_counterexample :
  2019 < 2020
  /\ new_datetime 2020 1 1 = Ok (mkdate 2020 1 1)
  /\ new_datetime 2019 12 31 = Ok (mkdate 2019 12 31)
  /\ date_range (P := NanosecondPlatform) (mkdate 2020 1 1) (mkdate 2019 12 31)
     = Ok []
  /\ date_range (P := MicrosecondPlatform) (mkdate 2020 1 1) (mkdate 2019 12 31)
     = Ok []
  /\ for_each (G := MeanRandom)
       (days_from_to (mkdate 2020 1 1) (mkdate 2019 12 31))
       (HKODataCollector.observe HKODataCollector.fetch_current_conditions
          HKODataCollector.get_historical_weather_patterns 2020)
       (seed 42) = Ok ([], seed 42)
  /\ HKODataCollector.generate_realistic_sunset_data
       (G := MeanRandom) (P := NanosecondPlatform) 2020 2019 0%nat
     = Raise KeyError
  /\ HKODataCollector.generate_realistic_sunset_data
       (G := MeanRandom) (P := MicrosecondPlatform) 2020 2019 0%nat
     = Raise KeyError.
Proof.
  split; [lia|]. repeat split; reflexivity.
Qed.

(** C8, amended. For every end_year < start_year the run raises and
    returns no frame, empty or reversed.  There is no check of the
    arguments.  When both years are within 1678 to 2261, on every
    platform, the window is empty, the loop runs over no day and draws
    nothing, and the exception is the KeyError of the summary.  In
    general the exception is a KeyError exactly when both years are years
    of [datetime] and the platform holds both ends of the window; in every
    other case it is raised before the loop, by the first message, by
    [datetime] or by [pd.date_range], and is a ValueError, an OverflowError
    or an OutOfBoundsDatetime. *)
Theorem C8_reversed_window (G : NumpyRandom) (P : Platform)
        (start_year end_year : Z) (s : rng_state) :
  end_year < start_year ->
  (forall df s',
      HKODataCollector.generate_realistic_sunset_data start_year end_year s
      <> Ok (df, s'))
  /\ (exists e,
        HKODataCollector.generate_realistic_sunset_data start_year end_year s
        = Raise e
        /\ (e = KeyError \/ e = ValueError \/ e = OverflowError
            \/ e = OutOfBoundsDatetime))
  /\ (1678 <= end_year -> start_year <= 2261 ->
      days_from_to (mkdate start_year 1 1) (mkdate end_year 12 31) = []
      /\ for_each (days_from_to (mkdate start_year 1 1) (mkdate end_year 12 31))
                  (HKODataCollector.observe
                     HKODataCollector.fetch_current_conditions
                     HKODataCollector.get_historical_weather_patterns
                     start_year)
                  (seed 42)
         = Ok ([], seed 42)
      /\ HKODataCollector.generate_realistic_sunset_data start_year end_year s
         = Raise KeyError)
  /\ (HKODataCollector.generate_realistic_sunset_data start_year end_year s
      = Raise KeyError
      <-> 1 <= end_year /\ start_year <= 9999
          /\ timestamp_ok (mkdate start_year 1 1) = true
          /\ timestamp_ok (mkdate end_year 12 31) = true).
Proof.
  intros Hlt.
  assert (Hkey : 1 <= end_year -> start_year <= 9999 ->
                 timestamp_ok (mkdate start_year 1 1) = true ->
                 timestamp_ok (mkdate end_year 12 31) = true ->
                 HKODataCollector.generate_realistic_sunset_data
                   start_year end_year s = Raise KeyError).
  { intros H1 H2 T1 T2. rewrite generate_valid_years, T1, T2 by lia.
    apply (loop_reversed start_year end_year s Hlt). }
  split; [|split; [|split]].
  - intros df s' H. apply generate_inv in H as (_ & _ & H & Hne).
    rewrite days_from_to_empty in H by exact Hlt.
    cbn in H. injection H as <- _. now apply Hne.
  - destruct (generate_cases start_year end_year s)
      as [(_ & H)|[(_ & _ & H)|[(_ & _ & _ & H)|[(_ & _ & _ & _ & H)
         |[(_ & _ & _ & _ & H)|[(_ & _ & _ & _ & _ & H)
         |[(_ & _ & _ & _ & _ & H)|[(_ & _ & _ & _ & _ & _ & H)
         |(_ & _ & _ & _ & _ & Hle & _)]]]]]]]];
      try (eexists; split; [exact H|]; tauto).
    lia.
  - intros H1 H2. split; [now apply days_from_to_empty|].
    split; [apply (loop_reversed start_year end_year s Hlt)|].
    apply Hkey; try lia; [apply timestamp_jan1 | apply timestamp_dec31]; lia.
  - split.
    + intros Hrun.
      destruct (generate_cases start_year end_year s)
        as [(_ & H)|[(_ & _ & H)|[(_ & _ & _ & H)|[(_ & _ & _ & _ & H)
           |[(_ & _ & _ & _ & H)|[(_ & _ & _ & _ & _ & H)
           |[(_ & _ & _ & _ & _ & H)|[(_ & _ & Hs & He & T & _ & H)
           |(_ & _ & _ & _ & _ & Hle & _)]]]]]]]];
        try (rewrite Hrun in H; discriminate); try lia.
      apply andb_true_iff in T as (T1 & T2). repeat split; try lia; assumption.
    + intros (H1 & H2 & T1 & T2). now apply Hkey.
Qed.

Lemma C8_reversed_window_witness :
  2019 < 2020
  /\ days_from_to (mkdate 2020 1 1) (mkdate 2019 12 31) = []
  /\ HKODataCollector.generate_realistic_sunset_data
       (G := MeanRandom) (P := NanosecondPlatform) 2020 2019 0%nat
     = Raise KeyError.
Proof.
  assert (H : 2019 < 2020) by lia.
  split; [exact H|].
  destruct (C8_reversed_window MeanRandom NanosecondPlatform 2020 2019 0%nat H)
    as (_ & _ & Hk & _).
  destruct Hk as (He & _ & Hr); [lia | lia |]. split; [exact He | exact Hr].
Defined.

(** ** The two probability formulas *)

Lemma sin_of_zero_cycle c : sin (2 * PI * 0 / c) = 0%R.
Proof.
  replace (2 * PI * 0 / c)%R with 0%R by (unfold Rdiv; ring).
  apply sin_0.
Qed.

(** C9. The collector multiplies: its probability is
    clamp(base * season_factor * trend * modulation, 0, 0.8).  The built-in
    generator adds: its probability is
    clamp(base + year_cycle + climate_trend + noise, 0, 1).  They differ on
    2000-11-01 with a start year of 2000 and no noise (0.48 against 0.4),
    and the built-in probability can exceed 0.8. *)
Theorem C9_pipelines_differ :
  (forall base season_factor trend enso_phase sunspot_phase noise,
      HKODataCollector.final_prob base season_factor trend
        enso_phase sunspot_phase noise
      = clamp (base * season_factor * trend
               * (1 + 0.1 * enso_phase + 0.05 * sunspot_phase + noise)) 0 0.8)
  /\ (forall base year noise,
         HongKongSunsetClouds.final_prob base year noise
         = clamp (base + sin (2 * PI * IZR (year - 2000) / 7) * 0.1
                  + 0.02 * IZR (year - 2000) / 20 + noise) 0 1)
  /\ (exists season_factor enso_phase p q s1 s2,
         HKODataCollector.day_probability (G := MeanRandom)
           HKODataCollector.fetch_current_conditions
           HKODataCollector.get_historical_weather_patterns 2000
           (mkdate 2000 11 1) 0%nat = Ok ((season_factor, enso_phase, p), s1)
         /\ HongKongSunsetClouds.day_probability (G := MeanRandom)
              (mkdate 2000 11 1) 0%nat = Ok (q, s2)
         /\ p = 0.48%R /\ q = 0.4%R /\ p <> q)
  /\ (exists base year noise,
         (0.8 < HongKongSunsetClouds.final_prob base year noise)%R).
Proof.
  split; [|split; [|split]].
  - intros. unfold HKODataCollector.final_prob. cbv zeta. apply py_clamp.
  - intros. unfold HongKongSunsetClouds.final_prob. cbv zeta. apply py_clamp.
  - do 6 eexists.
    split; [apply (day_probability_run (G := MeanRandom)
                     HKODataCollector.fetch_current_conditions
                     HKODataCollector.get_historical_weather_patterns
                     2000 (mkdate 2000 11 1) 0%nat 0.40 eq_refl)|].
    split; [apply (builtin_day_probability_run (G := MeanRandom)
                     (mkdate 2000 11 1) 0%nat 0.40 eq_refl)|].
    cbn [draw MeanRandom ConstRandom fst snd dist_mean dt_year dt_month
         HKODataCollector.season_factor_loop HKODataCollector.seasonal_factors
         HKODataCollector.get_historical_weather_patterns
         HKODataCollector.climate_cycles HKODataCollector.enso_cycle
         HKODataCollector.sunspot_cycle
         HKODataCollector.months HKODataCollector.cloud_factor
         py_in existsb Z.eqb Pos.eqb orb].
    unfold HKODataCollector.final_prob, HongKongSunsetClouds.final_prob.
    cbv zeta. replace (2000 - 2000)%Z with 0%Z by reflexivity.
    rewrite !sin_of_zero_cycle.
    assert (P : py_max 0 (py_min 0.8
                  (0.40 * 1.2 * (1 + 0.01 * 0 / 20)
                   * (1 + 0.1 * 0 + 0.05 * 0 + 0))) = 0.48%R).
    { unfold py_max, py_min.
      destruct (Rlt_dec _ 0.8); destruct (Rlt_dec 0 _); lra. }
    assert (Q : py_max 0 (py_min 1 (0.40 + 0 * 0.1 + 0.02 * 0 / 20 + 0))
                = 0.4%R).
    { unfold py_max, py_min.
      destruct (Rlt_dec _ 1); destruct (Rlt_dec 0 _); lra. }
    rewrite P, Q. repeat split; lra.
  - exists 0.4%R, 2000%Z, 1%R.
    unfold HongKongSunsetClouds.final_prob. cbv zeta.
    replace (2000 - 2000)%Z with 0%Z by reflexivity.
    rewrite sin_of_zero_cycle. unfold py_max, py_min.
    destruct (Rlt_dec _ 1); destruct (Rlt_dec 0 _); lra.
Qed.

(** ** Weather and occurrence *)

Section WeatherFacts.
Context {G : NumpyRandom} {P : Platform}.
Local Open Scope R_scope.

Lemma weather_inv cd m s w s' :
  HKODataCollector.weather cd m s = Ok (w, s') ->
  exists t0 h0 p0,
    py_getitem (HKODataCollector.average_temperature cd) (m - 1) = Ok t0
    /\ py_getitem (HKODataCollector.average_humidity cd) (m - 1) = Ok h0
    /\ py_getitem (HKODataCollector.average_pressure cd) (m - 1) = Ok p0.
Proof.
  unfold HKODataCollector.weather. cbv zeta. intros H.
  destruct (py_getitem (HKODataCollector.average_temperature cd) (m - 1))
    as [t0|]; [|discriminate].
  rewrite bind_lift_Ok, bind_sample in H.
  destruct (py_getitem (HKODataCollector.average_humidity cd) (m - 1))
    as [h0|]; [|discriminate].
  rewrite bind_lift_Ok, bind_sample in H.
  destruct (py_getitem (HKODataCollector.average_pressure cd) (m - 1))
    as [p0|]; [|discriminate].
  now exists t0, h0, p0.
Qed.

(** The weather of the collector is a function of the values drawn: with
    draws that do not depend on the state it is the same at every
    state. *)
Lemma weather_state_independent cd m s1 s2 w1 w2 s1' s2' :
  state_independent G ->
  HKODataCollector.weather cd m s1 = Ok (w1, s1') ->
  HKODataCollector.weather cd m s2 = Ok (w2, s2') ->
  w1 = w2.
Proof.
  intros HG H1 H2.
  destruct (weather_inv _ _ _ _ _ H1) as (t0 & h0 & p0 & Ht & Hh & Hp).
  pose proof (weather_run cd m s1 t0 h0 p0 Ht Hh Hp) as E1.
  pose proof (weather_run cd m s2 t0 h0 p0 Ht Hh Hp) as E2.
  cbv zeta in E1, E2. rewrite E1 in H1. rewrite E2 in H2.
  injection H1 as <- _. injection H2 as <- _.
  repeat match goal with
         | |- context [fst (draw ?d ?st)] =>
             lazymatch st with
             | s1 => fail
             | _ => rewrite (HG d st s1)
             end
         end.
  reflexivity.
Qed.

Lemma builtin_weather_inv m s w s' :
  HongKongSunsetClouds.weather m s = Ok (w, s') ->
  exists t0 h0,
    py_getitem HongKongSunsetClouds.avg_temp_by_month (m - 1) = Ok t0
    /\ py_getitem HongKongSunsetClouds.avg_humidity_by_month (m - 1) = Ok h0.
Proof.
  unfold HongKongSunsetClouds.weather. cbv zeta. intros H.
  destruct (py_getitem HongKongSunsetClouds.avg_temp_by_month (m - 1))
    as [t0|]; [|discriminate].
  rewrite bind_lift_Ok, bind_sample in H.
  destruct (py_getitem HongKongSunsetClouds.avg_humidity_by_month (m - 1))
    as [h0|]; [|discriminate].
  now exists t0, h0.
Qed.

Lemma builtin_weather_state_independent m s1 s2 w1 w2 s1' s2' :
  state_independent G ->
  HongKongSunsetClouds.weather m s1 = Ok (w1, s1') ->
  HongKongSunsetClouds.weather m s2 = Ok (w2, s2') ->
  w1 = w2.
Proof.
  intros HG H1 H2.
  destruct (builtin_weather_inv _ _ _ _ H1) as (t0 & h0 & Ht & Hh).
  pose proof (builtin_weather_run m s1 t0 h0 Ht Hh) as E1.
  pose proof (builtin_weather_run m s2 t0 h0 Ht Hh) as E2.
  cbv zeta in E1, E2. rewrite E1 in H1. rewrite E2 in H2.
  injection H1 as <- _. injection H2 as <- _.
  repeat match goal with
         | |- context [fst (draw ?d ?st)] =>
             lazymatch st with
             | s1 => fail
             | _ => rewrite (HG d st s1)
             end
         end.
  reflexivity.
Qed.
End WeatherFacts.

(** C6, as stated, fails in the built-in generator, whose visibility and
    wind speed are drawn inside the two branches of the occurrence test:
    on 2000-11-01, with every draw at the middle of its distribution, the
    wind speed is 12 (Gamma(3, 4)) and the visibility 15 (Normal(15, 5))
    when occurred = true, and 6 (Gamma(2, 3)) and 12 (Normal(12, 4)) when
    occurred = false. *)
Lemma C6_counterexample :
  state_independent MeanRandom
  /\ exists obs_t obs_f s_t s_f,
       HongKongSunsetClouds.day_row (G := MeanRandom)
         (mkdate 2000 11 1) true 0%nat = Ok (obs_t, s_t)
       /\ HongKongSunsetClouds.day_row (G := MeanRandom)
            (mkdate 2000 11 1) false 0%nat = Ok (obs_f, s_f)
       /\ HongKongSunsetClouds.wind_speed_kmh obs_t = 12%R
       /\ HongKongSunsetClouds.wind_speed_kmh obs_f = 6%R
       /\ HongKongSunsetClouds.visibility_km obs_t = 15%R
       /\ HongKongSunsetClouds.visibility_km obs_f = 12%R.
Proof.
  split; [apply ConstRandom_state_independent|].
  destruct (builtin_day_row_total (G := MeanRandom) (mkdate 2000 11 1) true
              0%nat (wind_factor_nonzero _) ltac:(cbn; lia))
    as (obs_t & s_t & Ht).
  destruct (builtin_day_row_total (G := MeanRandom) (mkdate 2000 11 1) false
              0%nat (wind_factor_nonzero _) ltac:(cbn; lia))
    as (obs_f & s_f & Hf).
  exists obs_t, obs_f, s_t, s_f. split; [exact Ht|]. split; [exact Hf|].
  apply builtin_day_row_inv in Ht
    as (i & du & c & v & w & cr & s2 & t & h & pr & Ha & _ & ->).
  apply builtin_day_row_inv in Hf
    as (i' & du' & c' & v' & w' & cr' & s2' & t' & h' & pr' & Ha' & _ & ->).
  pose proof (builtin_sunset_attributes_true (G := MeanRandom) 11 0%nat) as E.
  cbv zeta in E. cbn [dt_month] in Ha. rewrite E in Ha.
  destruct (Req_dec_T _ 0) as [Z0|_] in Ha;
    [now apply (wind_factor_nonzero (1 / 2)) in Z0|].
  injection Ha as _ _ _ <- <- _ _.
  pose proof (builtin_sunset_attributes_false (G := MeanRandom) 11 0%nat) as E'.
  cbv zeta in E'. cbn [dt_month] in Ha'. rewrite E' in Ha'.
  injection Ha' as _ _ _ <- <- _ _.
  cbn. rewrite !Rabs_pos_eq by lra.
  rewrite !py_max_above, !py_clamp_inside by lra.
  repeat split; lra.
Qed.

(** C6, amended. In the collector the five weather fields of a row
    (temperature_c, humidity_percent, pressure_hpa, visibility_km,
    wind_speed_kmh) come from one block of formulas that does not read the
    occurrence flag: it runs after the attributes of the day, whatever the
    flag, and when the draws depend on the distribution only the five
    fields are the same for occurred = true and occurred = false.  In the
    built-in generator this holds for temperature_c, humidity_percent and
    pressure_hpa. *)
Theorem C6_weather_not_gated (G : NumpyRandom) :
  (forall cd d season_factor enso_phase has s obs s',
      HKODataCollector.day_row cd d season_factor enso_phase has s
      = Ok (obs, s') ->
      exists a s1 t h p v w,
        HKODataCollector.sunset_attributes has (dt_month d) s = Ok (a, s1)
        /\ HKODataCollector.weather cd (dt_month d) s1
           = Ok ((t, h, p, v, w), s')
        /\ HKODataCollector.temperature_c obs = t
        /\ HKODataCollector.humidity_percent obs = clamp h 0 100
        /\ HKODataCollector.pressure_hpa obs = p
        /\ HKODataCollector.visibility_km obs = clamp v 1 50
        /\ HKODataCollector.wind_speed_kmh obs = Rmax 0 w)
  /\ (state_independent G ->
      forall cd d sf_t e_t sf_f e_f s_t s_f obs_t obs_f s_t' s_f',
        HKODataCollector.day_row cd d sf_t e_t true s_t = Ok (obs_t, s_t') ->
        HKODataCollector.day_row cd d sf_f e_f false s_f = Ok (obs_f, s_f') ->
        HKODataCollector.temperature_c obs_t = HKODataCollector.temperature_c obs_f
        /\ HKODataCollector.humidity_percent obs_t
           = HKODataCollector.humidity_percent obs_f
        /\ HKODataCollector.pressure_hpa obs_t = HKODataCollector.pressure_hpa obs_f
        /\ HKODataCollector.visibility_km obs_t
           = HKODataCollector.visibility_km obs_f
        /\ HKODataCollector.wind_speed_kmh obs_t
           = HKODataCollector.wind_speed_kmh obs_f)
  /\ (state_independent G ->
      forall d s_t s_f obs_t obs_f s_t' s_f',
        HongKongSunsetClouds.day_row d true s_t = Ok (obs_t, s_t') ->
        HongKongSunsetClouds.day_row d false s_f = Ok (obs_f, s_f') ->
        HongKongSunsetClouds.temperature_c obs_t
        = HongKongSunsetClouds.temperature_c obs_f
        /\ HongKongSunsetClouds.humidity_percent obs_t
           = HongKongSunsetClouds.humidity_percent obs_f
        /\ HongKongSunsetClouds.pressure_hpa obs_t
           = HongKongSunsetClouds.pressure_hpa obs_f).
Proof.
  split; [|split].
  - intros cd d sf e has s obs s' H.
    apply day_row_inv in H
      as (i & du & c & cr & s1 & t & h & p & v & w & Ha & Hw & ->).
    exists (i, du, c, cr), s1, t, h, p, v, w. cbn.
    repeat split; try assumption; try apply py_clamp. apply py_max_Rmax.
  - intros HG cd d sf_t e_t sf_f e_f s_t s_f obs_t obs_f s_t' s_f' Ht Hf.
    apply day_row_inv in Ht
      as (i & du & c & cr & s1 & t & h & p & v & w & _ & Hw & ->).
    apply day_row_inv in Hf
      as (i' & du' & c' & cr' & s1' & t' & h' & p' & v' & w' & _ & Hw' & ->).
    pose proof (weather_state_independent _ _ _ _ _ _ _ _ HG Hw Hw') as E.
    injection E as -> -> -> -> ->. cbn. repeat split.
  - intros HG d s_t s_f obs_t obs_f s_t' s_f' Ht Hf.
    apply builtin_day_row_inv in Ht
      as (i & du & c & v & w & cr & s1 & t & h & p & _ & Hw & ->).
    apply builtin_day_row_inv in Hf
      as (i' & du' & c' & v' & w' & cr' & s1' & t' & h' & p' & _ & Hw' & ->).
    pose proof (builtin_weather_state_independent _ _ _ _ _ _ _ HG Hw Hw') as E.
    injection E as -> -> ->. cbn. repeat split.
Qed.

Lemma C6_weather_not_gated_witness :
  state_independent MeanRandom
  /\ (exists obs_t obs_f s_t s_f,
         HKODataCollector.day_row (G := MeanRandom)
           HKODataCollector.fetch_current_conditions (mkdate 2000 11 1)
           1.2 0 true 0%nat = Ok (obs_t, s_t)
         /\ HKODataCollector.day_row (G := MeanRandom)
              HKODataCollector.fetch_current_conditions (mkdate 2000 11 1)
              1.2 0 false 0%nat = Ok (obs_f, s_f)
         /\ HKODataCollector.visibility_km obs_t
            = HKODataCollector.visibility_km obs_f
         /\ HKODataCollector.wind_speed_kmh obs_t
            = HKODataCollector.wind_speed_kmh obs_f)
  /\ (exists obs_t obs_f s_t s_f,
         HongKongSunsetClouds.day_row (G := MeanRandom)
           (mkdate 2000 11 1) true 0%nat = Ok (obs_t, s_t)
         /\ HongKongSunsetClouds.day_row (G := MeanRandom)
              (mkdate 2000 11 1) false 0%nat = Ok (obs_f, s_f)
         /\ HongKongSunsetClouds.temperature_c obs_t
            = HongKongSunsetClouds.temperature_c obs_f).
Proof.
  assert (HG : state_independent MeanRandom)
    by apply ConstRandom_state_independent.
  destruct (C6_weather_not_gated MeanRandom) as (_ & HC & HB).
  split; [exact HG|]. split.
  - destruct (day_row_total (G := MeanRandom) (mkdate 2000 11 1) 1.2 0 true
                0%nat ltac:(cbn; lia)) as (obs_t & s_t & Ht).
    destruct (day_row_total (G := MeanRandom) (mkdate 2000 11 1) 1.2 0 false
                0%nat ltac:(cbn; lia)) as (obs_f & s_f & Hf).
    exists obs_t, obs_f, s_t, s_f.
    split; [exact Ht|]. split; [exact Hf|].
    destruct (HC HG _ _ _ _ _ _ _ _ _ _ _ _ Ht Hf) as (_ & _ & _ & Hv & Hw).
    split; [exact Hv | exact Hw].
  - destruct (builtin_day_row_total (G := MeanRandom) (mkdate 2000 11 1) true
                0%nat (wind_factor_nonzero _) ltac:(cbn; lia))
      as (obs_t & s_t & Ht).
    destruct (builtin_day_row_total (G := MeanRandom) (mkdate 2000 11 1) false
                0%nat (wind_factor_nonzero _) ltac:(cbn; lia))
      as (obs_f & s_f & Hf).
    exists obs_t, obs_f, s_t, s_f.
    split; [exact Ht|]. split; [exact Hf|].
    destruct (HB HG _ _ _ _ _ _ _ Ht Hf) as (Htemp & _ & _).
    exact Htemp.
Defined.

(** ** Calendar fields of a row *)

Lemma tm_yday_range y m d :
  1 <= m <= 12 -> 1 <= d <= days_in_month y m ->
  1 <= days_before_month y m + d <= (if is_leap y then 366 else 365).
Proof.
  intros Hm Hd. each_month Hm;
    unfold days_before_month, days_in_month in *;
    destruct (is_leap y); cbn in Hd;
    match goal with
    | |- context [nth ?n DAYS_BEFORE_MONTH 0] =>
        let v := eval vm_compute in (nth n DAYS_BEFORE_MONTH 0) in
        change (nth n DAYS_BEFORE_MONTH 0) with v
    end; cbn [Z.ltb Z.compare Pos.compare Pos.compare_cont andb]; lia.
Qed.

Lemma collector_some_row (G : NumpyRandom) (P : Platform) s :
  exists df s' obs,
    HKODataCollector.generate_realistic_sunset_data 2020 2020 s = Ok (df, s')
    /\ In obs df.
Proof.
  destruct (generate_total 2020 2020 s ltac:(lia) ltac:(lia) ltac:(lia))
    as (df & s' & Hrun).
  destruct (collector_first_row 2020 2020 s df s' ltac:(lia) Hrun)
    as (obs & rest & s1 & -> & _).
  exists (obs :: rest), s', obs. split; [exact Hrun | now left].
Qed.

(** X1. The calendar fields of a generated row agree with its date: year
    and month are those of the date, the year lies in the window, the
    month in 1..12, and day_of_year counts the days from January 1 of that
    year, from 1 up to 365, or 366 in a leap year. *)
Theorem X1_row_calendar_fields (G : NumpyRandom) (P : Platform)
        (start_year end_year : Z)
        (s : rng_state) df s' obs :
  HKODataCollector.generate_realistic_sunset_data start_year end_year s
  = Ok (df, s') ->
  In obs df ->
  HKODataCollector.year obs = dt_year (HKODataCollector.date obs)
  /\ HKODataCollector.month obs = dt_month (HKODataCollector.date obs)
  /\ start_year <= HKODataCollector.year obs <= end_year
  /\ 1 <= HKODataCollector.month obs <= 12
  /\ HKODataCollector.day_of_year obs
     = toordinal (HKODataCollector.date obs)
       - toordinal (mkdate (HKODataCollector.year obs) 1 1) + 1
  /\ 1 <= HKODataCollector.day_of_year obs
     <= (if is_leap (HKODataCollector.year obs) then 366 else 365).
Proof.
  intros Hrun Hin.
  destruct (generated_row _ _ _ _ _ _ Hrun Hin) as (d & s1 & s2 & Hd & Ho).
  apply days_from_to_In in Hd as (Hy & Hm & Hday).
  apply observe_inv in Ho as (sf & e & p & s3 & _ & Ho).
  apply day_row_inv in Ho
    as (i & du & c & cr & s4 & t & h & pr & v & w & _ & _ & ->).
  cbn. repeat split; try lia.
  - rewrite toordinal_jan1. unfold tm_yday, toordinal. lia.
  - unfold tm_yday. apply (tm_yday_range _ _ _ Hm Hday).
  - unfold tm_yday. apply (tm_yday_range _ _ _ Hm Hday).
Qed.

Lemma X1_row_calendar_fields_witness :
  exists df s' obs,
    HKODataCollector.generate_realistic_sunset_data
      (G := MeanRandom) (P := NanosecondPlatform) 2020 2020 0%nat = Ok (df, s')
    /\ In obs df
    /\ HKODataCollector.year obs = 2020
    /\ 1 <= HKODataCollector.day_of_year obs <= 366.
Proof.
  destruct (collector_some_row MeanRandom NanosecondPlatform 0%nat)
      as (df & s' & obs & Hrun & Hin).
  exists df, s', obs. split; [exact Hrun|]. split; [exact Hin|].
  destruct (X1_row_calendar_fields MeanRandom NanosecondPlatform 2020 2020 0%nat df s' obs Hrun Hin)
    as (_ & _ & Hy & _ & _ & Hd).
  assert (E : HKODataCollector.year obs = 2020) by lia.
  split; [exact E|]. rewrite E in Hd. exact Hd.
Defined.

(** ** The season groups *)

(** X2. Every month from 1 to 12 belongs to exactly one season group of
    [seasonal_factors], so the loop that looks the season factor up stops
    in that group and returns its cloud_factor whatever the starting
    value; for any other month number it returns the starting value. *)
Theorem X2_season_groups_partition (month : Z) (default : R) :
  (1 <= month <= 12 ->
   length (filter (fun item => py_in month (HKODataCollector.months (snd item)))
                  (HKODataCollector.seasonal_factors
                     HKODataCollector.get_historical_weather_patterns)) = 1%nat
   /\ exists season info,
        In (season, info)
           (HKODataCollector.seasonal_factors
              HKODataCollector.get_historical_weather_patterns)
        /\ In month (HKODataCollector.months info)
        /\ HKODataCollector.season_factor_loop
             (HKODataCollector.seasonal_factors
                HKODataCollector.get_historical_weather_patterns)
             month default
           = HKODataCollector.cloud_factor info)
  /\ (month < 1 \/ 12 < month ->
      HKODataCollector.season_factor_loop
        (HKODataCollector.seasonal_factors
           HKODataCollector.get_historical_weather_patterns)
        month default
      = default).
Proof.
  split.
  - intros H. each_month H; (split; [reflexivity|]);
      do 2 eexists; (split; [|split; [|reflexivity]]); cbn; tauto.
  - intros H. cbn. unfold py_in. cbn.
    repeat match goal with
           | |- context [month =? ?k] =>
               destruct (Z.eqb_spec month k); [lia|]
           end.
    reflexivity.
Qed.

Lemma X2_season_groups_partition_witness :
  HKODataCollector.season_factor_loop
    (HKODataCollector.seasonal_factors
       HKODataCollector.get_historical_weather_patterns) 13 1.0%R = 1.0%R
  /\ exists season info,
       In (season, info)
          (HKODataCollector.seasonal_factors
             HKODataCollector.get_historical_weather_patterns)
       /\ In 9 (HKODataCollector.months info)
       /\ HKODataCollector.season_factor_loop
            (HKODataCollector.seasonal_factors
               HKODataCollector.get_historical_weather_patterns) 9 1.0%R
          = HKODataCollector.cloud_factor info.
Proof.
  destruct (X2_season_groups_partition 13 1.0%R) as [_ Hout].
  destruct (X2_season_groups_partition 9 1.0%R) as [Hin _].
  split; [apply Hout; lia|].
  destruct (Hin ltac:(lia)) as (_ & H). exact H.
Defined.

(** ** Rows and runs of the built-in generator *)

Lemma builtin_observe_ranges (G : NumpyRandom) d s obs s' :
  HongKongSunsetClouds.observe d s = Ok (obs, s') ->
  (0 <= HongKongSunsetClouds.intensity obs <= 10
   /\ 0 <= HongKongSunsetClouds.duration_minutes obs <= 120
   /\ 0 <= HongKongSunsetClouds.coverage_percent obs <= 100
   /\ 0 <= HongKongSunsetClouds.color_richness obs <= 10
   /\ 0 <= HongKongSunsetClouds.humidity_percent obs <= 100
   /\ 1 <= HongKongSunsetClouds.visibility_km obs <= 50
   /\ 0 <= HongKongSunsetClouds.wind_speed_kmh obs)%R.
Proof.
  intros H. apply builtin_observe_inv in H as (p & s1 & _ & H).
  apply builtin_day_row_inv in H
    as (i & du & c & v & w & cr & s2 & t & h & pr & _ & _ & ->).
  cbn. repeat split; try (apply py_clamp_range; lra); apply py_max_lower.
Qed.

Lemma builtin_some_row u s :
  exists df s' obs,
    HongKongSunsetClouds.generate_realistic_data
        (G := ConstRandom u) (P := NanosecondPlatform) s
    = Ok (df, s')
    /\ In obs df.
Proof.
  destruct (builtin_generate_total
      (G := ConstRandom u) (P := NanosecondPlatform) s
              (wind_factor_nonzero u)) as (df & s' & Hrun).
  destruct (builtin_first_row (G := ConstRandom u) s df s' Hrun)
    as (obs & rest & s1 & -> & _).
  exists (obs :: rest), s', obs. split; [exact Hrun | now left].
Qed.

(** X3. Every row of a frame returned by the built-in generator has
    0 <= intensity <= 10, 0 <= duration_minutes <= 120,
    0 <= coverage_percent <= 100, 0 <= color_richness <= 10,
    0 <= humidity_percent <= 100, 1 <= visibility_km <= 50 and
    wind_speed_kmh >= 0. *)
Theorem X3_builtin_field_ranges (G : NumpyRandom) (P : Platform)
        (s : rng_state) df s' obs :
  HongKongSunsetClouds.generate_realistic_data s = Ok (df, s') ->
  In obs df ->
  (0 <= HongKongSunsetClouds.intensity obs <= 10
   /\ 0 <= HongKongSunsetClouds.duration_minutes obs <= 120
   /\ 0 <= HongKongSunsetClouds.coverage_percent obs <= 100
   /\ 0 <= HongKongSunsetClouds.color_richness obs <= 10
   /\ 0 <= HongKongSunsetClouds.humidity_percent obs <= 100
   /\ 1 <= HongKongSunsetClouds.visibility_km obs <= 50
   /\ 0 <= HongKongSunsetClouds.wind_speed_kmh obs)%R.
Proof.
  intros Hrun Hin.
  destruct (builtin_generated_row _ _ _ _ Hrun Hin) as (d & s1 & s2 & _ & Ho).
  eapply builtin_observe_ranges, Ho.
Qed.

Lemma X3_builtin_field_ranges_witness :
  exists df s' obs,
    HongKongSunsetClouds.generate_realistic_data
        (G := MeanRandom) (P := NanosecondPlatform) 0%nat
    = Ok (df, s')
    /\ In obs df
    /\ (0 <= HongKongSunsetClouds.intensity obs <= 10)%R
    /\ (1 <= HongKongSunsetClouds.visibility_km obs <= 50)%R.
Proof.
  destruct (builtin_some_row (1 / 2) 0%nat) as (df & s' & obs & Hrun & Hin).
  exists df, s', obs. split; [exact Hrun|]. split; [exact Hin|].
  destruct (X3_builtin_field_ranges MeanRandom NanosecondPlatform 0%nat df s' obs Hrun Hin)
    as (Hi & _ & _ & _ & _ & Hv & _).
  split; [exact Hi | exact Hv].
Defined.

Lemma builtin_observe_date (G : NumpyRandom) d s obs s' :
  HongKongSunsetClouds.observe d s = Ok (obs, s') ->
  HongKongSunsetClouds.date obs = d.
Proof.
  intros H. apply builtin_observe_inv in H as (p & s1 & _ & H).
  apply builtin_day_row_inv in H
    as (i & du & c & v & w & cr & s2 & t & h & pr & _ & _ & ->).
  reflexivity.
Qed.

(** X4. When no draw of the wind factor Gamma(2, 1) is zero, the built-in
    generator returns a frame with one row per day from 2000-01-01 to
    2020-12-31, in order and without gap: 7671 rows. *)
Theorem X4_builtin_one_row_per_day (G : NumpyRandom) (P : Platform)
        (s : rng_state) :
  (forall s0, fst (draw (Gamma 2 1) s0) <> 0%R) ->
  exists df s',
    HongKongSunsetClouds.generate_realistic_data s = Ok (df, s')
    /\ map HongKongSunsetClouds.date df
       = days_from_to (mkdate 2000 1 1) (mkdate 2020 12 31)
    /\ map (fun o => toordinal (HongKongSunsetClouds.date o)) df
       = zrange (toordinal (mkdate 2000 1 1)) (toordinal (mkdate 2020 12 31))
    /\ Z.of_nat (length df) = 7671.
Proof.
  intros Hg.
  destruct (builtin_generate_total s Hg) as (df & s' & Hrun).
  exists df, s'. split; [exact Hrun|].
  assert (Hdates : map HongKongSunsetClouds.date df
                   = days_from_to (mkdate 2000 1 1) (mkdate 2020 12 31)).
  { apply builtin_generate_inv in Hrun. apply for_each_Forall2 in Hrun.
    apply Forall2_map_eq. eapply Forall2_impl; [|exact Hrun].
    intros d obs (s1 & s2 & Ho). eapply builtin_observe_date, Ho. }
  split; [exact Hdates|]. split.
  - rewrite <- (map_map HongKongSunsetClouds.date toordinal), Hdates.
    apply days_from_to_ordinals. lia.
  - rewrite <- (length_map HongKongSunsetClouds.date), Hdates.
    rewrite days_from_to_length by lia. now vm_compute.
Qed.

Lemma X4_builtin_one_row_per_day_witness :
  exists df s',
    HongKongSunsetClouds.generate_realistic_data
        (G := MeanRandom) (P := NanosecondPlatform) 0%nat
    = Ok (df, s')
    /\ Z.of_nat (length df) = 7671.
Proof.
  destruct (X4_builtin_one_row_per_day MeanRandom NanosecondPlatform 0%nat
              (wind_factor_nonzero (1 / 2)))
    as (df & s' & Hrun & _ & _ & Hlen).
  exists df, s'. split; [exact Hrun | exact Hlen].
Defined.

(** ** Exceptions of the runs *)

Lemma for_each_Raise_inv (G : NumpyRandom) {A B : Type} (body : A -> M B) xs :
  forall s e, for_each xs body s = Raise e ->
  exists x s1, In x xs /\ body x s1 = Raise e.
Proof.
  induction xs as [|x xs IH]; intros s e H; [discriminate|].
  cbn [for_each] in H. unfold bind at 1 in H.
  destruct (body x s) as [[b s1]|e'] eqn:Hb.
  - unfold bind at 1 in H.
    destruct (for_each xs body s1) as [[bs s2]|e''] eqn:Hbs; [discriminate|].
    injection H as <-. destruct (IH _ _ Hbs) as (x' & s3 & Hin & Hx').
    exists x', s3. split; [now right | exact Hx'].
  - injection H as <-. exists x, s. split; [now left | exact Hb].
Qed.

Lemma for_each_head_Raise (G : NumpyRandom) {A B : Type} (body : A -> M B)
      x xs s e :
  body x s = Raise e -> for_each (x :: xs) body s = Raise e.
Proof. intros H. cbn [for_each]. unfold bind at 1. now rewrite H. Qed.

Lemma builtin_observe_Raise (G : NumpyRandom) d s e :
  1 <= dt_month d <= 12 ->
  HongKongSunsetClouds.observe d s = Raise e ->
  e = ZeroDivisionError /\ exists s0, fst (draw (Gamma 2 1) s0) = 0%R.
Proof.
  intros Hm H.
  destruct (builtin_tables_defined _ Hm) as (base & t0 & h0 & Hb & Ht & Hh).
  unfold HongKongSunsetClouds.observe in H. unfold bind at 1 in H.
  rewrite (builtin_day_probability_run _ _ _ Hb), bind_sample in H.
  unfold HongKongSunsetClouds.day_row in H. unfold bind at 1 in H.
  match type of H with context [HongKongSunsetClouds.sunset_attributes ?b _ ?st] =>
    destruct b;
    [pose proof (builtin_sunset_attributes_true (dt_month d) st) as E
    |pose proof (builtin_sunset_attributes_false (dt_month d) st) as E]
  end; cbv zeta in E; rewrite E in H.
  - destruct (Req_dec_T _ 0) as [Z0|_] in H.
    + injection H as <-. split; [reflexivity|]. eexists. exact Z0.
    + unfold bind at 1 in H. rewrite (builtin_weather_run _ _ _ _ Ht Hh) in H.
      discriminate.
  - unfold bind at 1 in H. rewrite (builtin_weather_run _ _ _ _ Ht Hh) in H.
    discriminate.
Qed.

(** X5. The only exception the built-in generator raises is
    ZeroDivisionError, and only after a wind factor Gamma(2, 1) was drawn
    as 0: the table lookups of its loop never fail. *)
Theorem X5_builtin_only_zero_division (G : NumpyRandom) (P : Platform)
        (s : rng_state) e :
  HongKongSunsetClouds.generate_realistic_data s = Raise e ->
  e = ZeroDivisionError /\ exists s0, fst (draw (Gamma 2 1) s0) = 0%R.
Proof.
  unfold HongKongSunsetClouds.generate_realistic_data. cbv zeta. intros H.
  rewrite new_datetime_jan1, bind_lift_Ok in H by lia.
  rewrite new_datetime_dec31, bind_lift_Ok in H by lia.
  rewrite builtin_date_range, bind_lift_Ok in H.
  unfold bind at 1 in H. unfold np_random_seed in H. unfold bind at 1 in H.
  destruct (for_each _ _ _) as [[rows s1]|e'] eqn:Hrows.
  - exfalso.
    destruct (days_from_to_head 2000 2020 ltac:(lia)) as (rest & E).
    rewrite E in Hrows.
    apply for_each_head in Hrows as (y & ys' & s2 & -> & _). discriminate.
  - injection H as <-.
    apply for_each_Raise_inv in Hrows as (d & s2 & Hd & Ho).
    apply days_from_to_In in Hd. eapply builtin_observe_Raise; [|exact Ho]. lia.
Qed.

Lemma still_air_first_day :
  HongKongSunsetClouds.observe (G := FunRandom still_air)
    (mkdate 2000 1 1) 0%nat = Raise ZeroDivisionError.
Proof.
  unfold HongKongSunsetClouds.observe. unfold bind at 1.
  rewrite (builtin_day_probability_run (G := FunRandom still_air)
             (mkdate 2000 1 1) 0%nat 0.25 eq_refl), bind_sample.
  cbn [draw FunRandom fst snd still_air dist_mean dt_year dt_month].
  pose proof (builtin_final_prob_bounds 0.25 2000 0) as B.
  replace (2000 - 2000) with 0 in B by reflexivity.
  replace (py_lt 0 (HongKongSunsetClouds.final_prob 0.25 2000 0)) with true.
  2:{ unfold py_lt. destruct (Rlt_dec _ _) as [_|Hn]; [reflexivity|lra]. }
  unfold HongKongSunsetClouds.day_row. unfold bind at 1.
  pose proof (builtin_sunset_attributes_true (G := FunRandom still_air)
                1 2%nat) as E.
  cbv zeta in E. cbn [dt_month]. rewrite E.
  cbn [draw FunRandom fst snd still_air].
  destruct (Req_dec_T 0 0) as [_|Hn]; [reflexivity|now contradiction Hn].
Qed.

Lemma X5_builtin_only_zero_division_witness :
  HongKongSunsetClouds.generate_realistic_data
      (G := FunRandom still_air) (P := NanosecondPlatform) 0%nat
  = Raise ZeroDivisionError
  /\ exists s0, fst (draw (NumpyRandom := FunRandom still_air) (Gamma 2 1) s0)
                = 0%R.
Proof.
  assert (H : HongKongSunsetClouds.generate_realistic_data
                (G := FunRandom still_air)
                    (P := NanosecondPlatform) 0%nat = Raise ZeroDivisionError).
  { unfold HongKongSunsetClouds.generate_realistic_data. cbv zeta.
    rewrite new_datetime_jan1, bind_lift_Ok by lia.
    rewrite new_datetime_dec31, bind_lift_Ok by lia.
    rewrite builtin_date_range, bind_lift_Ok.
    unfold bind at 1. unfold np_random_seed. unfold bind at 1.
    destruct (days_from_to_head 2000 2020 ltac:(lia)) as (rest & E).
    rewrite E.
    now rewrite (for_each_head_Raise (FunRandom still_air) _ _ _ _ _
                   still_air_first_day). }
  split; [exact H|].
  exact (proj2 (X5_builtin_only_zero_division (FunRandom still_air) NanosecondPlatform 0%nat
                  ZeroDivisionError H)).
Defined.

(** X6. What a call of the collector's generator does is decided by the
    two years and by the platform.  It returns a frame exactly when
    1 <= start_year <= end_year <= 9999 and the platform holds January 1
    of start_year and December 31 of end_year, which every platform does
    for 1678 <= start_year and end_year <= 2261.  It raises KeyError
    exactly when both years are in 1..9999, the platform holds both dates
    and end_year < start_year; OutOfBoundsDatetime exactly when both
    years are in 1..9999 and the platform does not hold one of the dates;
    OverflowError exactly when both years can be printed and start_year
    fits no C int, or start_year is in 1..9999 and end_year fits no C int;
    ValueError exactly when a year cannot be printed, or start_year fits
    a C int and is outside 1..9999, or start_year is in 1..9999 and
    end_year fits a C int and is outside 1..9999.  It never raises
    IndexError or ZeroDivisionError: the lookups in the climate tables
    never fail. *)
Theorem X6_collector_outcome (G : NumpyRandom) (P : Platform)
        (start_year end_year : Z) (s : rng_state) :
  ((exists df s',
       HKODataCollector.generate_realistic_sunset_data start_year end_year s
       = Ok (df, s'))
   <-> 1 <= start_year /\ start_year <= end_year /\ end_year <= 9999
       /\ timestamp_ok (mkdate start_year 1 1) = true
       /\ timestamp_ok (mkdate end_year 12 31) = true)
  /\ (1678 <= start_year -> start_year <= end_year -> end_year <= 2261 ->
      exists df s',
        HKODataCollector.generate_realistic_sunset_data start_year end_year s
        = Ok (df, s'))
  /\ (HKODataCollector.generate_realistic_sunset_data start_year end_year s
      = Raise KeyError
      <-> 1 <= end_year /\ end_year < start_year /\ start_year <= 9999
          /\ timestamp_ok (mkdate start_year 1 1) = true
          /\ timestamp_ok (mkdate end_year 12 31) = true)
  /\ (HKODataCollector.generate_realistic_sunset_data start_year end_year s
      = Raise OutOfBoundsDatetime
      <-> 1 <= start_year <= 9999 /\ 1 <= end_year <= 9999
          /\ timestamp_ok (mkdate start_year 1 1)
             && timestamp_ok (mkdate end_year 12 31) = false)
  /\ (HKODataCollector.generate_realistic_sunset_data start_year end_year s
      = Raise OverflowError
      <-> int_str_ok start_year = true /\ int_str_ok end_year = true
          /\ (fits_c_int start_year = false
              \/ (1 <= start_year <= 9999 /\ fits_c_int end_year = false)))
  /\ (HKODataCollector.generate_realistic_sunset_data start_year end_year s
      = Raise ValueError
      <-> int_str_ok start_year = false \/ int_str_ok end_year = false
          \/ (fits_c_int start_year = true
              /\ (start_year < 1 \/ 9999 < start_year))
          \/ (1 <= start_year <= 9999 /\ fits_c_int end_year = true
              /\ (end_year < 1 \/ 9999 < end_year)))
  /\ HKODataCollector.generate_realistic_sunset_data start_year end_year s
     <> Raise IndexError
  /\ HKODataCollector.generate_realistic_sunset_data start_year end_year s
     <> Raise ZeroDivisionError.
Proof.
  pose proof (long_int_overflows start_year) as L1.
  pose proof (long_int_overflows end_year) as L2.
  pose proof (fits_c_int_iff start_year) as F1.
  pose proof (fits_c_int_iff end_year) as F2.
  destruct (generate_cases start_year end_year s)
    as [(I1 & H)|[(I1 & I2 & H)|[(I1 & I2 & C1 & H)|[(I1 & I2 & C1 & Hs & H)
       |[(I1 & I2 & Hs & C2 & H)|[(I1 & I2 & Hs & C2 & He & H)
       |[(I1 & I2 & Hs & He & T & H)|[(I1 & I2 & Hs & He & T & Hlt & H)
       |(I1 & I2 & Hs & He & T & Hle & df & s' & H)]]]]]]]];
    try (pose proof T as T'; apply andb_true_iff in T' as (T1 & T2));
    rewrite H; clear H;
    repeat match goal with
           | |- _ /\ _ => split
           | |- _ <-> _ => split
           end;
    intros;
    repeat match goal with
           | Hx : _ /\ _ |- _ => destruct Hx
           | Hx : exists _, _ |- _ => destruct Hx
           | Hx : _ \/ _ |- _ => destruct Hx
           end;
    try discriminate; try reflexivity; try congruence;
    try solve [eauto];
    try (specialize (L1 ltac:(assumption)));
    try (specialize (L2 ltac:(assumption)));
    repeat match goal with
           | Hx : fits_c_int _ = true |- _ => first [apply F1 in Hx | apply F2 in Hx]
           end;
    try congruence; try lia.
  all: try tauto.
  all: exfalso.
  all: try congruence.
  all: try lia.
  all: try (rewrite (proj2 F1) in * by lia; discriminate).
  all: try (rewrite (proj2 F2) in * by lia; discriminate).
  all: try match goal with
           | Tx : ?a && ?b = false, Ha : ?a = true, Hb : ?b = true |- _ =>
               rewrite Ha, Hb in Tx; discriminate
           end.
  rewrite timestamp_jan1, timestamp_dec31 in T by lia. discriminate.
Qed.

Lemma X6_collector_outcome_witness :
  (exists df s',
      HKODataCollector.generate_realistic_sunset_data
        (G := MeanRandom) (P := NanosecondPlatform) 2000 2020 0%nat
      = Ok (df, s'))
  /\ HKODataCollector.generate_realistic_sunset_data
       (G := MeanRandom) (P := NanosecondPlatform) 2000 10000 0%nat
     = Raise ValueError
  /\ HKODataCollector.generate_realistic_sunset_data
       (G := MeanRandom) (P := NanosecondPlatform) 2020 2000 0%nat
     = Raise KeyError
  /\ HKODataCollector.generate_realistic_sunset_data
       (G := MeanRandom) (P := NanosecondPlatform) 1600 1600 0%nat
     = Raise OutOfBoundsDatetime
  /\ (exists df s',
        HKODataCollector.generate_realistic_sunset_data
          (G := MeanRandom) (P := MicrosecondPlatform) 1600 1600 0%nat
        = Ok (df, s'))
  /\ HKODataCollector.generate_realistic_sunset_data
       (G := MeanRandom) (P := NanosecondPlatform) 4294967296 2020 0%nat
     = Raise OverflowError.
Proof.
  pose proof (X6_collector_outcome MeanRandom NanosecondPlatform 2000 2020 0%nat)
    as (_ & H1 & _).
  pose proof (X6_collector_outcome MeanRandom NanosecondPlatform 2000 10000 0%nat)
    as (_ & _ & _ & _ & _ & H2 & _).
  pose proof (X6_collector_outcome MeanRandom NanosecondPlatform 2020 2000 0%nat)
    as (_ & _ & H3 & _).
  pose proof (X6_collector_outcome MeanRandom NanosecondPlatform 1600 1600 0%nat)
    as (_ & _ & _ & H4 & _).
  pose proof (X6_collector_outcome MeanRandom MicrosecondPlatform 1600 1600 0%nat)
    as (H5 & _).
  pose proof (X6_collector_outcome MeanRandom NanosecondPlatform
                4294967296 2020 0%nat)
    as (_ & _ & _ & _ & H6 & _).
  split; [apply H1; lia|].
  split; [apply H2; right; right; right; repeat split; lia|].
  split; [apply H3; repeat split; lia|].
  split; [apply H4; repeat split; lia|].
  split; [apply H5; repeat split; lia|].
  apply H6. repeat split. now left.
Defined.

(** ** The order of the draws of a day *)

Lemma log_snoc {A : Type} (l : list A) x y : (l ++ x) ++ y = l ++ (x ++ y).
Proof. symmetry. apply app_assoc. Qed.

Lemma Ok_state_inj {A S : Type} (a a' : A) (s s' : S) :
  Ok (a, s) = Ok (a', s') -> s = s'.
Proof. congruence. Qed.

Lemma Ok_value_inj {A S : Type} (a a' : A) (s s' : S) :
  Ok (a, s) = Ok (a', s') -> a = a'.
Proof. congruence. Qed.

Lemma trace_log (G : NumpyRandom) d (st : @rng_state (Tracing G)) :
  snd (snd (@draw (Tracing G) d st)) = snd st ++ [d].
Proof. reflexivity. Qed.

(** X7. On a day of month [m] the loop body of the collector draws, in
    this order: Normal(0, 0.2), random(); on a day with the phenomenon
    Beta(2, 2), the seasonal multiplier of the month, Exponential(25),
    Beta(2, 3), Uniform(0.8, 1.2); then Normal(0, 3), Normal(0, 8),
    Normal(0, 10), the visibility noise of the month and the wind gamma of
    the month.  So a day takes 12 draws with the phenomenon and 7
    without. *)
Theorem X7_collector_draw_order (G : NumpyRandom) (start_year : Z)
        (d : datetime) (s : @rng_state G) (log : list dist) :
  1 <= dt_month d <= 12 ->
  exists obs s',
    HKODataCollector.observe (G := Tracing G)
      HKODataCollector.fetch_current_conditions
      HKODataCollector.get_historical_weather_patterns start_year d (s, log)
    = Ok (obs,
          (s',
           log ++ [Normal 0 0.2; Random]
               ++ (if HKODataCollector.has_sunset_clouds obs
                   then [Beta 2 2; month_list_multiplier (dt_month d);
                         Exponential 25; Beta 2 3; Uniform 0.8 1.2]
                   else [])
               ++ [Normal 0 3; Normal 0 8; Normal 0 10;
                   if py_in (dt_month d) [3; 4; 5; 6]
                   then Normal 0 3 else Normal 0 4;
                   if py_in (dt_month d) [10; 11; 12; 1; 2]
                   then Gamma 3 4 else Gamma 2 3])).
Proof.
  intros Hm.
  destruct (observe_total (G := Tracing G) start_year d (s, log) Hm)
    as (obs & [s' log'] & Ho).
  exists obs, s'. rewrite Ho. do 3 f_equal.
  destruct (collector_tables_defined _ Hm) as (base & t0 & h0 & p0 & Hb & Ht & Hh & Hp).
  apply observe_inv in Ho as (sf & e & p & s1 & Hprob & Hrow).
  rewrite (day_probability_run _ _ _ _ _ _ Hb) in Hprob.
  apply Ok_state_inj in Hprob. subst s1.
  apply day_row_inv in Hrow
    as (i & du & c & cr & s2 & t & h & pr & v & w & Ha & Hw & ->).
  cbn [HKODataCollector.has_sunset_clouds].
  rewrite (weather_run _ _ _ _ _ _ Ht Hh Hp) in Hw. cbv zeta in Hw.
  apply Ok_state_inj, (f_equal snd) in Hw.
  change (snd (s', log')) with log' in Hw.
  rewrite <- Hw, !trace_log. clear Hw.
  destruct (py_lt _ p).
  - pose proof (sunset_attributes_true (G := Tracing G) (dt_month d)
                  (snd (draw (NumpyRandom := Tracing G) Random
                          (snd (draw (NumpyRandom := Tracing G)
                                     (Normal 0 0.2) (s, log)))))) as E.
    cbv zeta in E. rewrite E in Ha. apply Ok_state_inj in Ha. subst s2.
    rewrite !trace_log. cbn [snd]. now rewrite !log_snoc.
  - rewrite sunset_attributes_false in Ha. apply Ok_state_inj in Ha. subst s2.
    rewrite !trace_log. cbn [snd]. now rewrite !log_snoc.
Qed.

Lemma X7_collector_draw_order_witness :
  exists obs s' log',
    HKODataCollector.observe (G := Tracing MeanRandom)
      HKODataCollector.fetch_current_conditions
      HKODataCollector.get_historical_weather_patterns 2020
      (mkdate 2020 1 1) (0%nat, []) = Ok (obs, (s', log'))
    /\ (length log' = 7%nat \/ length log' = 12%nat).
Proof.
  destruct (X7_collector_draw_order MeanRandom 2020 (mkdate 2020 1 1) 0%nat []
              ltac:(cbn; lia)) as (obs & s' & Ho).
  eexists obs, s', _. split; [exact Ho|].
  destruct (HKODataCollector.has_sunset_clouds obs); [right|left]; reflexivity.
Defined.

(** X8. On a day of month [m] the loop body of the built-in generator
    draws, in this order: Normal(0, 0.3), random(); on a day with the
    phenomenon Beta(2, 2), the multiplier of the month, the wind factor
    Gamma(2, 1), Exponential(20), Beta(2, 3), Normal(15, 5), the wind gamma
    of the month and Uniform(0.8, 1.2), on a day without it Normal(12, 4)
    and Gamma(2, 3); then Normal(0, 3), Normal(0, 8), Normal(0, 10).  A
    day on which the loop body returns takes 13 draws with the phenomenon
    and 7 without. *)
Theorem X8_builtin_draw_order (G : NumpyRandom) (d : datetime)
        (s : @rng_state G) (log : list dist) obs s' log' :
  HongKongSunsetClouds.observe (G := Tracing G) d (s, log)
  = Ok (obs, (s', log')) ->
  log' = log ++ [Normal 0 0.3; Random]
             ++ (if HongKongSunsetClouds.has_sunset_clouds obs
                 then [Beta 2 2;
                       if py_in (dt_month d) [10; 11; 12; 1]
                       then Uniform 1.1 1.4 else Uniform 0.7 1.0;
                       Gamma 2 1; Exponential 20; Beta 2 3; Normal 15 5;
                       if py_in (dt_month d) [10; 11; 12; 1; 2]
                       then Gamma 3 4 else Gamma 2 3;
                       Uniform 0.8 1.2]
                 else [Normal 12 4; Gamma 2 3])
             ++ [Normal 0 3; Normal 0 8; Normal 0 10].
Proof.
  intros Ho.
  apply (builtin_observe_inv (G := Tracing G)) in Ho as (p & s1 & Hprob & Hrow).
  apply (builtin_day_row_inv (G := Tracing G)) in Hrow
    as (i & du & c & v & w & cr & s2 & t & h & pr & Ha & Hw & ->).
  cbn [HongKongSunsetClouds.has_sunset_clouds].
  destruct (builtin_weather_inv (G := Tracing G) _ _ _ _ Hw) as (t0 & h0 & Ht & Hh).
  rewrite (builtin_weather_run (G := Tracing G) _ _ _ _ Ht Hh) in Hw. cbv zeta in Hw.
  apply Ok_state_inj, (f_equal snd) in Hw.
  change (snd (s', log')) with log' in Hw.
  rewrite <- Hw, !trace_log. clear Hw.
  unfold HongKongSunsetClouds.day_probability in Hprob. cbv zeta in Hprob.
  destruct (dict_getitem _ _) as [base|] in Hprob; [|discriminate].
  rewrite bind_lift_Ok, bind_sample in Hprob.
  apply Ok_state_inj in Hprob. subst s1.
  destruct (py_lt _ p).
  - pose proof (builtin_sunset_attributes_true (G := Tracing G) (dt_month d)
                  (snd (draw (NumpyRandom := Tracing G) Random
                          (snd (draw (NumpyRandom := Tracing G)
                                     (Normal 0 0.3) (s, log)))))) as E.
    cbv zeta in E. rewrite E in Ha.
    destruct (Req_dec_T _ 0) in Ha; [discriminate|].
    apply Ok_state_inj in Ha. subst s2.
    rewrite !trace_log. cbn [snd]. now rewrite !log_snoc.
  - pose proof (builtin_sunset_attributes_false (G := Tracing G) (dt_month d)
                  (snd (draw (NumpyRandom := Tracing G) Random
                          (snd (draw (NumpyRandom := Tracing G)
                                     (Normal 0 0.3) (s, log)))))) as E.
    cbv zeta in E. rewrite E in Ha. apply Ok_state_inj in Ha. subst s2.
    rewrite !trace_log. cbn [snd]. now rewrite !log_snoc.
Qed.

Lemma X8_builtin_draw_order_witness :
  exists obs s' log',
    HongKongSunsetClouds.observe (G := Tracing MeanRandom)
      (mkdate 2000 1 1) (0%nat, []) = Ok (obs, (s', log'))
    /\ (length log' = 7%nat \/ length log' = 13%nat).
Proof.
  destruct (builtin_observe_total (G := Tracing MeanRandom)
              (mkdate 2000 1 1) (0%nat, [])
              (fun s0 => wind_factor_nonzero (1 / 2) (fst s0))
              ltac:(cbn; lia)) as (obs & [s' log'] & Ho).
  exists obs, s', log'. split; [exact Ho|].
  rewrite (X8_builtin_draw_order MeanRandom (mkdate 2000 1 1) 0%nat []
             obs s' log' Ho).
  destruct (HongKongSunsetClouds.has_sunset_clouds obs); [right|left];
    reflexivity.
Defined.

(** ** Relations between the fields of a row *)

Lemma Rmin_Rmax_bounds lo hi x :
  (lo <= hi)%R -> (Rmin lo hi <= x <= Rmax lo hi)%R -> (lo <= x <= hi)%R.
Proof.
  intros H. unfold Rmin, Rmax. destruct (Rle_dec lo hi); lra.
Qed.

Lemma clamped_product_within x v :
  (0 <= x)%R -> (0.8 <= v <= 1.2)%R ->
  (0.8 * py_max 0 (py_min 10 x) <= py_max 0 (py_min 10 (x * v))
   <= 1.2 * py_max 0 (py_min 10 x))%R.
Proof.
  intros Hx Hv.
  assert (0.8 * x <= x * v <= 1.2 * x)%R by nra.
  unfold py_max, py_min.
  destruct (Rlt_dec x 10); destruct (Rlt_dec (x * v) 10);
    repeat match goal with
           | |- context [Rlt_dec 0 ?a] => destruct (Rlt_dec 0 a)
           end; lra.
Qed.

Lemma collector_color_near_intensity (G : NumpyRandom) cd pat sy d s obs s' :
  well_distributed G ->
  HKODataCollector.observe cd pat sy d s = Ok (obs, s') ->
  (0.8 * HKODataCollector.intensity obs <= HKODataCollector.color_richness obs
   <= 1.2 * HKODataCollector.intensity obs)%R.
Proof.
  intros HG H. apply observe_inv in H as (sf & e & p & s1 & _ & H).
  apply day_row_inv in H
    as (i & du & c & cr & s2 & t & h & pr & v & w & Ha & _ & ->).
  cbn [HKODataCollector.intensity HKODataCollector.color_richness].
  destruct (py_lt _ p).
  - pose proof (sunset_attributes_true (dt_month d) (snd (draw Random s1))) as E.
    cbv zeta in E. rewrite E in Ha. apply Ok_value_inj in Ha.
    injection Ha as <- _ _ <-.
    match goal with |- context [(fst (draw (Beta 2 2) ?st) * 10 * fst (draw ?m ?st2) * fst (draw (Uniform 0.8 1.2) ?st3))%R] =>
      pose proof (HG (Beta 2 2) st) as Hb;
      pose proof (HG m st2) as Hu;
      pose proof (HG (Uniform 0.8 1.2) st3) as Hv
    end.
    cbn [support] in Hb, Hv. apply Rmin_Rmax_bounds in Hv; [|lra].
    apply clamped_product_within; [|exact Hv].
    assert (0 <= fst (draw (month_list_multiplier (dt_month d))
                        (snd (draw (Beta 2 2) (snd (draw Random s1))))))%R.
    { unfold month_list_multiplier in *.
      destruct (py_in (dt_month d) [10; 11; 12; 1]);
        [|destruct (py_in (dt_month d) [6; 7; 8])];
        cbn [support] in Hu; apply Rmin_Rmax_bounds in Hu; lra. }
    apply Rmult_le_pos; [lra|assumption].
  - rewrite sunset_attributes_false in Ha. apply Ok_value_inj in Ha.
    injection Ha as <- _ _ <-.
    rewrite !py_clamp_zero by lra. lra.
Qed.

Lemma builtin_color_near_intensity (G : NumpyRandom) d s obs s' :
  well_distributed G ->
  HongKongSunsetClouds.observe d s = Ok (obs, s') ->
  (0.8 * HongKongSunsetClouds.intensity obs
   <= HongKongSunsetClouds.color_richness obs
   <= 1.2 * HongKongSunsetClouds.intensity obs)%R.
Proof.
  intros HG H. apply builtin_observe_inv in H as (p & s1 & _ & H).
  apply builtin_day_row_inv in H
    as (i & du & c & v & w & cr & s2 & t & h & pr & Ha & _ & ->).
  cbn [HongKongSunsetClouds.intensity HongKongSunsetClouds.color_richness].
  destruct (py_lt _ p).
  - pose proof (builtin_sunset_attributes_true (dt_month d)
                  (snd (draw Random s1))) as E.
    cbv zeta in E.
    destruct (py_in (dt_month d) [10; 11; 12; 1]);
      rewrite E in Ha;
      (destruct (Req_dec_T _ 0) in Ha; [discriminate|]);
      apply Ok_value_inj in Ha; injection Ha as <- _ _ _ _ <-;
      clear E.
    all: match goal with |- context [(fst (draw (Beta 2 2) ?st) * 10 * fst (draw ?m ?st2) * fst (draw (Uniform 0.8 1.2) ?st3))%R] =>
      pose proof (HG (Beta 2 2) st) as Hb;
      pose proof (HG m st2) as Hu;
      pose proof (HG (Uniform 0.8 1.2) st3) as Hv
    end;
    cbn [support] in Hb, Hu, Hv;
    (apply Rmin_Rmax_bounds in Hv; [|lra]);
    (apply Rmin_Rmax_bounds in Hu; [|lra]);
    (apply clamped_product_within; [|exact Hv]);
    apply Rmult_le_pos; lra.
  - pose proof (builtin_sunset_attributes_false (dt_month d)
                  (snd (draw Random s1))) as E.
    cbv zeta in E. rewrite E in Ha. apply Ok_value_inj in Ha.
    injection Ha as <- _ _ _ _ <-.
    rewrite !py_clamp_zero by lra. lra.
Qed.

(** X9. With draws taken where numpy documents them, the color richness
    of every generated row is within 20 percent of its intensity:
    0.8 * intensity <= color_richness <= 1.2 * intensity, in the collector
    as in the built-in generator, also after both were clamped to
    [0, 10]. *)
Theorem X9_color_richness_near_intensity (G : NumpyRandom) (P : Platform) :
  well_distributed G ->
  (forall start_year end_year s df s' obs,
      HKODataCollector.generate_realistic_sunset_data start_year end_year s
      = Ok (df, s') ->
      In obs df ->
      (0.8 * HKODataCollector.intensity obs
       <= HKODataCollector.color_richness obs
       <= 1.2 * HKODataCollector.intensity obs)%R)
  /\ (forall s df s' obs,
         HongKongSunsetClouds.generate_realistic_data s = Ok (df, s') ->
         In obs df ->
         (0.8 * HongKongSunsetClouds.intensity obs
          <= HongKongSunsetClouds.color_richness obs
          <= 1.2 * HongKongSunsetClouds.intensity obs)%R).
Proof.
  intros HG. split.
  - intros sy ey s df s' obs Hrun Hin.
    destruct (generated_row _ _ _ _ _ _ Hrun Hin) as (d & s1 & s2 & _ & Ho).
    eapply collector_color_near_intensity; eassumption.
  - intros s df s' obs Hrun Hin.
    destruct (builtin_generated_row _ _ _ _ Hrun Hin) as (d & s1 & s2 & _ & Ho).
    eapply builtin_color_near_intensity; eassumption.
Qed.

Lemma X9_color_richness_near_intensity_witness :
  well_distributed MeanRandom
  /\ (exists df s' obs,
         HKODataCollector.generate_realistic_sunset_data
           (G := MeanRandom)
               (P := NanosecondPlatform) 2020 2020 0%nat = Ok (df, s')
         /\ In obs df
         /\ (0.8 * HKODataCollector.intensity obs
             <= HKODataCollector.color_richness obs
             <= 1.2 * HKODataCollector.intensity obs)%R)
  /\ (exists df s' obs,
         HongKongSunsetClouds.generate_realistic_data
           (G := MeanRandom) (P := NanosecondPlatform) 0%nat = Ok (df, s')
         /\ In obs df
         /\ (0.8 * HongKongSunsetClouds.intensity obs
             <= HongKongSunsetClouds.color_richness obs
             <= 1.2 * HongKongSunsetClouds.intensity obs)%R).
Proof.
  assert (HG : well_distributed MeanRandom)
    by (apply ConstRandom_well_distributed; lra).
  destruct (X9_color_richness_near_intensity MeanRandom NanosecondPlatform HG) as [HC HB].
  split; [exact HG|]. split.
  - destruct (collector_some_row MeanRandom NanosecondPlatform 0%nat)
      as (df & s' & obs & Hrun & Hin).
    exists df, s', obs. split; [exact Hrun|]. split; [exact Hin|].
    exact (HC _ _ _ _ _ _ Hrun Hin).
  - destruct (builtin_some_row (1 / 2) 0%nat) as (df & s' & obs & Hrun & Hin).
    exists df, s', obs. split; [exact Hrun|]. split; [exact Hin|].
    exact (HB _ _ _ _ Hrun Hin).
Defined.

(** X10. With draws taken where numpy documents them, the occurrence flag
    of a generated row can be read off its duration: occurred is true
    exactly when duration_minutes is not 0, and then it is at least 15.
    This holds in the collector and in the built-in generator. *)
Theorem X10_duration_tells_occurrence (G : NumpyRandom) (P : Platform) :
  well_distributed G ->
  (forall start_year end_year s df s' obs,
      HKODataCollector.generate_realistic_sunset_data start_year end_year s
      = Ok (df, s') ->
      In obs df ->
      (HKODataCollector.has_sunset_clouds obs = true
       <-> HKODataCollector.duration_minutes obs <> 0%R)
      /\ (HKODataCollector.has_sunset_clouds obs = true
          <-> (15 <= HKODataCollector.duration_minutes obs)%R))
  /\ (forall s df s' obs,
         HongKongSunsetClouds.generate_realistic_data s = Ok (df, s') ->
         In obs df ->
         (HongKongSunsetClouds.has_sunset_clouds obs = true
          <-> HongKongSunsetClouds.duration_minutes obs <> 0%R)
         /\ (HongKongSunsetClouds.has_sunset_clouds obs = true
             <-> (15 <= HongKongSunsetClouds.duration_minutes obs)%R)).
Proof.
  intros HG. split.
  - intros sy ey s df s' obs Hrun Hin.
    destruct (generated_row _ _ _ _ _ _ Hrun Hin) as (d & s1 & s2 & _ & Ho).
    destruct (HKODataCollector.has_sunset_clouds obs) eqn:Hhas.
    + pose proof (collector_occurrence_duration _ _ _ _ _ _ _ _ HG Ho Hhas).
      repeat split; intros; try reflexivity; lra.
    + destruct (collector_no_occurrence _ _ _ _ _ _ _ _ Ho Hhas) as (_ & Hd & _).
      rewrite Hd. repeat split; intros; try discriminate; lra.
  - intros s df s' obs Hrun Hin.
    destruct (builtin_generated_row _ _ _ _ Hrun Hin) as (d & s1 & s2 & _ & Ho).
    destruct (HongKongSunsetClouds.has_sunset_clouds obs) eqn:Hhas.
    + pose proof (builtin_occurrence_duration _ _ _ _ _ HG Ho Hhas).
      repeat split; intros; try reflexivity; lra.
    + destruct (builtin_no_occurrence _ _ _ _ _ Ho Hhas) as (_ & Hd & _).
      rewrite Hd. repeat split; intros; try discriminate; lra.
Qed.

Lemma X10_duration_tells_occurrence_witness :
  well_distributed MeanRandom
  /\ (exists df s' obs,
         HKODataCollector.generate_realistic_sunset_data
           (G := MeanRandom)
               (P := NanosecondPlatform) 2020 2020 0%nat = Ok (df, s')
         /\ In obs df
         /\ (HKODataCollector.has_sunset_clouds obs = true
             <-> HKODataCollector.duration_minutes obs <> 0%R))
  /\ (exists df s' obs,
         HongKongSunsetClouds.generate_realistic_data
           (G := MeanRandom) (P := NanosecondPlatform) 0%nat = Ok (df, s')
         /\ In obs df
         /\ (HongKongSunsetClouds.has_sunset_clouds obs = true
             <-> HongKongSunsetClouds.duration_minutes obs <> 0%R)).
Proof.
  assert (HG : well_distributed MeanRandom)
    by (apply ConstRandom_well_distributed; lra).
  destruct (X10_duration_tells_occurrence MeanRandom NanosecondPlatform HG) as [HC HB].
  split; [exact HG|]. split.
  - destruct (collector_some_row MeanRandom NanosecondPlatform 0%nat)
      as (df & s' & obs & Hrun & Hin).
    exists df, s', obs. split; [exact Hrun|]. split; [exact Hin|].
    exact (proj1 (HC _ _ _ _ _ _ Hrun Hin)).
  - destruct (builtin_some_row (1 / 2) 0%nat) as (df & s' & obs & Hrun & Hin).
    exists df, s', obs. split; [exact Hrun|]. split; [exact Hin|].
    exact (proj1 (HB _ _ _ _ Hrun Hin)).
Defined.

(** ** Grouping a frame *)

Lemma count_rows_nil {Row : Type} (p : Row -> bool) : count_rows p [] = 0.
Proof. reflexivity. Qed.

Lemma count_rows_snoc {Row : Type} (p : Row -> bool) df r :
  count_rows p (df ++ [r]) = count_rows p df + (if p r then 1 else 0).
Proof.
  unfold count_rows. rewrite filter_app, length_app. cbn [filter].
  destruct (p r); cbn [length]; lia.
Qed.

Lemma count_rows_cons {Row : Type} (p : Row -> bool) df r :
  count_rows p (r :: df) = (if p r then 1 else 0) + count_rows p df.
Proof.
  unfold count_rows. cbn [filter]. destruct (p r); cbn [length]; lia.
Qed.

Lemma count_rows_nonneg {Row : Type} (p : Row -> bool) df : 0 <= count_rows p df.
Proof. unfold count_rows. lia. Qed.

Lemma count_rows_le {Row : Type} (p q : Row -> bool) df :
  (forall r, p r = true -> q r = true) -> count_rows p df <= count_rows q df.
Proof.
  intros H. induction df as [|r df IH]; [reflexivity|].
  rewrite !count_rows_cons. specialize (H r).
  destruct (p r), (q r); lia.
Qed.

Lemma count_rows_pos {Row : Type} (p : Row -> bool) df :
  existsb p df = true -> 1 <= count_rows p df.
Proof.
  induction df as [|r df IH]; [discriminate|].
  cbn [existsb]. rewrite count_rows_cons.
  pose proof (count_rows_nonneg p df) as Hn.
  destruct (p r); [lia|]. cbn [orb]. intros H. apply IH in H. lia.
Qed.

Lemma count_rows_zero {Row : Type} (p : Row -> bool) df :
  existsb p df = false -> count_rows p df = 0.
Proof.
  induction df as [|r df IH]; [reflexivity|].
  cbn [existsb]. rewrite count_rows_cons.
  destruct (p r); [discriminate|]. cbn [orb]. intros H. rewrite IH by exact H.
  reflexivity.
Qed.

Lemma count_rows_all {Row : Type} (df : list Row) :
  count_rows (fun _ => true) df = Z.of_nat (length df).
Proof.
  unfold count_rows. f_equal. f_equal.
  induction df as [|r df IH]; cbn; congruence.
Qed.

Lemma column_sum_count {Row : Type} (flag : Row -> bool) df :
  column_sum (map flag df) = count_rows flag df.
Proof.
  induction df as [|r df IH]; [reflexivity|].
  rewrite count_rows_cons. cbn [map column_sum fold_right].
  unfold column_sum in IH. rewrite IH. reflexivity.
Qed.

Lemma dict_getitem_smaller {A : Type} (g : list (Z * A)) k :
  Forall (fun item => k < fst item) g -> dict_getitem g k = Raise KeyError.
Proof.
  induction 1 as [|[k' v] g Hk Hg IH]; [reflexivity|].
  cbn [dict_getitem]. cbn [fst] in Hk.
  destruct (Z.eqb_spec k k'); [lia | exact IH].
Qed.

Lemma group_insert_keys k b g k' :
  In k' (map fst (group_insert k b g)) <-> k' = k \/ In k' (map fst g).
Proof.
  induction g as [|[k0 v0] g IH]; cbn [group_insert map fst In].
  - intuition congruence.
  - destruct (Z.ltb_spec k k0); [cbn [map fst In]; intuition congruence|].
    destruct (Z.eqb_spec k k0); cbn [map fst In].
    + subst. intuition congruence.
    + rewrite IH. intuition congruence.
Qed.

Lemma group_insert_sorted k b g :
  StronglySorted Z.lt (map fst g) ->
  StronglySorted Z.lt (map fst (group_insert k b g)).
Proof.
  induction g as [|[k0 v0] g IH]; intros Hs; cbn [group_insert map fst].
  - repeat constructor.
  - inversion Hs as [|? ? Hs' Hall]; subst.
    destruct (Z.ltb_spec k k0).
    + cbn [map fst]. constructor; [exact Hs|].
      constructor; [lia|]. eapply Forall_impl; [|exact Hall].
      cbn. intros; lia.
    + destruct (Z.eqb_spec k k0); cbn [map fst].
      * constructor; assumption.
      * constructor; [now apply IH|].
        apply Forall_forall. intros k' Hk'.
        apply group_insert_keys in Hk' as [->|Hk']; [lia|].
        rewrite Forall_forall in Hall. now apply Hall.
Qed.

Lemma group_insert_lookup k b g k' :
  StronglySorted Z.lt (map fst g) ->
  dict_getitem (group_insert k b g) k'
  = if k' =? k then
      match dict_getitem g k with
      | Ok st => Ok {| g_sum := g_sum st + flag_value b;
                       g_count := g_count st + 1 |}
      | Raise _ => Ok {| g_sum := flag_value b; g_count := 1 |}
      end
    else dict_getitem g k'.
Proof.
  induction g as [|[k0 v0] g IH]; intros Hs; cbn [group_insert dict_getitem].
  - destruct (Z.eqb_spec k' k); reflexivity.
  - inversion Hs as [|? ? Hs' Hall]; subst.
    destruct (Z.ltb_spec k k0).
    + cbn [dict_getitem]. destruct (Z.eqb_spec k' k); [|reflexivity].
      destruct (Z.eqb_spec k k0); [lia|].
      rewrite dict_getitem_smaller; [reflexivity|].
      apply Forall_forall. intros [k1 v1] Hin. cbn.
      rewrite Forall_forall in Hall.
      specialize (Hall k1 (in_map fst _ _ Hin)). lia.
    + destruct (Z.eqb_spec k k0).
      * subst k0. cbn [dict_getitem].
        destruct (Z.eqb_spec k' k); reflexivity.
      * cbn [dict_getitem]. rewrite IH by exact Hs'.
        destruct (Z.eqb_spec k' k0), (Z.eqb_spec k' k); try reflexivity. lia.
Qed.

Section Groupby.
Context {Row : Type} (key : Row -> Z) (flag : Row -> bool).

Lemma groupby_snoc df r :
  groupby_agg key flag (df ++ [r])
  = group_insert (key r) (flag r) (groupby_agg key flag df).
Proof. unfold groupby_agg. now rewrite fold_left_app. Qed.

Lemma groupby_sorted df :
  StronglySorted Z.lt (map fst (groupby_agg key flag df)).
Proof.
  induction df as [|r df IH] using rev_ind; [constructor|].
  rewrite groupby_snoc. now apply group_insert_sorted.
Qed.

Lemma groupby_keys df k :
  In k (map fst (groupby_agg key flag df)) <-> In k (map key df).
Proof.
  induction df as [|r df IH] using rev_ind; [reflexivity|].
  rewrite groupby_snoc, group_insert_keys, IH, map_app, in_app_iff.
  cbn. intuition congruence.
Qed.

(** The group of a key holds the number of rows with that key whose flag
    is set and the number of rows with that key; a key no row has is not
    in the index. *)
Lemma groupby_lookup df k :
  dict_getitem (groupby_agg key flag df) k
  = if existsb (fun r => key r =? k) df then
      Ok {| g_sum := count_rows (fun r => (key r =? k) && flag r) df;
            g_count := count_rows (fun r => key r =? k) df |}
    else Raise KeyError.
Proof.
  induction df as [|r df IH] using rev_ind; [reflexivity|].
  rewrite groupby_snoc, group_insert_lookup by apply groupby_sorted.
  rewrite existsb_app, !count_rows_snoc. cbn [existsb].
  rewrite Z.eqb_sym. destruct (Z.eqb_spec (key r) k) as [E|E].
  - rewrite orb_true_r. subst k. rewrite IH.
    destruct (existsb _ df) eqn:Hex; cbn [andb g_sum g_count].
    + unfold flag_value. reflexivity.
    + rewrite !count_rows_zero; [unfold flag_value; reflexivity|exact Hex|].
      clear IH. induction df as [|r' df IHdf]; [reflexivity|].
      cbn [existsb] in *. apply orb_false_iff in Hex as [H1 H2].
      rewrite H1. cbn [andb orb]. now apply IHdf.
  - rewrite !orb_false_r, IH. cbn [andb]. rewrite !Z.add_0_r. reflexivity.
Qed.

Lemma groupby_index_mem df k :
  index_mem k (groupby_agg key flag df) = existsb (fun r => key r =? k) df.
Proof.
  pose proof (groupby_keys df k) as H.
  destruct (existsb (fun r => key r =? k) df) eqn:Hex.
  - apply existsb_exists in Hex as (r & Hr & Hk). apply Z.eqb_eq in Hk.
    assert (Hin : In k (map fst (groupby_agg key flag df)))
      by (apply H; subst k; now apply in_map).
    apply in_map_iff in Hin as (item & Hf & Hitem).
    apply existsb_exists. exists item. split; [exact Hitem|].
    apply Z.eqb_eq. now symmetry.
  - destruct (index_mem k (groupby_agg key flag df)) eqn:Hm; [|reflexivity].
    apply existsb_exists in Hm as (item & Hitem & Hk). apply Z.eqb_eq in Hk.
    assert (Hin : In k (map key df))
      by (apply H; subst k; now apply in_map).
    apply in_map_iff in Hin as (r & Hr & Hin).
    assert (existsb (fun r => key r =? k) df = true)
      by (apply existsb_exists; exists r; split; [exact Hin|now apply Z.eqb_eq]).
    congruence.
Qed.

Lemma group_sums_In df k v :
  In (k, v) (group_sums (groupby_agg key flag df)) ->
  In k (map key df)
  /\ v = count_rows (fun r => (key r =? k) && flag r) df.
Proof.
  intros H. pose proof (groupby_sorted df) as Hs.
  pose proof (groupby_lookup df k) as Hl.
  pose proof (groupby_keys df k) as Hk.
  unfold group_sums in H. apply in_map_iff in H as ([k0 st] & E & Hin).
  cbn [fst snd] in E. injection E as -> <-.
  assert (Hget : dict_getitem (groupby_agg key flag df) k = Ok st).
  { clear Hl Hk. induction (groupby_agg key flag df) as [|[k1 st1] g IH];
      [contradiction|].
    cbn [dict_getitem]. inversion Hs as [|? ? Hs' Hall]; subst.
    destruct Hin as [E|Hin].
    - injection E as -> ->. now rewrite Z.eqb_refl.
    - destruct (Z.eqb_spec k k1) as [->|_]; [|now apply IH].
      rewrite Forall_forall in Hall.
      specialize (Hall k1 (in_map fst _ _ Hin)). cbn in Hall. lia. }
  assert (Hin' : In k (map key df))
    by (apply Hk; change k with (fst (k, st)); now apply in_map).
  split; [exact Hin'|].
  rewrite Hget in Hl. destruct (existsb _ df); [|discriminate].
  injection Hl as ->. reflexivity.
Qed.
End Groupby.

(** ** The report of [save_data] *)

Lemma result_map_Ok {A B : Type} (f : A -> result B) (g : A -> B) xs :
  (forall x, In x xs -> f x = Ok (g x)) -> result_map f xs = Ok (map g xs).
Proof.
  induction xs as [|x xs IH]; intros H; [reflexivity|].
  cbn [result_map map]. rewrite (H x (or_introl eq_refl)).
  rewrite IH; [reflexivity|]. intros x' Hx'. apply H. now right.
Qed.

Lemma monthly_line_run {Row : Type} (month : Row -> Z) (flag : Row -> bool)
      (data : list Row) m :
  monthly_line (groupby_agg month flag data) m
  = Ok (m,
        count_rows (fun r => (month r =? m) && flag r) data,
        if existsb (fun r => month r =? m) data
        then (IZR (count_rows (fun r => (month r =? m) && flag r) data)
              / IZR (count_rows (fun r => month r =? m) data) * 100)%R
        else 0%R).
Proof.
  unfold monthly_line. rewrite groupby_index_mem, groupby_lookup.
  destruct (existsb (fun r => month r =? m) data) eqn:Hex; [reflexivity|].
  rewrite count_rows_zero; [reflexivity|].
  clear -Hex. induction data as [|r data IH]; [reflexivity|].
  cbn [existsb] in *. apply orb_false_iff in Hex as [H1 H2].
  rewrite H1. cbn [andb orb]. now apply IH.
Qed.

Lemma rate_in_percent a b :
  0 <= a <= b -> 1 <= b -> (0 <= IZR a / IZR b * 100 <= 100)%R.
Proof.
  intros Ha Hb.
  assert (0 < IZR b)%R by (apply IZR_lt; lia).
  assert (0 <= IZR a)%R by (apply IZR_le; lia).
  assert (IZR a <= IZR b)%R by (apply IZR_le; lia).
  split.
  - apply Rmult_le_pos; [|lra]. apply Rmult_le_pos; [assumption|].
    apply Rlt_le, Rinv_0_lt_compat. assumption.
  - assert (IZR a / IZR b <= 1)%R; [|lra].
    apply Rmult_le_reg_r with (IZR b); [assumption|].
    unfold Rdiv. rewrite Rmult_assoc, Rinv_l by lra. lra.
Qed.

(** Each row of a month from 1 to 12 is counted in exactly one of the
    twelve monthly numbers. *)
Lemma monthly_counts_add_up {Row : Type} (month : Row -> Z) (flag : Row -> bool)
      (data : list Row) :
  Forall (fun r => 1 <= month r <= 12) data ->
  fold_right Z.add 0
    (map (fun m => count_rows (fun r => (month r =? m) && flag r) data)
         (zrange 1 12))
  = count_rows flag data.
Proof.
  rewrite zrange_1_12. cbn [map fold_right].
  induction 1 as [|r data Hr Hdata IH]; [reflexivity|].
  rewrite !count_rows_cons.
  assert (Hone : (if (month r =? 1) && flag r then 1 else 0)
                 + (if (month r =? 2) && flag r then 1 else 0)
                 + (if (month r =? 3) && flag r then 1 else 0)
                 + (if (month r =? 4) && flag r then 1 else 0)
                 + (if (month r =? 5) && flag r then 1 else 0)
                 + (if (month r =? 6) && flag r then 1 else 0)
                 + (if (month r =? 7) && flag r then 1 else 0)
                 + (if (month r =? 8) && flag r then 1 else 0)
                 + (if (month r =? 9) && flag r then 1 else 0)
                 + (if (month r =? 10) && flag r then 1 else 0)
                 + (if (month r =? 11) && flag r then 1 else 0)
                 + (if (month r =? 12) && flag r then 1 else 0)
                 = (if flag r then 1 else 0)).
  { destruct (flag r); rewrite ?andb_false_r, ?andb_true_r; [|reflexivity].
    apply month_cases in Hr.
    repeat (destruct Hr as [Hr|Hr]; [rewrite Hr; reflexivity|]).
    rewrite Hr; reflexivity. }
  lia.
Qed.

Lemma save_data_report_run r0 rest :
  let data := r0 :: rest in
  save_data_report data
  = Ok {| period_start := dates_min (HKODataCollector.date r0)
                                    (map HKODataCollector.date rest);
          period_end := dates_max (HKODataCollector.date r0)
                                  (map HKODataCollector.date rest);
          total_days := Z.of_nat (length data);
          sunset_count := count_rows HKODataCollector.has_sunset_clouds data;
          success_percent :=
            (IZR (count_rows HKODataCollector.has_sunset_clouds data)
             / IZR (Z.of_nat (length data)) * 100)%R;
          monthly_lines :=
            map (fun m =>
                   (m,
                    count_rows (fun r => (HKODataCollector.month r =? m)
                                         && HKODataCollector.has_sunset_clouds r)
                               data,
                    if existsb (fun r => HKODataCollector.month r =? m) data
                    then (IZR (count_rows
                                 (fun r => (HKODataCollector.month r =? m)
                                           && HKODataCollector.has_sunset_clouds r)
                                 data)
                          / IZR (count_rows
                                   (fun r => HKODataCollector.month r =? m) data)
                          * 100)%R
                    else 0%R))
                (zrange 1 12) |}.
Proof.
  intros data. unfold save_data_report.
  change (frame_column data HKODataCollector.date)
    with (Ok (map HKODataCollector.date data)).
  change (frame_column data HKODataCollector.has_sunset_clouds)
    with (Ok (map HKODataCollector.has_sunset_clouds data)).
  cbv iota beta. change (map HKODataCollector.date data)
    with (HKODataCollector.date r0 :: map HKODataCollector.date rest).
  cbv iota beta zeta.
  rewrite (result_map_Ok _ _ _ (fun m _ => monthly_line_run _ _ data m)).
  now rewrite column_sum_count.
Qed.

(** X11. [save_data] raises KeyError on a frame without rows, when it
    reads the date column for the report; on any other frame the report
    has one line per month from 1 to 12, in order, each with the number of
    rows of that month with the phenomenon and their share of the rows of
    the month in percent, and 0 and 0.0 for a month without rows. *)
Theorem X11_report_lines (data : list HKODataCollector.Observation) :
  (data = [] -> save_data_report data = Raise KeyError)
  /\ (data <> [] ->
      exists r,
        save_data_report data = Ok r
        /\ total_days r = Z.of_nat (length data)
        /\ sunset_count r
           = count_rows HKODataCollector.has_sunset_clouds data
        /\ map (fun line => fst (fst line)) (monthly_lines r)
           = [1; 2; 3; 4; 5; 6; 7; 8; 9; 10; 11; 12]
        /\ forall m c p,
             In (m, c, p) (monthly_lines r) ->
             c = count_rows (fun o => (HKODataCollector.month o =? m)
                                      && HKODataCollector.has_sunset_clouds o)
                            data
             /\ (In m (map HKODataCollector.month data) ->
                 p = (IZR c
                      / IZR (count_rows
                               (fun o => HKODataCollector.month o =? m) data)
                      * 100)%R)
             /\ (~ In m (map HKODataCollector.month data) ->
                 c = 0 /\ p = 0%R)).
Proof.
  split; [intros ->; reflexivity|].
  intros Hne. destruct data as [|r0 rest]; [contradiction|].
  eexists. split; [apply save_data_report_run|].
  cbn [total_days sunset_count monthly_lines].
  remember (r0 :: rest) as data eqn:Hdata. clear Hdata Hne r0 rest.
  split; [reflexivity|]. split; [reflexivity|]. split.
  - rewrite map_map. cbn [fst]. rewrite map_id. apply zrange_1_12.
  - intros m c p Hin. apply in_map_iff in Hin as (m' & E & _).
    apply (f_equal (fun l => (fst (fst l), snd (fst l), snd l))) in E.
    cbn [fst snd] in E.
    assert (Hm : m' = m) by congruence. subst m'.
    assert (Hc : c = count_rows
                       (fun o => (HKODataCollector.month o =? m)
                                 && HKODataCollector.has_sunset_clouds o) data)
      by congruence.
    assert (Hp : p = if existsb (fun r => HKODataCollector.month r =? m) data
                     then (IZR (count_rows
                                  (fun r => (HKODataCollector.month r =? m)
                                            && HKODataCollector.has_sunset_clouds r)
                                  data)
                           / IZR (count_rows
                                    (fun r => HKODataCollector.month r =? m)
                                    data) * 100)%R
                     else 0%R) by congruence.
    clear E. split; [exact Hc|].
    destruct (existsb (fun r => HKODataCollector.month r =? m) data) eqn:Hex.
    + split; [intros _; now rewrite Hp, Hc|].
      intros Hn. exfalso. apply Hn.
      apply existsb_exists in Hex as (r & Hr & Hk). apply Z.eqb_eq in Hk.
      subst m. now apply in_map.
    + assert (Hnot : ~ In m (map HKODataCollector.month data)).
      { intros Hin. apply in_map_iff in Hin as (r & Hk & Hr).
        assert (existsb (fun r => HKODataCollector.month r =? m) data = true)
          by (apply existsb_exists; exists r; split;
              [exact Hr | now apply Z.eqb_eq]).
        congruence. }
      split; [intros Hin; contradiction|].
      intros _. split; [|exact Hp].
      rewrite Hc. apply count_rows_zero.
      clear -Hex. induction data as [|r data IH]; [reflexivity|].
      cbn [existsb] in *. apply orb_false_iff in Hex as [H1 H2].
      rewrite H1. cbn [andb orb]. now apply IH.
Qed.

Lemma X11_report_lines_witness :
  save_data_report [] = Raise KeyError
  /\ exists df s' r,
       HKODataCollector.generate_realistic_sunset_data
         (G := MeanRandom)
             (P := NanosecondPlatform) 2020 2020 0%nat = Ok (df, s')
       /\ save_data_report df = Ok r
       /\ total_days r = Z.of_nat (length df)
       /\ map (fun line => fst (fst line)) (monthly_lines r)
          = [1; 2; 3; 4; 5; 6; 7; 8; 9; 10; 11; 12].
Proof.
  split; [apply (proj1 (X11_report_lines [])); reflexivity|].
  destruct (collector_some_row MeanRandom NanosecondPlatform 0%nat)
      as (df & s' & obs & Hrun & Hin).
  assert (Hne : df <> []) by (intros ->; contradiction).
  destruct (proj2 (X11_report_lines df) Hne) as (r & Hr & Ht & _ & Hm & _).
  exists df, s', r. repeat split; assumption.
Defined.

(** X12. For a frame whose months are all in 1..12 the twelve monthly
    numbers of the report add up to the total number of observations of
    its header; that total is at most the number of days, and the overall
    rate and every monthly rate lie between 0 and 100 percent. *)
Theorem X12_report_totals (data : list HKODataCollector.Observation) r :
  Forall (fun o => 1 <= HKODataCollector.month o <= 12) data ->
  save_data_report data = Ok r ->
  fold_right Z.add 0 (map (fun line => snd (fst line)) (monthly_lines r))
  = sunset_count r
  /\ 0 <= sunset_count r <= total_days r
  /\ (0 <= success_percent r <= 100)%R
  /\ forall m c p, In (m, c, p) (monthly_lines r) ->
                   0 <= c /\ (0 <= p <= 100)%R.
Proof.
  intros Hmonths Hr. destruct data as [|r0 rest]; [discriminate|].
  rewrite save_data_report_run in Hr. cbv zeta in Hr.
  remember (r0 :: rest) as data eqn:Hdata.
  assert (Hlen : 1 <= Z.of_nat (length data)) by (subst data; cbn [length]; lia).
  clear Hdata.
  apply (f_equal (fun x => match x with Ok y => y | Raise _ => r end)) in Hr.
  subst r. cbn [monthly_lines sunset_count total_days success_percent].
  assert (Hle : 0 <= count_rows HKODataCollector.has_sunset_clouds data
                <= Z.of_nat (length data)).
  { split; [apply count_rows_nonneg|]. rewrite <- count_rows_all.
    now apply count_rows_le. }
  split; [|split; [exact Hle|split; [now apply rate_in_percent|]]].
  - rewrite map_map. cbn [fst snd]. now apply monthly_counts_add_up.
  - intros m c p Hin. apply in_map_iff in Hin as (m' & E & _).
    apply (f_equal (fun l => (fst (fst l), snd (fst l), snd l))) in E.
    cbn [fst snd] in E.
    assert (Hm : m' = m) by congruence. subst m'.
    assert (Hc : c = count_rows
                       (fun o => (HKODataCollector.month o =? m)
                                 && HKODataCollector.has_sunset_clouds o) data)
      by congruence.
    assert (Hp : p = if existsb (fun r => HKODataCollector.month r =? m) data
                     then (IZR (count_rows
                                  (fun r => (HKODataCollector.month r =? m)
                                            && HKODataCollector.has_sunset_clouds r)
                                  data)
                           / IZR (count_rows
                                    (fun r => HKODataCollector.month r =? m)
                                    data) * 100)%R
                     else 0%R) by congruence.
    clear E. split; [rewrite Hc; apply count_rows_nonneg|].
    rewrite Hp. destruct (existsb _ data) eqn:Hex; [|lra].
    apply rate_in_percent; [|now apply count_rows_pos].
    split; [apply count_rows_nonneg|].
    apply count_rows_le. intros o Ho. now apply andb_true_iff in Ho.
Qed.

(** ** Dates in order *)

Lemma date_leb_total a b : date_leb a b = false -> date_leb b a = true.
Proof.
  intros H. apply date_leb_iff.
  assert (Hn : ~ date_leb a b = true) by congruence.
  rewrite date_leb_iff in Hn. lia.
Qed.

Lemma date_leb_trans a b c :
  date_leb a b = true -> date_leb b c = true -> date_leb a c = true.
Proof. rewrite !date_leb_iff. lia. Qed.

Lemma date_leb_antisym a b :
  date_leb a b = true -> date_leb b a = true -> a = b.
Proof.
  rewrite !date_leb_iff. intros H1 H2. destruct a, b. cbn in *.
  f_equal; lia.
Qed.

Lemma date_leb_refl a : date_leb a a = true.
Proof. apply date_leb_iff. lia. Qed.

Lemma dates_min_first d ds :
  Forall (fun x => date_leb d x = true) ds -> dates_min d ds = d.
Proof.
  unfold dates_min. induction 1 as [|x ds Hx Hds IH]; [reflexivity|].
  cbn [fold_left]. now rewrite Hx.
Qed.

Lemma dates_max_spec d ds :
  In (dates_max d ds) (d :: ds)
  /\ Forall (fun x => date_leb x (dates_max d ds) = true) (d :: ds).
Proof.
  unfold dates_max. revert d. induction ds as [|x ds IH]; intros d.
  - cbn. split; [now left|]. constructor; [apply date_leb_refl|constructor].
  - cbn [fold_left]. destruct (date_leb x d) eqn:Hxd.
    + destruct (IH d) as (Hin & Hall). split.
      * destruct Hin as [<-|Hin]; [now left | now right; right].
      * inversion Hall as [|? ? Hd Hrest]; subst.
        constructor; [exact Hd|]. constructor; [|exact Hrest].
        eapply date_leb_trans; eassumption.
    + destruct (IH x) as (Hin & Hall). split.
      * now right.
      * inversion Hall as [|? ? Hx Hrest]; subst.
        constructor; [|exact Hall].
        eapply date_leb_trans; [|exact Hx]. now apply date_leb_total.
Qed.

Lemma dates_max_is e d ds :
  In e (d :: ds) -> Forall (fun x => date_leb x e = true) (d :: ds) ->
  dates_max d ds = e.
Proof.
  intros Hin Hall. destruct (dates_max_spec d ds) as (Hin' & Hall').
  rewrite Forall_forall in Hall, Hall'.
  apply date_leb_antisym; [now apply Hall | now apply Hall'].
Qed.

(** ** The report of a generated frame *)

Lemma generated_dates (G : NumpyRandom) (P : Platform) sy ey s df s' :
  HKODataCollector.generate_realistic_sunset_data sy ey s = Ok (df, s') ->
  map HKODataCollector.date df
  = days_from_to (mkdate sy 1 1) (mkdate ey 12 31).
Proof.
  intros Hrun. apply generated_rows in Hrun. apply Forall2_map_eq.
  eapply Forall2_impl; [|exact Hrun].
  intros d obs (s1 & s2 & Ho). eapply observe_date, Ho.
Qed.

Lemma generated_months (G : NumpyRandom) (P : Platform) sy ey s df s' :
  HKODataCollector.generate_realistic_sunset_data sy ey s = Ok (df, s') ->
  Forall (fun o => 1 <= HKODataCollector.month o <= 12
                   /\ HKODataCollector.month o
                      = dt_month (HKODataCollector.date o)) df.
Proof.
  intros Hrun. apply Forall_forall. intros obs Hin.
  destruct (generated_row _ _ _ _ _ _ Hrun Hin) as (d & s1 & s2 & Hd & Ho).
  apply days_from_to_In in Hd as (_ & Hm & _).
  apply observe_inv in Ho as (sf & e & p & s3 & _ & Ho).
  apply day_row_inv in Ho
    as (i & du & c & cr & s4 & t & h & pr & v & w & _ & _ & ->).
  cbn. split; [exact Hm | reflexivity].
Qed.

Lemma generated_window (G : NumpyRandom) (P : Platform) sy ey s df s' :
  HKODataCollector.generate_realistic_sunset_data sy ey s = Ok (df, s') ->
  1 <= sy /\ sy <= ey /\ ey <= 9999.
Proof.
  intros Hrun. destruct (generate_inv _ _ _ _ _ Hrun) as (H1 & H2 & Hloop & Hne).
  destruct (Z_lt_ge_dec ey sy) as [Hlt|Hge]; [|lia].
  rewrite days_from_to_empty in Hloop by exact Hlt.
  cbn [for_each] in Hloop. unfold ret in Hloop.
  injection Hloop as <- _. now contradiction Hne.
Qed.

Lemma X12_report_totals_witness :
  exists df s' r,
    HKODataCollector.generate_realistic_sunset_data
      (G := MeanRandom) (P := NanosecondPlatform) 2020 2020 0%nat = Ok (df, s')
    /\ save_data_report df = Ok r
    /\ fold_right Z.add 0 (map (fun line => snd (fst line)) (monthly_lines r))
       = sunset_count r
    /\ (0 <= success_percent r <= 100)%R.
Proof.
  destruct (generate_total
      (G := MeanRandom) (P := NanosecondPlatform) 2020 2020 0%nat
              ltac:(lia) ltac:(lia) ltac:(lia)) as (df & s' & Hrun).
  pose proof (generated_months _ _ _ _ _ _ _ Hrun) as Hm.
  assert (Hm' : Forall (fun o => 1 <= HKODataCollector.month o <= 12) df)
    by (eapply Forall_impl; [|exact Hm]; cbn; tauto).
  destruct (generate_inv _ _ _ _ _ Hrun) as (_ & _ & _ & Hne).
  destruct df as [|r0 rest]; [contradiction Hne; reflexivity|].
  eexists (r0 :: rest), s', _.
  split; [exact Hrun|].
  split; [apply save_data_report_run|].
  destruct (X12_report_totals (r0 :: rest) _ Hm' (save_data_report_run r0 rest))
    as (Hsum & _ & Hp & _).
  split; [exact Hsum | exact Hp].
Defined.

(** X13. The report of a frame the collector generated for the window
    start_year..end_year states the period from January 1 of start_year to
    December 31 of end_year and the inclusive day count of the window; each
    of the twelve months has rows in the frame, so no monthly line is the
    line written for a missing month, and the monthly numbers add up to
    the total of the header. *)
Theorem X13_report_of_generated_frame (G : NumpyRandom) (P : Platform)
        (start_year end_year : Z) (s : rng_state) df s' :
  HKODataCollector.generate_realistic_sunset_data start_year end_year s
  = Ok (df, s') ->
  exists r,
    save_data_report df = Ok r
    /\ period_start r = mkdate start_year 1 1
    /\ period_end r = mkdate end_year 12 31
    /\ total_days r
       = toordinal (mkdate end_year 12 31)
         - toordinal (mkdate start_year 1 1) + 1
    /\ (forall m, 1 <= m <= 12 -> In m (map HKODataCollector.month df))
    /\ fold_right Z.add 0 (map (fun line => snd (fst line)) (monthly_lines r))
       = sunset_count r.
Proof.
  intros Hrun.
  destruct (generated_window _ _ _ _ _ _ _ Hrun) as (H1 & H2 & H3).
  pose proof (generated_dates _ _ _ _ _ _ _ Hrun) as Hdates.
  pose proof (generated_months _ _ _ _ _ _ _ Hrun) as Hmonths.
  destruct (days_from_to_head start_year end_year H2) as (tl & Ehead).
  assert (Hlen : Z.of_nat (length df)
                 = toordinal (mkdate end_year 12 31)
                   - toordinal (mkdate start_year 1 1) + 1).
  { rewrite <- (length_map HKODataCollector.date), Hdates.
    rewrite days_from_to_length by lia.
    rewrite toordinal_jan1, toordinal_dec31.
    pose proof (days_before_year_mono end_year).
    assert (days_before_year start_year <= days_before_year end_year).
    { assert (forall k : nat, days_before_year start_year
                              <= days_before_year (start_year + Z.of_nat k)) as Hk.
      { induction k as [|k IH];
          [replace (start_year + Z.of_nat 0) with start_year by lia; lia|].
        replace (start_year + Z.of_nat (S k))
          with (start_year + Z.of_nat k + 1) by lia.
        pose proof (days_before_year_mono (start_year + Z.of_nat k)). lia. }
      specialize (Hk (Z.to_nat (end_year - start_year))).
      replace (start_year + Z.of_nat (Z.to_nat (end_year - start_year)))
        with end_year in Hk by lia. exact Hk. }
    lia. }
  destruct df as [|r0 rest]; [rewrite Ehead in Hdates; discriminate|].
  eexists. split; [apply save_data_report_run|].
  cbn [period_start period_end total_days monthly_lines sunset_count].
  rewrite Ehead in Hdates. cbn [map] in Hdates.
  injection Hdates as Hd0 Hrest.
  assert (Hin : forall x, In x (mkdate start_year 1 1 :: tl) ->
                          date_leb (mkdate start_year 1 1) x = true
                          /\ date_leb x (mkdate end_year 12 31) = true).
  { intros x Hx. rewrite <- Ehead in Hx.
    apply days_from_to_In in Hx as (Hy & Hm & Hday).
    pose proof (days_in_month_range (dt_year x) (dt_month x)).
    rewrite !date_leb_iff. cbn [dt_year dt_month dt_day]. lia. }
  repeat split.
  - rewrite Hd0, Hrest. apply dates_min_first.
    apply Forall_forall. intros x Hx. apply Hin. now right.
  - rewrite Hd0, Hrest. apply dates_max_is.
    + rewrite <- Ehead. apply days_from_to_In.
      cbn [dt_year dt_month dt_day].
      replace (days_in_month end_year 12) with 31 by reflexivity. lia.
    + apply Forall_forall. intros x Hx. now apply Hin.
  - exact Hlen.
  - intros m Hm.
    assert (Hd : In (mkdate start_year m 1)
                    (map HKODataCollector.date (r0 :: rest))).
    { cbn [map]. rewrite Hd0, Hrest, <- Ehead. apply days_from_to_In.
      pose proof (days_in_month_range start_year m).
      cbn [dt_year dt_month dt_day]. lia. }
    apply in_map_iff in Hd as (o & Ho & Hino).
    rewrite Forall_forall in Hmonths. destruct (Hmonths o Hino) as (_ & Emo).
    apply in_map_iff. exists o. split; [|exact Hino].
    rewrite Emo, Ho. reflexivity.
  - rewrite map_map. cbn [fst snd]. apply monthly_counts_add_up.
    eapply Forall_impl; [|exact Hmonths]. cbn. tauto.
Qed.

Lemma X13_report_of_generated_frame_witness :
  exists df s' r,
    HKODataCollector.generate_realistic_sunset_data
      (G := MeanRandom) (P := NanosecondPlatform) 2020 2020 0%nat = Ok (df, s')
    /\ save_data_report df = Ok r
    /\ period_start r = mkdate 2020 1 1
    /\ period_end r = mkdate 2020 12 31
    /\ total_days r = 366.
Proof.
  destruct (generate_total
      (G := MeanRandom) (P := NanosecondPlatform) 2020 2020 0%nat
              ltac:(lia) ltac:(lia) ltac:(lia)) as (df & s' & Hrun).
  destruct (X13_report_of_generated_frame MeanRandom NanosecondPlatform 2020 2020 0%nat df s' Hrun)
    as (r & Hr & Hs & He & Ht & _).
  exists df, s', r. repeat split; assumption.
Defined.

(** ** The numbers of [generate_summary_report] *)

Lemma idxmax_from_spec s :
  forall best,
    Forall (fun item => fst best < fst item) s ->
    StronglySorted Z.lt (map fst s) ->
    exists v,
      In (idxmax_from best s, v) (best :: s)
      /\ (forall item, In item (best :: s) -> snd item <= v)
      /\ (forall item, In item (best :: s) -> snd item = v ->
                       idxmax_from best s <= fst item).
Proof.
  induction s as [|it s IH]; intros best Hlt Hs.
  - exists (snd best). cbn [idxmax_from]. split; [left; now destruct best|].
    split; intros item [<-|[]]; lia.
  - inversion Hlt as [|? ? Hit Hlt']; subst.
    cbn [map] in Hs. inversion Hs as [|? ? Hs' Hall]; subst.
    cbn [idxmax_from]. destruct (Z.ltb_spec (snd best) (snd it)) as [Hb|Hb].
    + destruct (IH it) as (v & Hin & Hmax & Hfirst).
      { rewrite Forall_map in Hall. exact Hall. }
      { exact Hs'. }
      exists v. split; [now right|].
      pose proof (Hmax it (or_introl eq_refl)) as Hitv.
      split.
      * intros item [<-|Hitem]; [lia | now apply Hmax].
      * intros item [<-|Hitem] Hv; [lia | now apply Hfirst].
    + destruct (IH best Hlt' Hs') as (v & Hin & Hmax & Hfirst).
      exists v. split.
      * destruct Hin as [E|Hin]; [now left | now right; right].
      * pose proof (Hmax best (or_introl eq_refl)) as Hbv.
        split.
        -- intros item [<-|[<-|Hitem]]; [assumption | lia |].
           apply Hmax. now right.
        -- intros item [<-|[<-|Hitem]] Hv.
           ++ now apply Hfirst; [left|].
           ++ assert (snd best = v) by lia.
              pose proof (Hfirst best (or_introl eq_refl) H). lia.
           ++ apply Hfirst; [now right | exact Hv].
Qed.

Lemma idxmin_from_spec s :
  forall best,
    Forall (fun item => fst best < fst item) s ->
    StronglySorted Z.lt (map fst s) ->
    exists v,
      In (idxmin_from best s, v) (best :: s)
      /\ (forall item, In item (best :: s) -> v <= snd item)
      /\ (forall item, In item (best :: s) -> snd item = v ->
                       idxmin_from best s <= fst item).
Proof.
  induction s as [|it s IH]; intros best Hlt Hs.
  - exists (snd best). cbn [idxmin_from]. split; [left; now destruct best|].
    split; intros item [<-|[]]; lia.
  - inversion Hlt as [|? ? Hit Hlt']; subst.
    cbn [map] in Hs. inversion Hs as [|? ? Hs' Hall]; subst.
    cbn [idxmin_from]. destruct (Z.ltb_spec (snd it) (snd best)) as [Hb|Hb].
    + destruct (IH it) as (v & Hin & Hmin & Hfirst).
      { rewrite Forall_map in Hall. exact Hall. }
      { exact Hs'. }
      exists v. split; [now right|].
      pose proof (Hmin it (or_introl eq_refl)) as Hitv.
      split.
      * intros item [<-|Hitem]; [lia | now apply Hmin].
      * intros item [<-|Hitem] Hv; [lia | now apply Hfirst].
    + destruct (IH best Hlt' Hs') as (v & Hin & Hmin & Hfirst).
      exists v. split.
      * destruct Hin as [E|Hin]; [now left | now right; right].
      * pose proof (Hmin best (or_introl eq_refl)) as Hbv.
        split.
        -- intros item [<-|[<-|Hitem]]; [assumption | lia |].
           apply Hmin. now right.
        -- intros item [<-|[<-|Hitem]] Hv.
           ++ now apply Hfirst; [left|].
           ++ assert (snd best = v) by lia.
              pose proof (Hfirst best (or_introl eq_refl) H). lia.
           ++ apply Hfirst; [now right | exact Hv].
Qed.

Section GroupExtremes.
Context {Row : Type} (key : Row -> Z) (flag : Row -> bool).

Lemma group_sums_sorted df :
  StronglySorted Z.lt (map fst (group_sums (groupby_agg key flag df))).
Proof.
  unfold group_sums. rewrite map_map. cbn [fst].
  apply groupby_sorted.
Qed.

Lemma group_sums_complete df r :
  In r df ->
  In (key r, count_rows (fun o => (key o =? key r) && flag o) df)
     (group_sums (groupby_agg key flag df)).
Proof.
  intros Hr.
  assert (Hk : In (key r) (map fst (groupby_agg key flag df)))
    by (apply groupby_keys; now apply in_map).
  apply in_map_iff in Hk as ([k st] & E & Hin). cbn [fst] in E. subst k.
  assert (Hs : In (key r, g_sum st) (group_sums (groupby_agg key flag df))).
  { unfold group_sums. apply in_map_iff. now exists (key r, st). }
  destruct (group_sums_In key flag df _ _ Hs) as (_ & E).
  now rewrite <- E.
Qed.

Lemma group_sums_nonempty df :
  df <> [] -> group_sums (groupby_agg key flag df) <> [].
Proof.
  destruct df as [|r df]; [contradiction|]. intros _ E.
  pose proof (group_sums_complete (r :: df) r (or_introl eq_refl)) as H.
  rewrite E in H. contradiction.
Qed.

Lemma sorted_head_lt (s : list (Z * Z)) item :
  StronglySorted Z.lt (map fst (item :: s)) ->
  Forall (fun it => fst item < fst it) s /\ StronglySorted Z.lt (map fst s).
Proof.
  cbn [map]. intros H. inversion H as [|? ? Hs Hall]; subst.
  split; [|exact Hs]. now rewrite Forall_map in Hall.
Qed.

(** The label [idxmax] returns on the sums of the groups: a key of the
    frame whose number of flagged rows is the largest, and the smallest
    such key. *)
Lemma idxmax_groups df :
  df <> [] ->
  exists k,
    idxmax (group_sums (groupby_agg key flag df)) = Ok k
    /\ In k (map key df)
    /\ forall r, In r df ->
         count_rows (fun o => (key o =? key r) && flag o) df
         <= count_rows (fun o => (key o =? k) && flag o) df
         /\ (count_rows (fun o => (key o =? key r) && flag o) df
             = count_rows (fun o => (key o =? k) && flag o) df ->
             k <= key r).
Proof.
  intros Hne. pose proof (group_sums_nonempty df Hne) as Hs.
  pose proof (group_sums_sorted df) as Hsorted.
  pose proof (group_sums_In key flag df) as Hin.
  pose proof (group_sums_complete df) as Hcomplete.
  destruct (group_sums (groupby_agg key flag df)) as [|item s];
    [contradiction|].
  destruct (sorted_head_lt s item Hsorted) as (Hlt & Hs').
  destruct (idxmax_from_spec s item Hlt Hs') as (v & Hres & Hmax & Hfirst).
  exists (idxmax_from item s). split; [reflexivity|].
  destruct (Hin _ _ Hres) as (Hk & Hv). split; [exact Hk|].
  intros r Hr. specialize (Hcomplete r Hr).
  pose proof (Hmax _ Hcomplete) as H1. pose proof (Hfirst _ Hcomplete) as H2.
  cbn [fst snd] in H1, H2. rewrite <- Hv. split; [exact H1 | exact H2].
Qed.

Lemma idxmin_groups df :
  df <> [] ->
  exists k,
    idxmin (group_sums (groupby_agg key flag df)) = Ok k
    /\ In k (map key df)
    /\ forall r, In r df ->
         count_rows (fun o => (key o =? k) && flag o) df
         <= count_rows (fun o => (key o =? key r) && flag o) df
         /\ (count_rows (fun o => (key o =? key r) && flag o) df
             = count_rows (fun o => (key o =? k) && flag o) df ->
             k <= key r).
Proof.
  intros Hne. pose proof (group_sums_nonempty df Hne) as Hs.
  pose proof (group_sums_sorted df) as Hsorted.
  pose proof (group_sums_In key flag df) as Hin.
  pose proof (group_sums_complete df) as Hcomplete.
  destruct (group_sums (groupby_agg key flag df)) as [|item s];
    [contradiction|].
  destruct (sorted_head_lt s item Hsorted) as (Hlt & Hs').
  destruct (idxmin_from_spec s item Hlt Hs') as (v & Hres & Hmin & Hfirst).
  exists (idxmin_from item s). split; [reflexivity|].
  destruct (Hin _ _ Hres) as (Hk & Hv). split; [exact Hk|].
  intros r Hr. specialize (Hcomplete r Hr).
  pose proof (Hmin _ Hcomplete) as H1. pose proof (Hfirst _ Hcomplete) as H2.
  cbn [fst snd] in H1, H2. rewrite <- Hv. split; [exact H1 | exact H2].
Qed.

Lemma group_insert_total k b g :
  fold_right Z.add 0 (map (fun item => g_sum (snd item)) (group_insert k b g))
  = fold_right Z.add 0 (map (fun item => g_sum (snd item)) g) + flag_value b.
Proof.
  induction g as [|[k0 st] g IH]; cbn [group_insert map fold_right snd g_sum].
  - lia.
  - destruct (k <? k0); [cbn [map fold_right snd g_sum]; lia|].
    destruct (k =? k0); cbn [map fold_right snd g_sum]; [lia|].
    rewrite IH. lia.
Qed.

(** The sums of the groups add up to the number of flagged rows. *)
Lemma group_sums_total df :
  fold_right Z.add 0 (map snd (group_sums (groupby_agg key flag df)))
  = count_rows flag df.
Proof.
  unfold group_sums. rewrite map_map. cbn [snd].
  induction df as [|r df IH] using rev_ind; [reflexivity|].
  rewrite groupby_snoc, group_insert_total, IH, count_rows_snoc.
  reflexivity.
Qed.
End GroupExtremes.

Lemma generate_summary_report_run (data : list HongKongSunsetClouds.Observation) :
  data <> [] ->
  exists by_ wy bm wm,
    idxmax (group_sums (groupby_agg HongKongSunsetClouds.year
                          HongKongSunsetClouds.has_sunset_clouds data)) = Ok by_
    /\ idxmin (group_sums (groupby_agg HongKongSunsetClouds.year
                             HongKongSunsetClouds.has_sunset_clouds data)) = Ok wy
    /\ idxmax (group_sums (groupby_agg HongKongSunsetClouds.month
                             HongKongSunsetClouds.has_sunset_clouds data)) = Ok bm
    /\ idxmin (group_sums (groupby_agg HongKongSunsetClouds.month
                             HongKongSunsetClouds.has_sunset_clouds data)) = Ok wm
    /\ generate_summary_report data
       = Ok {| summary_total_days := Z.of_nat (length data);
               summary_cloud_days :=
                 count_rows HongKongSunsetClouds.has_sunset_clouds data;
               cloud_percentage :=
                 (IZR (count_rows HongKongSunsetClouds.has_sunset_clouds data)
                  / IZR (Z.of_nat (length data)) * 100)%R;
               yearly_counts :=
                 group_sums (groupby_agg HongKongSunsetClouds.year
                               HongKongSunsetClouds.has_sunset_clouds data);
               monthly_counts :=
                 group_sums (groupby_agg HongKongSunsetClouds.month
                               HongKongSunsetClouds.has_sunset_clouds data);
               best_year := by_; worst_year := wy;
               best_month := bm; worst_month := wm |}.
Proof.
  intros Hne.
  destruct (idxmax_groups HongKongSunsetClouds.year
              HongKongSunsetClouds.has_sunset_clouds data Hne) as (by_ & E1 & _).
  destruct (idxmin_groups HongKongSunsetClouds.year
              HongKongSunsetClouds.has_sunset_clouds data Hne) as (wy & E2 & _).
  destruct (idxmax_groups HongKongSunsetClouds.month
              HongKongSunsetClouds.has_sunset_clouds data Hne) as (bm & E3 & _).
  destruct (idxmin_groups HongKongSunsetClouds.month
              HongKongSunsetClouds.has_sunset_clouds data Hne) as (wm & E4 & _).
  exists by_, wy, bm, wm. repeat split; try assumption.
  unfold generate_summary_report.
  destruct data as [|r0 rest]; [contradiction|].
  remember (r0 :: rest) as data eqn:Hdata.
  replace (frame_column data HongKongSunsetClouds.has_sunset_clouds)
    with (Ok (map HongKongSunsetClouds.has_sunset_clouds data))
    by (subst data; reflexivity).
  cbv zeta. rewrite E1, E2, E3, E4, column_sum_count. reflexivity.
Qed.

(** X14. [generate_summary_report] raises KeyError on a frame without
    rows.  On any other frame it returns; the number of days with the
    phenomenon is at most the number of days, their percentage lies
    between 0 and 100, the years and the months of the two tables are in
    ascending order, and the yearly numbers as well as the monthly numbers
    add up to the number of days with the phenomenon. *)
Theorem X14_summary_totals (data : list HongKongSunsetClouds.Observation) :
  (data = [] -> generate_summary_report data = Raise KeyError)
  /\ (data <> [] ->
      exists r,
        generate_summary_report data = Ok r
        /\ summary_total_days r = Z.of_nat (length data)
        /\ 0 <= summary_cloud_days r <= summary_total_days r
        /\ (0 <= cloud_percentage r <= 100)%R
        /\ StronglySorted Z.lt (map fst (yearly_counts r))
        /\ StronglySorted Z.lt (map fst (monthly_counts r))
        /\ fold_right Z.add 0 (map snd (yearly_counts r))
           = summary_cloud_days r
        /\ fold_right Z.add 0 (map snd (monthly_counts r))
           = summary_cloud_days r).
Proof.
  split; [intros ->; reflexivity|].
  intros Hne.
  destruct (generate_summary_report_run data Hne)
    as (by_ & wy & bm & wm & _ & _ & _ & _ & Hr).
  eexists. split; [exact Hr|].
  cbn [summary_total_days summary_cloud_days cloud_percentage
       yearly_counts monthly_counts].
  assert (Hlen : 1 <= Z.of_nat (length data))
    by (destruct data; [contradiction|cbn [length]; lia]).
  assert (Hle : 0 <= count_rows HongKongSunsetClouds.has_sunset_clouds data
                <= Z.of_nat (length data)).
  { split; [apply count_rows_nonneg|]. rewrite <- count_rows_all.
    now apply count_rows_le. }
  split; [reflexivity|]. split; [exact Hle|].
  split; [now apply rate_in_percent|].
  split; [apply group_sums_sorted|]. split; [apply group_sums_sorted|].
  split; apply group_sums_total.
Qed.

Lemma X14_summary_totals_witness :
  generate_summary_report [] = Raise KeyError
  /\ exists df s' r,
       HongKongSunsetClouds.generate_realistic_data
           (G := MeanRandom) (P := NanosecondPlatform) 0%nat
       = Ok (df, s')
       /\ generate_summary_report df = Ok r
       /\ fold_right Z.add 0 (map snd (yearly_counts r))
          = summary_cloud_days r.
Proof.
  split; [apply (proj1 (X14_summary_totals [])); reflexivity|].
  destruct (builtin_some_row (1 / 2) 0%nat) as (df & s' & obs & Hrun & Hin).
  assert (Hne : df <> []) by (intros ->; contradiction).
  destruct (proj2 (X14_summary_totals df) Hne)
    as (r & Hr & _ & _ & _ & _ & _ & Hy & _).
  exists df, s', r. repeat split; assumption.
Defined.

(** X15. In the summary of a frame the best year is a year of the frame
    with the largest number of days with the phenomenon, and the earliest
    year with that number; the worst year is the earliest year with the
    smallest number; the best and the worst month are chosen the same way
    among the months of the frame. *)
Theorem X15_summary_best_and_worst
        (data : list HongKongSunsetClouds.Observation) r :
  generate_summary_report data = Ok r ->
  let in_year y :=
    count_rows (fun o => (HongKongSunsetClouds.year o =? y)
                         && HongKongSunsetClouds.has_sunset_clouds o) data in
  let in_month m :=
    count_rows (fun o => (HongKongSunsetClouds.month o =? m)
                         && HongKongSunsetClouds.has_sunset_clouds o) data in
  In (best_year r) (map HongKongSunsetClouds.year data)
  /\ In (worst_year r) (map HongKongSunsetClouds.year data)
  /\ In (best_month r) (map HongKongSunsetClouds.month data)
  /\ In (worst_month r) (map HongKongSunsetClouds.month data)
  /\ forall o, In o data ->
       (in_year (HongKongSunsetClouds.year o) <= in_year (best_year r)
        /\ (in_year (HongKongSunsetClouds.year o) = in_year (best_year r) ->
            best_year r <= HongKongSunsetClouds.year o))
       /\ (in_year (worst_year r) <= in_year (HongKongSunsetClouds.year o)
           /\ (in_year (HongKongSunsetClouds.year o) = in_year (worst_year r) ->
               worst_year r <= HongKongSunsetClouds.year o))
       /\ (in_month (HongKongSunsetClouds.month o) <= in_month (best_month r)
           /\ (in_month (HongKongSunsetClouds.month o) = in_month (best_month r) ->
               best_month r <= HongKongSunsetClouds.month o))
       /\ (in_month (worst_month r) <= in_month (HongKongSunsetClouds.month o)
           /\ (in_month (HongKongSunsetClouds.month o) = in_month (worst_month r) ->
               worst_month r <= HongKongSunsetClouds.month o)).
Proof.
  intros Hr in_year in_month.
  assert (Hne : data <> []) by (intros ->; discriminate).
  destruct (generate_summary_report_run data Hne)
    as (by_ & wy & bm & wm & E1 & E2 & E3 & E4 & Hrun).
  rewrite Hrun in Hr.
  apply (f_equal (fun x => match x with Ok y => y | Raise _ => r end)) in Hr.
  subst r. cbn [best_year worst_year best_month worst_month].
  destruct (idxmax_groups HongKongSunsetClouds.year
              HongKongSunsetClouds.has_sunset_clouds data Hne)
    as (k1 & F1 & I1 & P1).
  destruct (idxmin_groups HongKongSunsetClouds.year
              HongKongSunsetClouds.has_sunset_clouds data Hne)
    as (k2 & F2 & I2 & P2).
  destruct (idxmax_groups HongKongSunsetClouds.month
              HongKongSunsetClouds.has_sunset_clouds data Hne)
    as (k3 & F3 & I3 & P3).
  destruct (idxmin_groups HongKongSunsetClouds.month
              HongKongSunsetClouds.has_sunset_clouds data Hne)
    as (k4 & F4 & I4 & P4).
  assert (k1 = by_) by congruence. assert (k2 = wy) by congruence.
  assert (k3 = bm) by congruence. assert (k4 = wm) by congruence.
  subst k1 k2 k3 k4.
  repeat split; try assumption;
    try (now apply P1); try (now apply P2);
    try (now apply P3); try (now apply P4).
Qed.

Lemma X15_summary_best_and_worst_witness :
  exists df s' r,
    HongKongSunsetClouds.generate_realistic_data
        (G := MeanRandom) (P := NanosecondPlatform) 0%nat
    = Ok (df, s')
    /\ generate_summary_report df = Ok r
    /\ In (best_year r) (map HongKongSunsetClouds.year df)
    /\ In (worst_month r) (map HongKongSunsetClouds.month df).
Proof.
  destruct (builtin_some_row (1 / 2) 0%nat) as (df & s' & obs & Hrun & Hin).
  assert (Hne : df <> []) by (intros ->; contradiction).
  destruct (generate_summary_report_run df Hne)
    as (by_ & wy & bm & wm & _ & _ & _ & _ & Hr).
  eexists df, s', _. split; [exact Hrun|]. split; [exact Hr|].
  destruct (X15_summary_best_and_worst df _ Hr) as (H1 & _ & _ & H4 & _).
  split; [exact H1 | exact H4].
Defined.

(** ** Where the charts put a row *)

Lemma py_le_true x y : py_le x y = true <-> (x <= y)%R.
Proof.
  unfold py_le. destruct (Rle_dec x y); split; intros; try assumption;
    try reflexivity; try discriminate. contradiction.
Qed.

Lemma py_lt_true x y : py_lt x y = true <-> (x < y)%R.
Proof.
  unfold py_lt. destruct (Rlt_dec x y); split; intros; try assumption;
    try reflexivity; try discriminate. contradiction.
Qed.

Lemma note_size_cases i :
  ((i <= 3)%R /\ note_size i = 100)
  \/ ((3 < i <= 6)%R /\ note_size i = 150)
  \/ ((6 < i)%R /\ note_size i = 200).
Proof.
  unfold note_size, py_le.
  destruct (Rle_dec i 3); [left; now split|].
  destruct (Rle_dec i 6); [right; left; split; [lra|reflexivity]|].
  right; right; split; [lra|reflexivity].
Qed.

(** X16. In the musical score a day with the phenomenon whose intensity
    lies in [0, 10] is drawn as a note between the first and the fifth
    staff line, higher for a higher intensity; its size is 100 up to
    intensity 3, 150 up to 6 and 200 above; a note with a tail (intensity
    above 7) has size 200 and its flag, 0.9 above the note, stays below
    the upper limit 6 of the axis. *)
Theorem X16_note_on_staff (intensity : R) :
  (0 <= intensity <= 10)%R ->
  (1 <= note_position intensity <= 5)%R
  /\ (forall other, (intensity <= other)%R ->
                    (note_position intensity <= note_position other)%R
                    /\ note_size intensity <= note_size other)
  /\ (note_size intensity = 100 <-> (intensity <= 3)%R)
  /\ (note_size intensity = 150 <-> (3 < intensity <= 6)%R)
  /\ (note_size intensity = 200 <-> (6 < intensity)%R)
  /\ (note_has_tail intensity = true ->
      note_size intensity = 200 /\ (note_position intensity + 0.9 < 6)%R).
Proof.
  intros Hi.
  split; [unfold note_position; lra|]. split.
  - intros other Ho. split; [unfold note_position; lra|].
    destruct (note_size_cases intensity) as [[H1 ->]|[[H1 ->]|[H1 ->]]];
      destruct (note_size_cases other) as [[H2 ->]|[[H2 ->]|[H2 ->]]];
      try lia; lra.
  - destruct (note_size_cases intensity) as [[H1 E]|[[H1 E]|[H1 E]]];
      rewrite E;
      (split; [split; intros; try lia; lra|]);
      (split; [split; intros; try lia; lra|]);
      (split; [split; intros; try lia; lra|]);
      intros Ht; apply py_lt_true in Ht;
      (split; [try reflexivity; lra | unfold note_position; lra]).
Qed.

Lemma X16_note_on_staff_witness :
  (1 <= note_position 8 <= 5)%R /\ note_size 8 = 200.
Proof.
  destruct (X16_note_on_staff 8 ltac:(lra)) as (Hp & _ & _ & _ & Hs & _).
  split; [exact Hp|]. apply Hs. lra.
Defined.

(** X17. In the mandala a day with the phenomenon whose intensity lies in
    [0, 10] is drawn, in each of the layers 0 to 4, inside the ring of that
    layer, from 0.2 + 0.15 * layer to 0.2 + 0.15 * (layer + 1): the rings
    of two layers do not overlap, and with the rays of length 0.05 of the
    outer layer everything stays below the limit 1.2 of the axis. *)
Theorem X17_mandala_rings (layer : Z) (intensity : R) :
  0 <= layer <= 4 -> (0 <= intensity <= 10)%R ->
  (0.2 + 0.15 * IZR layer <= mandala_radius layer intensity
   <= 0.2 + 0.15 * (IZR layer + 1))%R
  /\ (mandala_radius layer intensity + 0.05 <= 1.2)%R
  /\ forall layer' intensity',
       layer < layer' <= 4 -> (0 <= intensity' <= 10)%R ->
       (mandala_radius layer intensity <= mandala_radius layer' intensity')%R.
Proof.
  intros Hl Hi.
  assert (Hring : forall l i, 0 <= l <= 4 -> (0 <= i <= 10)%R ->
                    (0.2 + 0.15 * IZR l <= mandala_radius l i
                     <= 0.2 + 0.15 * (IZR l + 1))%R).
  { intros l i Hl' Hi'.
    assert (Hc : l = 0 \/ l = 1 \/ l = 2 \/ l = 3 \/ l = 4) by lia.
    unfold mandala_radius. cbv zeta.
    destruct Hc as [->|[->|[->|[->| ->]]]]; cbn [Z.eqb Pos.eqb]; lra. }
  pose proof (Hring layer intensity Hl Hi) as H0.
  assert (IZR layer <= 4)%R by (apply IZR_le; lia).
  split; [exact H0|]. split; [lra|].
  intros layer' intensity' Hl' Hi'.
  pose proof (Hring layer' intensity' ltac:(lia) Hi') as H1.
  assert (IZR layer + 1 <= IZR layer')%R
    by (rewrite <- plus_IZR; apply IZR_le; lia).
  lra.
Qed.

Lemma X17_mandala_rings_witness :
  (0.2 + 0.15 * 2 <= mandala_radius 2 5 <= 0.2 + 0.15 * (2 + 1))%R
  /\ (mandala_radius 2 5 <= mandala_radius 3 0)%R.
Proof.
  destruct (X17_mandala_rings 2 5 ltac:(lia) ltac:(lra)) as (H1 & _ & H3).
  split; [exact H1|]. apply H3; [lia|lra].
Defined.

(** X18. In the circular calendar a day without the phenomenon lies at
    radius 0.3 with marker size 10, and a day with it, for an intensity in
    [0, 10], at a radius from 0.5 to 1 with a marker size from 20 to 70:
    the two kinds of days never share a radius or a size, and all lie
    inside the limits 0 and 1.4 of the axis. *)
Theorem X18_calendar_radius (intensity other : R) :
  (0 <= intensity <= 10)%R ->
  (0.5 <= calendar_radius true intensity <= 1)%R
  /\ (20 <= calendar_marker_size true intensity <= 70)%R
  /\ calendar_radius false other = 0.3%R
  /\ calendar_marker_size false other = 10%R
  /\ (calendar_radius false other < calendar_radius true intensity < 1.4)%R
  /\ (calendar_marker_size false other
      < calendar_marker_size true intensity)%R.
Proof.
  intros Hi. unfold calendar_radius, calendar_marker_size.
  repeat split; lra.
Qed.

Lemma X18_calendar_radius_witness :
  (0.5 <= calendar_radius true 10 <= 1)%R
  /\ (calendar_radius false 10 < calendar_radius true 10 < 1.4)%R.
Proof.
  destruct (X18_calendar_radius 10 10 ltac:(lra)) as (H1 & _ & _ & _ & H5 & _).
  split; [exact H1 | exact H5].
Defined.

(** X19. In the constellation map the star of a day with an intensity in
    [0, 10] lies at distance 5 + 2 * intensity from the centre: on or
    outside the innermost circle of radius 5 and inside the square from
    -25 to 25 that the axes show. *)
Theorem X19_star_inside_axes (day_of_year : Z) (intensity : R) :
  (0 <= intensity <= 10)%R ->
  let x := fst (star_position day_of_year intensity) in
  let y := snd (star_position day_of_year intensity) in
  (x * x + y * y = (5 + intensity * 2) * (5 + intensity * 2))%R
  /\ (5 * 5 <= x * x + y * y <= 25 * 25)%R
  /\ (-25 <= x <= 25)%R /\ (-25 <= y <= 25)%R.
Proof.
  intros Hi x y. unfold star_position in x, y. cbv zeta in x, y.
  cbn [fst snd] in x, y. subst x y.
  set (a := day_angle day_of_year). set (r := (5 + intensity * 2)%R).
  assert (Hr : (5 <= r <= 25)%R) by (unfold r; lra).
  pose proof (sin2_cos2 a) as Hsc. unfold Rsqr in Hsc.
  pose proof (COS_bound a) as Hc. pose proof (SIN_bound a) as Hs.
  assert (E : (r * cos a * (r * cos a) + r * sin a * (r * sin a) = r * r)%R).
  { transitivity (r * r * (sin a * sin a + cos a * cos a))%R; [ring|].
    rewrite Hsc. ring. }
  split; [exact E|]. split; [rewrite E; nra|]. split; nra.
Qed.

Lemma X19_star_inside_axes_witness :
  (-25 <= fst (star_position 100 10) <= 25)%R.
Proof.
  destruct (X19_star_inside_axes 100 10 ltac:(lra)) as (_ & _ & Hx & _).
  exact Hx.
Defined.

(** X20. The mandala and the constellation map turn a day of the year
    into the angle 2 * pi * day / 365.  The days 1 to 365 get increasing
    angles within one turn, and day 366 of a leap year, such as the year
    2020 of the mandala, points in the direction of day 1. *)
Theorem X20_day_angle (a b : Z) :
  1 <= a -> a < b -> b <= 365 ->
  (0 < day_angle a < day_angle b)%R
  /\ (day_angle b <= 2 * PI)%R
  /\ cos (day_angle 366) = cos (day_angle 1)
  /\ sin (day_angle 366) = sin (day_angle 1).
Proof.
  intros Ha Hab Hb. unfold day_angle.
  pose proof PI_RGT_0 as Hpi.
  assert (1 <= IZR a)%R by (apply IZR_le; lia).
  assert (IZR a < IZR b)%R by (apply IZR_lt; lia).
  assert (IZR b <= 365)%R by (apply IZR_le; lia).
  assert (E : (2 * PI * 366 / 365 = 2 * PI * 1 / 365 + 2 * PI)%R) by lra.
  split; [split|split; [|split]].
  - apply Rmult_lt_0_compat; [nra|lra].
  - apply Rmult_lt_compat_r; [lra|nra].
  - apply Rmult_le_reg_r with 365%R; [lra|].
    unfold Rdiv. rewrite Rmult_assoc, Rinv_l by lra. nra.
  - rewrite E, cos_plus, cos_2PI, sin_2PI. ring.
  - rewrite E, sin_plus, cos_2PI, sin_2PI. ring.
Qed.

Lemma X20_day_angle_witness :
  (0 < day_angle 1 < day_angle 365)%R
  /\ cos (day_angle 366) = cos (day_angle 1).
Proof.
  destruct (X20_day_angle 1 365 ltac:(lia) ltac:(lia) ltac:(lia))
    as (H1 & _ & H3 & _).
  split; [exact H1 | exact H3].
Defined.

(** ** The diagnostic fields of a row *)


(** X21. The two diagnostic fields of a generated row: season_factor is
    0.6 in March to May, 0.4 in June to August, 1.2 in September to
    November and 1.0 in December to February; enso_phase lies between -1
    and 1, is the same for all days of a year, and is 0 throughout the
    first year of the window. *)
Theorem X21_diagnostic_fields (G : NumpyRandom) (P : Platform)
        (start_year end_year : Z)
        (s : rng_state) df s' obs :
  HKODataCollector.generate_realistic_sunset_data start_year end_year s
  = Ok (df, s') ->
  In obs df ->
  HKODataCollector.season_factor obs
  = (if py_in (HKODataCollector.month obs) [3; 4; 5] then 0.6%R
     else if py_in (HKODataCollector.month obs) [6; 7; 8] then 0.4%R
     else if py_in (HKODataCollector.month obs) [9; 10; 11] then 1.2%R
     else 1.0%R)
  /\ HKODataCollector.enso_phase obs
     = sin (2 * PI * IZR (HKODataCollector.year obs - start_year) / 3.5)
  /\ (-1 <= HKODataCollector.enso_phase obs <= 1)%R
  /\ (HKODataCollector.year obs = start_year ->
      HKODataCollector.enso_phase obs = 0%R).
Proof.
  intros Hrun Hin.
  destruct (generated_row _ _ _ _ _ _ Hrun Hin) as (d & s1 & s2 & Hd & Ho).
  apply days_from_to_In in Hd as (_ & Hm & _).
  destruct (collector_tables_defined _ Hm) as (base & _ & _ & _ & Hb & _).
  apply observe_inv in Ho as (sf & e & p & s3 & Hp & Ho).
  rewrite (day_probability_run _ _ _ _ _ _ Hb) in Hp.
  apply Ok_value_inj in Hp.
  pose proof (f_equal (fun x => fst (fst x)) Hp) as Hsf.
  pose proof (f_equal (fun x => snd (fst x)) Hp) as He.
  cbn [fst snd] in Hsf, He. clear Hp.
  cbn [HKODataCollector.climate_cycles HKODataCollector.enso_cycle
       HKODataCollector.get_historical_weather_patterns] in He.
  apply day_row_inv in Ho
    as (i & du & c & cr & s4 & t & h & pr & v & w & _ & _ & ->).
  cbn [HKODataCollector.season_factor HKODataCollector.enso_phase
       HKODataCollector.month HKODataCollector.year].
  split; [rewrite <- Hsf; now apply season_factor_values|].
  split; [now rewrite <- He|]. split; [rewrite <- He; apply SIN_bound|].
  intros Hy. rewrite <- He, Hy, Z.sub_diag. apply sin_of_zero_cycle.
Qed.

Lemma X21_diagnostic_fields_witness :
  exists df s' obs,
    HKODataCollector.generate_realistic_sunset_data
      (G := MeanRandom) (P := NanosecondPlatform) 2020 2020 0%nat = Ok (df, s')
    /\ In obs df
    /\ (-1 <= HKODataCollector.enso_phase obs <= 1)%R.
Proof.
  destruct (collector_some_row MeanRandom NanosecondPlatform 0%nat)
      as (df & s' & obs & Hrun & Hin).
  exists df, s', obs. split; [exact Hrun|]. split; [exact Hin|].
  destruct (X21_diagnostic_fields MeanRandom NanosecondPlatform 2020 2020 0%nat df s' obs Hrun Hin)
    as (_ & _ & Hb & _).
  exact Hb.
Defined.
